(** * Order placement and cancellation of the e-commerce backend

    A shallow embedding of the cart controller (addToCart, updateCartItem,
    removeFromCart, clearCart, getCart), the order controller (createOrder,
    cancelOrder), the admin order-status update and the email service, over
    an explicit model of the Prisma store.

    Conventions.
    - Prisma [String @db.ObjectId] values are strings; [auto()] picks an id
      that occurs nowhere in the store.
    - Prisma [Int] columns (stock, quantity) are integers [Z]; Prisma [Float]
      columns (price, totalAmount) are binary64 numbers, as in JavaScript.
    - A handler is a computation over the world (store and log) that either
      answers with a JSON response or ends with an error handed to [next]
      (directly, or thrown and forwarded by [asyncHandler]).
    - [prisma.$transaction] commits the writes of its callback when the
      callback returns and discards them when it throws. *)

From Stdlib Require Import Floats ZArith Lia.
From stdpp Require Import gmap strings list pretty.

Open Scope string_scope.
Open Scope Z_scope.

(** ** Data model (schema.prisma) *)

Abbreviation ObjectId := string (only parsing).

Inductive OrderStatus := PENDING | PROCESSING | SHIPPED | DELIVERED | CANCELLED.

Global Instance OrderStatus_eq_dec : EqDecision OrderStatus.
Proof. solve_decision. Defined.

(** Product rows are keyed by their id in the store. *)
Record Product := mkProduct {
  title : string;
  price : float;
  stock : Z }.

Record Cart := mkCart {
  cart_id : ObjectId;
  cart_userId : ObjectId }.

Record CartItem := mkCartItem {
  ci_id : ObjectId;
  ci_cartId : ObjectId;
  ci_productId : ObjectId;
  ci_quantity : Z;
  ci_price : float }.

(** Order rows are keyed by their id in the store. *)
Record Order := mkOrder {
  order_userId : ObjectId;
  totalAmount : float;
  status : OrderStatus;
  shippingAddress : string;
  paymentMethod : string }.

Record OrderItem := mkOrderItem {
  oi_id : ObjectId;
  oi_orderId : ObjectId;
  oi_productId : ObjectId;
  oi_quantity : Z;
  oi_price : float }.

Record DB := mkDB {
  products : gmap string Product;
  carts : list Cart;
  cartItems : list CartItem;
  orders : gmap string Order;
  orderItems : list OrderItem }.

(** The authenticated user attached to the request by [protect]. *)
Record User := mkUser {
  user_id : ObjectId;
  user_email : string;
  user_name : string }.

(** ** Errors, log and the handler monad *)

(** The errors of utils/appError that the controllers raise, each with the
    message the controller gives it, and the two exceptions the handlers can
    throw besides. Both ways of ending a handler, [return next(err)] and a
    throw forwarded by [asyncHandler], are the error outcome of the monad. *)
Inductive AppError :=
| ValidationError (message : string)
| NotFoundError (message : string)
| TypeError            (* a property read on null *)
| RecordNotFound.      (* Prisma: the record to update does not exist *)

Inductive LogLine :=
| LogInfo (message : string)
| LogError (message : string).

Record World := mkWorld {
  db : DB;
  logs : list LogLine }.

Inductive Result (A : Type) :=
| Ok (a : A)
| Err (e : AppError).
Arguments Ok {A} a.
Arguments Err {A} e.

Definition M (A : Type) : Type := World -> Result A * World.

Definition ret {A} (a : A) : M A := fun w => (Ok a, w).

Definition bind {A B} (c : M A) (k : A -> M B) : M B :=
  fun w => match c w with
           | (Ok a, w') => k a w'
           | (Err e, w') => (Err e, w')
           end.

Definition raise {A} (e : AppError) : M A := fun w => (Err e, w).

Notation "'let*' x ':=' c 'in' k" := (bind c (fun x => k))
  (at level 10, x name, c at level 100, k at level 200).
Notation "c ';;' k" := (bind c (fun _ => k))
  (at level 100, k at level 200, right associativity).

Definition getDB : M DB := fun w => (Ok (db w), w).

Definition putDB (d : DB) : M unit :=
  fun w => (Ok tt, {| db := d; logs := logs w |}).

Definition logLine (l : LogLine) : M unit :=
  fun w => (Ok tt, {| db := db w; logs := logs w ++ [l] |}).

(** [for (const x of xs) { await f(x) }] *)
Fixpoint forEach {A} (xs : list A) (f : A -> M unit) : M unit :=
  match xs with
  | [] => ret tt
  | x :: rest => f x ;; forEach rest f
  end.

(** [prisma.$transaction(async (tx) => body)] *)
Definition transaction {A} (body : M A) : M A :=
  fun w => match body w with
           | (Ok a, w') => (Ok a, w')
           | (Err e, w') => (Err e, {| db := db w; logs := logs w' |})
           end.

(** ** The Prisma client *)

Definition used_ids (d : DB) : list string :=
  map fst (map_to_list (products d))
  ++ flat_map (fun c => [cart_id c; cart_userId c]) (carts d)
  ++ flat_map (fun i => [ci_id i; ci_cartId i; ci_productId i]) (cartItems d)
  ++ map fst (map_to_list (orders d))
  ++ map (fun kv => order_userId (snd kv)) (map_to_list (orders d))
  ++ flat_map (fun i => [oi_id i; oi_orderId i; oi_productId i]) (orderItems d).

(** [@default(auto())] *)
Definition auto (d : DB) : ObjectId := fresh (used_ids d).

Definition set_stock (p : Product) (n : Z) : Product :=
  {| title := title p; price := price p; stock := n |}.

Definition set_status (o : Order) (st : OrderStatus) : Order :=
  {| order_userId := order_userId o; totalAmount := totalAmount o; status := st;
     shippingAddress := shippingAddress o; paymentMethod := paymentMethod o |}.

Definition with_products (d : DB) (ps : gmap string Product) : DB :=
  {| products := ps; carts := carts d; cartItems := cartItems d;
     orders := orders d; orderItems := orderItems d |}.

Definition with_carts (d : DB) (cs : list Cart) : DB :=
  {| products := products d; carts := cs; cartItems := cartItems d;
     orders := orders d; orderItems := orderItems d |}.

Definition with_cartItems (d : DB) (cis : list CartItem) : DB :=
  {| products := products d; carts := carts d; cartItems := cis;
     orders := orders d; orderItems := orderItems d |}.

Definition with_orders (d : DB) (os : gmap string Order) : DB :=
  {| products := products d; carts := carts d; cartItems := cartItems d;
     orders := os; orderItems := orderItems d |}.

Definition with_orderItems (d : DB) (ois : list OrderItem) : DB :=
  {| products := products d; carts := carts d; cartItems := cartItems d;
     orders := orders d; orderItems := ois |}.

(** [prisma.product.findUnique({ where: { id } })] *)
Definition product_findUnique (id : ObjectId) : M (option Product) :=
  let* d := getDB in ret (products d !! id).

(** [product.update({ where: { id }, data: { stock: { increment: n } } })];
    [decrement: n] is [increment: -n]. *)
Definition product_update_stock (id : ObjectId) (n : Z) : M unit :=
  let* d := getDB in
  match products d !! id with
  | None => raise RecordNotFound
  | Some p => putDB (with_products d (<[id := set_stock p (stock p + n)]> (products d)))
  end.

(** [prisma.cart.findUnique({ where: { userId } })] *)
Definition cart_findUnique (userId : ObjectId) : M (option Cart) :=
  let* d := getDB in
  ret (find (fun c => bool_decide (cart_userId c = userId)) (carts d)).

(** [prisma.cart.create({ data: { userId } })] *)
Definition cart_create (userId : ObjectId) : M Cart :=
  let* d := getDB in
  let c := {| cart_id := auto d; cart_userId := userId |} in
  putDB (with_carts d (carts d ++ [c])) ;;
  ret c.

Definition itemsOfCart (d : DB) (cartId : ObjectId) : list CartItem :=
  filter (fun i => ci_cartId i = cartId) (cartItems d).

(** [include: { items: { include: { product: true } } }] *)
Definition cart_items_with_product (d : DB) (cartId : ObjectId)
  : list (CartItem * option Product) :=
  map (fun i => (i, products d !! ci_productId i)) (itemsOfCart d cartId).

(** [prisma.cartItem.findFirst({ where: { cartId, productId } })] *)
Definition cartItem_findFirst_product (cartId productId : ObjectId) : M (option CartItem) :=
  let* d := getDB in
  ret (find (fun i => bool_decide (ci_cartId i = cartId) && bool_decide (ci_productId i = productId))
            (cartItems d)).

(** [prisma.cartItem.findFirst({ where: { id, cartId } })] *)
Definition cartItem_findFirst_id (id cartId : ObjectId) : M (option CartItem) :=
  let* d := getDB in
  ret (find (fun i => bool_decide (ci_id i = id) && bool_decide (ci_cartId i = cartId))
            (cartItems d)).

(** [prisma.cartItem.update({ where: { id }, data })] *)
Definition cartItem_update (id : ObjectId) (f : CartItem -> CartItem) : M unit :=
  let* d := getDB in
  if existsb (fun i => bool_decide (ci_id i = id)) (cartItems d)
  then putDB (with_cartItems d
                (map (fun i => if bool_decide (ci_id i = id) then f i else i) (cartItems d)))
  else raise RecordNotFound.

(** [prisma.cartItem.create({ data: { cartId, productId, quantity, price } })] *)
Definition cartItem_create (cartId productId : ObjectId) (quantity : Z) (p : float) : M unit :=
  let* d := getDB in
  putDB (with_cartItems d
           (cartItems d ++ [{| ci_id := auto d; ci_cartId := cartId; ci_productId := productId;
                               ci_quantity := quantity; ci_price := p |}])).

(** [prisma.cartItem.delete({ where: { id } })] *)
Definition cartItem_delete (id : ObjectId) : M unit :=
  let* d := getDB in
  if existsb (fun i => bool_decide (ci_id i = id)) (cartItems d)
  then putDB (with_cartItems d (filter (fun i => ci_id i <> id) (cartItems d)))
  else raise RecordNotFound.

(** [cartItem.deleteMany({ where: { cartId } })] *)
Definition cartItem_deleteMany (cartId : ObjectId) : M unit :=
  let* d := getDB in
  putDB (with_cartItems d (filter (fun i => ci_cartId i <> cartId) (cartItems d))).

(** [order.create({ data })]: returns the id given to the new order. *)
Definition order_create (o : Order) : M ObjectId :=
  let* d := getDB in
  let id := auto d in
  putDB (with_orders d (<[id := o]> (orders d))) ;;
  ret id.

(** [orderItem.create({ data: { orderId, productId, quantity, price } })] *)
Definition orderItem_create (orderId productId : ObjectId) (quantity : Z) (p : float) : M unit :=
  let* d := getDB in
  putDB (with_orderItems d
           (orderItems d ++ [{| oi_id := auto d; oi_orderId := orderId; oi_productId := productId;
                                oi_quantity := quantity; oi_price := p |}])).

(** [order.update({ where: { id }, data: { status } })] *)
Definition order_update_status (id : ObjectId) (st : OrderStatus) : M Order :=
  let* d := getDB in
  match orders d !! id with
  | None => raise RecordNotFound
  | Some o =>
      putDB (with_orders d (<[id := set_status o st]> (orders d))) ;;
      ret (set_status o st)
  end.

Definition itemsOfOrder (d : DB) (orderId : ObjectId) : list OrderItem :=
  filter (fun i => oi_orderId i = orderId) (orderItems d).

(** [order.findUnique / findFirst ... include: { items: { include: { product } } }] *)
Record OrderView := mkOrderView {
  ov_id : ObjectId;
  ov_order : Order;
  ov_items : list (OrderItem * option Product) }.

Definition order_view (d : DB) (id : ObjectId) : option OrderView :=
  match orders d !! id with
  | None => None
  | Some o =>
      Some {| ov_id := id; ov_order := o;
              ov_items := map (fun i => (i, products d !! oi_productId i)) (itemsOfOrder d id) |}
  end.

Definition order_findUnique (id : ObjectId) : M (option OrderView) :=
  let* d := getDB in ret (order_view d id).

(** [order.findFirst({ where: { id, userId }, include: { items: true } })] *)
Definition order_findFirst (id userId : ObjectId) : M (option OrderView) :=
  let* d := getDB in
  ret (match order_view d id with
       | Some v => if bool_decide (order_userId (ov_order v) = userId) then Some v else None
       | None => None
       end).

Record CartView := mkCartView {
  cv_cart : Cart;
  cv_items : list (CartItem * option Product) }.

(** [cart.findUnique({ where: { userId }, include: { items: { include: { product } } } })] *)
Definition cart_findUnique_include (userId : ObjectId) : M (option CartView) :=
  let* d := getDB in
  ret (match find (fun c => bool_decide (cart_userId c = userId)) (carts d) with
       | None => None
       | Some c => Some {| cv_cart := c; cv_items := cart_items_with_product d (cart_id c) |}
       end).

(** [cart.findUnique({ where: { id }, include: { items: { include: { product } } } })] *)
Definition cart_findUnique_id_include (id : ObjectId) : M (option CartView) :=
  let* d := getDB in
  ret (match find (fun c => bool_decide (cart_id c = id)) (carts d) with
       | None => None
       | Some c => Some {| cv_cart := c; cv_items := cart_items_with_product d (cart_id c) |}
       end).

(** ** Requests and responses *)

(** [res.status(code).json({ status: 'success', data })] *)
Record Response (A : Type) := json {
  statusCode : nat;
  data : A }.
Arguments json {A} statusCode data.
Arguments statusCode {A} r.
Arguments data {A} r.

(** The result of a zod [safeParse]. *)
Inductive SafeParse (A : Type) :=
| ParseError (message : string)
| ParseOk (parsed : A).
Arguments ParseError {A} message.
Arguments ParseOk {A} parsed.

(** The body of POST /api/cart once read as [{ productId, quantity }] with an
    integral quantity; other shapes are rejected by the schema as well. *)
Record CartItemBody := mkCartItemBody {
  body_productId : string;
  body_quantity : Z }.

(** validations/cartValidation: [productId: z.string().min(1)],
    [quantity: z.number().int().positive()]. *)
Definition validateCartItem (b : CartItemBody) : SafeParse CartItemBody :=
  if bool_decide (body_productId b = "") then ParseError "Product ID is required"
  else if bool_decide (body_quantity b <= 0) then ParseError "Quantity must be positive"
  else ParseOk b.

Record OrderData := mkOrderData {
  od_shippingAddress : string;
  od_paymentMethod : string }.

Record EmailOptions := mkEmail {
  to : string;
  subject : string;
  html : string }.

(** What the controllers import and this development does not define:
    the order schema of validations/orderValidation, the SendGrid
    transport ([true]: delivered, [false]: [sgMail.send] rejects) and the
    text of the two HTML templates of the email service. *)
Record Services (Body : Type) := mkServices {
  validateOrder : Body -> SafeParse OrderData;
  sgMail_send : EmailOptions -> bool;
  orderConfirmationHtml : string -> string -> float -> list (string * Z * float) -> string;
  orderStatusHtml : string -> string -> string -> string }.
Arguments validateOrder {Body} s b.
Arguments sgMail_send {Body} s msg.
Arguments orderConfirmationHtml {Body} s name orderId total lines.
Arguments orderStatusHtml {Body} s name orderId statusName.

(** A Prisma [Int] read as a JavaScript number. *)
Definition number_of_Z (z : Z) : float :=
  match z with
  | Z0 => 0%float
  | Zpos _ => PrimFloat.of_uint63 (Uint63.of_Z z)
  | Zneg p => (- PrimFloat.of_uint63 (Uint63.of_Z (Zpos p)))%float
  end.

(** [items.reduce((sum, item) => sum + item.price * item.quantity, 0)] *)
Definition cartTotal (items : list (CartItem * option Product)) : float :=
  fold_left (fun sum item => (sum + ci_price item.1 * number_of_Z (ci_quantity item.1))%float)
            items 0%float.

(** The same sum over the line items of an order. *)
Definition orderTotal (items : list OrderItem) : float :=
  fold_left (fun sum item => (sum + oi_price item * number_of_Z (oi_quantity item))%float)
            items 0%float.

Definition insufficientStockMessage (p : Product) (requested : Z) : string :=
  title p ++ " has only " ++ pretty (stock p) ++ " items in stock, but you requested "
          ++ pretty requested.

Definition parseStatus (s : string) : option OrderStatus :=
  if bool_decide (s = "PENDING") then Some PENDING
  else if bool_decide (s = "PROCESSING") then Some PROCESSING
  else if bool_decide (s = "SHIPPED") then Some SHIPPED
  else if bool_decide (s = "DELIVERED") then Some DELIVERED
  else if bool_decide (s = "CANCELLED") then Some CANCELLED
  else None.

Section Controllers.
Context {Body : Type} (sv : Services Body).

(** ** services/emailService *)

(** [try { await sgMail.send(msg); logger.info(..); return true }
     catch (error) { logger.error(..); return false }] *)
Definition sendEmail (msg : EmailOptions) : M bool :=
  if sgMail_send sv msg
  then logLine (LogInfo ("Email sent successfully to " ++ to msg)) ;; ret true
  else logLine (LogError "Error sending email:") ;; ret false.

(** [orderDetails.items.map(item => .. item.product.title .. item.quantity .. item.price ..)] *)
Fixpoint emailLines (items : list (OrderItem * option Product))
  : option (list (string * Z * float)) :=
  match items with
  | [] => Some []
  | (i, Some p) :: rest =>
      match emailLines rest with
      | Some ls => Some ((title p, oi_quantity i, oi_price i) :: ls)
      | None => None
      end
  | (_, None) :: _ => None
  end.

Definition sendOrderConfirmationEmail (email name orderId : string)
    (orderDetails : option OrderView) : M bool :=
  match orderDetails with
  | None => raise TypeError
  | Some v =>
      match emailLines (ov_items v) with
      | None => raise TypeError
      | Some ls =>
          sendEmail {| to := email;
                       subject := "Order Confirmation #" ++ orderId;
                       html := orderConfirmationHtml sv name orderId
                                 (totalAmount (ov_order v)) ls |}
      end
  end.

Definition sendOrderStatusUpdateEmail (email name orderId st : string) : M bool :=
  sendEmail {| to := email;
               subject := "Order Status Update #" ++ orderId;
               html := orderStatusHtml sv name orderId st |}.

(** ** controllers/orderController *)

(** The stock check of createOrder:
    [for (const item of cart.items) if (item.quantity > item.product.stock) return next(..)] *)
Definition checkStock (items : list (CartItem * option Product)) : M unit :=
  forEach items (fun item =>
    match item.2 with
    | None => raise TypeError
    | Some p =>
        if bool_decide (ci_quantity item.1 > stock p)
        then raise (ValidationError (insufficientStockMessage p (ci_quantity item.1)))
        else ret tt
    end).

(** The callback of the transaction of createOrder. *)
Definition createOrderTx (user : User) (od : OrderData) (cart : CartView)
    (total : float) : M ObjectId :=
  let* newOrder := order_create {| order_userId := user_id user;
                                   totalAmount := total;
                                   status := PENDING;
                                   shippingAddress := od_shippingAddress od;
                                   paymentMethod := od_paymentMethod od |} in
  forEach (cv_items cart) (fun item =>
    orderItem_create newOrder (ci_productId item.1) (ci_quantity item.1) (ci_price item.1) ;;
    product_update_stock (ci_productId item.1) (- ci_quantity item.1)) ;;
  cartItem_deleteMany (cart_id (cv_cart cart)) ;;
  ret newOrder.

(** createOrder from the point where [prisma.cart.findUnique] has answered. *)
Definition createOrderFromCart (user : User) (od : OrderData) (cart : option CartView)
  : M (Response (option OrderView)) :=
  match cart with
  | None => raise (ValidationError "Cart is empty")
  | Some c =>
      if bool_decide (length (cv_items c) = 0%nat)
      then raise (ValidationError "Cart is empty")
      else
        checkStock (cv_items c) ;;
        let total := cartTotal (cv_items c) in
        let* order := transaction (createOrderTx user od c total) in
        let* completeOrder := order_findUnique order in
        sendOrderConfirmationEmail (user_email user) (user_name user) order completeOrder ;;
        ret (json 201 completeOrder)
  end.

Definition createOrder (user : User) (body : Body) : M (Response (option OrderView)) :=
  match validateOrder sv body with
  | ParseError message => raise (ValidationError message)
  | ParseOk od =>
      let* cart := cart_findUnique_include (user_id user) in
      createOrderFromCart user od cart
  end.

(** The callback of the transaction of cancelOrder. *)
Definition cancelOrderTx (id : ObjectId) (order : OrderView) : M Order :=
  let* cancelled := order_update_status id CANCELLED in
  forEach (ov_items order) (fun item =>
    product_update_stock (oi_productId item.1) (oi_quantity item.1)) ;;
  ret cancelled.

Definition cancelOrder (user : User) (id : ObjectId) : M (Response Order) :=
  let* order := order_findFirst id (user_id user) in
  match order with
  | None => raise (NotFoundError "Order not found")
  | Some o =>
      if bool_decide (status (ov_order o) <> PENDING)
         && bool_decide (status (ov_order o) <> PROCESSING)
      then raise (ValidationError "Order cannot be cancelled at this stage")
      else
        let* updatedOrder := transaction (cancelOrderTx id o) in
        sendOrderStatusUpdateEmail (user_email user) (user_name user) id "CANCELLED" ;;
        ret (json 200 updatedOrder)
  end.

(** ** controllers/adminController: updateOrderStatus *)

Definition updateOrderStatus (id : ObjectId) (st : string) : M (Response Order) :=
  match parseStatus st with
  | None => raise (NotFoundError "Invalid status")
  | Some s =>
      let* order := order_findUnique id in
      match order with
      | None => raise (NotFoundError "Order not found")
      | Some _ =>
          let* updatedOrder := order_update_status id s in
          ret (json 200 updatedOrder)
      end
  end.

(** ** controllers/cartController *)

Definition getCart (user : User) : M (Response (option CartView)) :=
  let* cart := cart_findUnique_include (user_id user) in
  match cart with
  | None =>
      let* newCart := cart_create (user_id user) in
      let* d := getDB in
      ret (json 200 (Some {| cv_cart := newCart;
                             cv_items := cart_items_with_product d (cart_id newCart) |}))
  | Some c => ret (json 200 (Some c))
  end.

Definition addToCart (user : User) (body : CartItemBody) : M (Response (option CartView)) :=
  match validateCartItem body with
  | ParseError message => raise (ValidationError message)
  | ParseOk b =>
      let productId := body_productId b in
      let quantity := body_quantity b in
      let* product := product_findUnique productId in
      match product with
      | None => raise (NotFoundError "Product not found")
      | Some p =>
          if bool_decide (quantity > stock p)
          then raise (ValidationError
                        ("Not enough stock. Only " ++ pretty (stock p) ++ " available."))
          else
            let* found := cart_findUnique (user_id user) in
            let* cart := match found with
                         | Some c => ret c
                         | None => cart_create (user_id user)
                         end in
            let* existingItem := cartItem_findFirst_product (cart_id cart) productId in
            match existingItem with
            | Some item =>
                let newQuantity := ci_quantity item + quantity in
                if bool_decide (newQuantity > stock p)
                then raise (ValidationError
                              ("Cannot add more. Only " ++ pretty (stock p) ++ " available."))
                else
                  cartItem_update (ci_id item)
                    (fun i => {| ci_id := ci_id i; ci_cartId := ci_cartId i;
                                 ci_productId := ci_productId i;
                                 ci_quantity := newQuantity; ci_price := price p |}) ;;
                  let* updatedCart := cart_findUnique_id_include (cart_id cart) in
                  ret (json 200 updatedCart)
            | None =>
                cartItem_create (cart_id cart) productId quantity (price p) ;;
                let* updatedCart := cart_findUnique_id_include (cart_id cart) in
                ret (json 200 updatedCart)
            end
      end
  end.

(** [quantity] is [req.body.quantity] read by [parseInt]: [None] when the
    field is absent, [Some q] otherwise. *)
Definition updateCartItem (user : User) (id : ObjectId) (quantity : option Z)
  : M (Response (option CartView)) :=
  match quantity with
  | None => raise (ValidationError "Quantity is required")
  | Some q =>
      if bool_decide (q = 0) then raise (ValidationError "Quantity is required")
      else if bool_decide (q < 1)
      then raise (ValidationError "Quantity must be a positive number")
      else
        let* cart := cart_findUnique (user_id user) in
        match cart with
        | None => raise (NotFoundError "Cart not found")
        | Some c =>
            let* cartItem := cartItem_findFirst_id id (cart_id c) in
            match cartItem with
            | None => raise (NotFoundError "Item not found in cart")
            | Some item =>
                let* product := product_findUnique (ci_productId item) in
                match product with
                | None => raise TypeError
                | Some p =>
                    if bool_decide (q > stock p)
                    then raise (ValidationError
                                  ("Not enough stock. Only " ++ pretty (stock p) ++ " available."))
                    else
                      cartItem_update id
                        (fun i => {| ci_id := ci_id i; ci_cartId := ci_cartId i;
                                     ci_productId := ci_productId i;
                                     ci_quantity := q; ci_price := ci_price i |}) ;;
                      let* updatedCart := cart_findUnique_id_include (cart_id c) in
                      ret (json 200 updatedCart)
                end
            end
        end
  end.

Definition removeFromCart (user : User) (id : ObjectId) : M (Response (option CartView)) :=
  let* cart := cart_findUnique (user_id user) in
  match cart with
  | None => raise (NotFoundError "Cart not found")
  | Some c =>
      let* cartItem := cartItem_findFirst_id id (cart_id c) in
      match cartItem with
      | None => raise (NotFoundError "Item not found in cart")
      | Some _ =>
          cartItem_delete id ;;
          let* updatedCart := cart_findUnique_id_include (cart_id c) in
          ret (json 200 updatedCart)
      end
  end.

Definition clearCart (user : User) : M (Response (option CartView)) :=
  let* cart := cart_findUnique (user_id user) in
  match cart with
  | None => raise (NotFoundError "Cart not found")
  | Some c =>
      cartItem_deleteMany (cart_id c) ;;
      let* emptyCart := cart_findUnique_id_include (cart_id c) in
      ret (json 200 emptyCart)
  end.

(** ** The API as a transition system *)

Inductive Request :=
| GetCart (user : User)
| AddToCart (user : User) (body : CartItemBody)
| UpdateCartItem (user : User) (id : ObjectId) (quantity : option Z)
| RemoveFromCart (user : User) (id : ObjectId)
| ClearCart (user : User)
| CreateOrder (user : User) (body : Body)
| CancelOrder (user : User) (id : ObjectId)
| UpdateOrderStatus (id : ObjectId) (st : string).

(** The world after a request has been served (its response is dropped). *)
Definition handle (r : Request) (w : World) : World :=
  match r with
  | GetCart u => (getCart u w).2
  | AddToCart u b => (addToCart u b w).2
  | UpdateCartItem u id q => (updateCartItem u id q w).2
  | RemoveFromCart u id => (removeFromCart u id w).2
  | ClearCart u => (clearCart u w).2
  | CreateOrder u b => (createOrder u b w).2
  | CancelOrder u id => (cancelOrder u id w).2
  | UpdateOrderStatus id st => (updateOrderStatus id st w).2
  end.

Definition run (rs : list Request) (w : World) : World :=
  fold_left (fun w r => handle r w) rs w.

End Controllers.

(** ** Vocabulary of the specification *)

(** A line of a cart or of an order: product, quantity, price. *)
Definition cartLine (i : CartItem) : ObjectId * Z * float :=
  (ci_productId i, ci_quantity i, ci_price i).

Definition orderLine (i : OrderItem) : ObjectId * Z * float :=
  (oi_productId i, oi_quantity i, oi_price i).

(** Units of product [pid] asked for by a list of cart lines. *)
Fixpoint reserved (items : list CartItem) (pid : ObjectId) : Z :=
  match items with
  | [] => 0
  | i :: rest =>
      (if bool_decide (ci_productId i = pid) then ci_quantity i else 0) + reserved rest pid
  end.

(** Units of product [pid] held by a list of order lines. *)
Fixpoint released (items : list OrderItem) (pid : ObjectId) : Z :=
  match items with
  | [] => 0
  | i :: rest =>
      (if bool_decide (oi_productId i = pid) then oi_quantity i else 0) + released rest pid
  end.

Definition add_stock (n : Z) (p : Product) : Product := set_stock p (stock p + n).

(** The cart of a user, as createOrder reads it. *)
Definition cartOf (d : DB) (userId : ObjectId) : option Cart :=
  find (fun c => bool_decide (cart_userId c = userId)) (carts d).


(** Every line of the cart names an existing product with enough stock. *)
Definition stock_ok (items : list (CartItem * option Product)) : Prop :=
  Forall (fun it => exists p, it.2 = Some p /\ ci_quantity it.1 <= stock p) items.

(** What the transaction of createOrder commits: the order row, one order
    line per cart line, the stock of every product debited by the quantity
    asked for, the lines of the cart removed. *)
Definition order_placed (user : User) (od : OrderData) (cart : CartView) (total : float)
    (oid : ObjectId) (d d' : DB) : Prop :=
  orders d !! oid = None
  /\ itemsOfOrder d oid = []
  /\ orders d' = <[oid := {| order_userId := user_id user;
                             totalAmount := total;
                             status := PENDING;
                             shippingAddress := od_shippingAddress od;
                             paymentMethod := od_paymentMethod od |}]> (orders d)
  /\ (exists news,
        orderItems d' = (orderItems d ++ news)%list
        /\ itemsOfOrder d' oid = news
        /\ map orderLine news = map (fun it => cartLine it.1) (cv_items cart)
        /\ Forall (fun oi => oi_orderId oi = oid) news)
  /\ (forall pid, products d' !! pid
                  = add_stock (- reserved (map fst (cv_items cart)) pid) <$> products d !! pid)
  /\ cartItems d' = filter (fun i => ci_cartId i <> cart_id (cv_cart cart)) (cartItems d)
  /\ carts d' = carts d.

(** The line sendEmail writes to the log. *)
Definition mailLog {Body} (sv : Services Body) (msg : EmailOptions) : LogLine :=
  if sgMail_send sv msg then LogInfo ("Email sent successfully to " ++ to msg)
  else LogError "Error sending email:".

(** ** A small shop used to run the handlers on concrete data *)

Definition shop_services (delivered : bool) : Services unit :=
  {| validateOrder := fun _ => ParseOk {| od_shippingAddress := "1 Main Street";
                                          od_paymentMethod := "card" |};
     sgMail_send := fun _ => delivered;
     orderConfirmationHtml := fun name orderId _ _ => name ++ orderId;
     orderStatusHtml := fun name orderId st => name ++ orderId ++ st |}.

Definition alice : User := {| user_id := "u1"; user_email := "alice@shop.test"; user_name := "Alice" |}.
Definition bob : User := {| user_id := "u2"; user_email := "bob@shop.test"; user_name := "Bob" |}.

(** Alice holds 2 of product A at 10 and 1 of product B at 5; 5 of each in stock. *)
Definition shop_db : DB :=
  {| products := {[ "pA" := {| title := "Lamp"; price := 10%float; stock := 5 |};
                    "pB" := {| title := "Bulb"; price := 5%float; stock := 5 |} ]};
     carts := [ {| cart_id := "c1"; cart_userId := "u1" |} ];
     cartItems := [ {| ci_id := "i1"; ci_cartId := "c1"; ci_productId := "pA";
                       ci_quantity := 2; ci_price := 10%float |};
                    {| ci_id := "i2"; ci_cartId := "c1"; ci_productId := "pB";
                       ci_quantity := 1; ci_price := 5%float |} ];
     orders := ∅;
     orderItems := [] |}.

Definition shop : World := {| db := shop_db; logs := [] |}.

(** Alice asks for 6 lamps; 5 are in stock. The lamp is stored under [pid]. *)
Definition shop_short (pid : ObjectId) : World :=
  {| db := {| products := {[ pid := {| title := "Lamp"; price := 10%float; stock := 5 |} ]};
              carts := [ {| cart_id := "c1"; cart_userId := "u1" |} ];
              cartItems := [ {| ci_id := "i1"; ci_cartId := "c1"; ci_productId := pid;
                                ci_quantity := 6; ci_price := 10%float |} ];
              orders := ∅;
              orderItems := [] |};
     logs := [] |}.

(** The reading of claim C4 under test: the error of a rejected order tells
    the id of the offending product, the quantity requested and the quantity
    available, for the first line of the cart that exceeds the stock. *)
Definition error_tells_product_id {Body} (sv : Services Body) : Prop :=
  exists decode : AppError -> ObjectId * Z * Z,
    forall (user : User) body w od c pre ci p post,
      validateOrder sv body = ParseOk od ->
      cartOf (db w) (user_id user) = Some c ->
      cart_items_with_product (db w) (cart_id c) = (pre ++ (ci, Some p) :: post)%list ->
      stock_ok pre ->
      ci_quantity ci > stock p ->
      exists e w',
        createOrder sv user body w = (Err e, w')
        /\ decode e = (ci_productId ci, ci_quantity ci, stock p).

(** The same services with another mail transport. *)
Definition with_transport {Body} (sv : Services Body) (send : EmailOptions -> bool)
  : Services Body :=
  {| validateOrder := validateOrder sv;
     sgMail_send := send;
     orderConfirmationHtml := orderConfirmationHtml sv;
     orderStatusHtml := orderStatusHtml sv |}.

(** Two runs end with the same outcome and the same store. *)
Definition same_outcome {A} (x y : Result A * World) : Prop :=
  x.1 = y.1 /\ db x.2 = db y.2.

(** The order of id [id] as cancelOrder finds it for [userId]. *)
Definition orderOf (d : DB) (id userId : ObjectId) : option OrderView :=
  match order_view d id with
  | Some v => if bool_decide (order_userId (ov_order v) = userId) then Some v else None
  | None => None
  end.

(** A shipped order of Alice for 2 lamps. *)
Definition shop_shipped : World :=
  {| db := {| products := {[ "pA" := {| title := "Lamp"; price := 10%float; stock := 3 |} ]};
              carts := [ {| cart_id := "c1"; cart_userId := "u1" |} ];
              cartItems := [];
              orders := {[ "o1" := {| order_userId := "u1"; totalAmount := 20%float;
                                      status := SHIPPED;
                                      shippingAddress := "1 Main Street";
                                      paymentMethod := "card" |} ]};
              orderItems := [ {| oi_id := "l1"; oi_orderId := "o1"; oi_productId := "pA";
                                 oi_quantity := 2; oi_price := 10%float |} ] |};
     logs := [] |}.

(** The same order while it is still pending. *)
Definition shop_pending : World :=
  {| db := with_orders (db shop_shipped)
             {[ "o1" := {| order_userId := "u1"; totalAmount := 20%float;
                           status := PENDING;
                           shippingAddress := "1 Main Street";
                           paymentMethod := "card" |} ]};
     logs := [] |}.

(** The line of cart [cartId] for product [productId], as addToCart looks it up. *)
Definition lineOf (d : DB) (cartId productId : ObjectId) : option CartItem :=
  find (fun i => bool_decide (ci_cartId i = cartId) && bool_decide (ci_productId i = productId))
       (cartItems d).

(** The catalog now sells the lamp at 12; Alice's cart still holds it at 10. *)
Definition shop_repriced : World :=
  {| db := with_products shop_db
             {[ "pA" := {| title := "Lamp"; price := 12%float; stock := 5 |};
                "pB" := {| title := "Bulb"; price := 5%float; stock := 5 |} ]};
     logs := [] |}.

(** ** Invariants of the store *)

(** No product has a negative stock. *)
Definition stock_nonneg (d : DB) : Prop :=
  map_Forall (fun _ p => 0 <= stock p) (products d).

(** What the cart and order controllers maintain: stocks are not negative,
    cart lines have a positive quantity, a cart holds at most one line per
    product, order lines have a non-negative quantity. *)
Definition db_ok (d : DB) : Prop :=
  stock_nonneg d
  /\ Forall (fun i => 0 < ci_quantity i) (cartItems d)
  /\ (forall cid, NoDup (map ci_productId (itemsOfCart d cid)))
  /\ Forall (fun i => 0 <= oi_quantity i) (orderItems d).

(** A store that holds a catalog and carts without lines, and no order line yet. *)
Definition fresh_store (d : DB) : Prop :=
  cartItems d = [] /\ orderItems d = [].

(** The total stored with every order is the sum over its lines. *)
Definition totals_ok (d : DB) : Prop :=
  forall id o, orders d !! id = Some o -> totalAmount o = orderTotal (itemsOfOrder d id).

(** Between [d] and [d'] every order of [d] keeps its owner, its total and
    its lines, and an order that is new in [d'] has the sum over its lines as
    total. *)
Definition order_write (d d' : DB) : Prop :=
  forall id,
    match orders d !! id with
    | Some o =>
        exists o', orders d' !! id = Some o'
                   /\ order_userId o' = order_userId o
                   /\ totalAmount o' = totalAmount o
                   /\ itemsOfOrder d' id = itemsOfOrder d id
    | None =>
        orders d' !! id = None
        \/ exists o', orders d' !! id = Some o'
                      /\ totalAmount o' = orderTotal (itemsOfOrder d' id)
    end.

(** [d'] keeps the order [id] of [d]: same owner, same total, same lines. *)
Definition order_kept (d d' : DB) (id : ObjectId) : Prop :=
  forall o, orders d !! id = Some o ->
    exists o', orders d' !! id = Some o'
               /\ order_userId o' = order_userId o
               /\ totalAmount o' = totalAmount o
               /\ itemsOfOrder d' id = itemsOfOrder d id.

(** A write that leaves products, orders and order lines alone. *)
Definition cart_write (d d' : DB) : Prop :=
  products d' = products d /\ orders d' = orders d /\ orderItems d' = orderItems d.

(** A day at the shop: Alice adds a lamp to her cart, orders, cancels the
    order (the first id the store hands out is 0), and Bob looks at his cart. *)
Definition shop_day : list (@Request unit) :=
  [ AddToCart alice {| body_productId := "pA"; body_quantity := 1 |};
    CreateOrder alice tt;
    CancelOrder alice "0";
    GetCart bob ].

(** ** Two createOrder requests in flight *)

(** createOrder up to the answer of [await prisma.cart.findUnique]. *)
Definition createOrderRead {Body} (sv : Services Body) (user : User) (body : Body)
  : M (OrderData * option CartView) :=
  match validateOrder sv body with
  | ParseError message => raise (ValidationError message)
  | ParseOk od =>
      let* cart := cart_findUnique_include (user_id user) in
      ret (od, cart)
  end.

(** The rest of a createOrder that has read [x]. *)
Definition createOrderResume {Body} (sv : Services Body) (user : User)
    (x : Result (OrderData * option CartView)) : M (Response (option OrderView)) :=
  match x with
  | Ok (od, cart) => createOrderFromCart sv user od cart
  | Err e => raise e
  end.

(** The two requests one after the other. *)
Definition createOrder_in_turn {Body} (sv : Services Body) (userA userB : User)
    (bodyA bodyB : Body) (w : World)
  : Result (Response (option OrderView)) * Result (Response (option OrderView)) * World :=
  let (outA, w1) := createOrder sv userA bodyA w in
  let (outB, w2) := createOrder sv userB bodyB w1 in
  (outA, outB, w2).

(** The two requests served by one process, each [await] being a point where
    the other may run: both have the answer of their cart query before
    either goes on. *)
Definition createOrder_interleaved {Body} (sv : Services Body) (userA userB : User)
    (bodyA bodyB : Body) (w : World)
  : Result (Response (option OrderView)) * Result (Response (option OrderView)) * World :=
  let (readA, w1) := createOrderRead sv userA bodyA w in
  let (readB, w2) := createOrderRead sv userB bodyB w1 in
  let (outA, w3) := createOrderResume sv userA readA w2 in
  let (outB, w4) := createOrderResume sv userB readB w3 in
  (outA, outB, w4).

Definition succeeded {A} (r : Result A) : bool :=
  match r with Ok _ => true | Err _ => false end.

(** Claim C8 for a schedule [race] of the two requests on world [w], the
    product [pid] having one unit left: exactly one call succeeds, the stock
    ends at 0 and one order is created. *)
Definition one_winner
    (race : World -> Result (Response (option OrderView))
                     * Result (Response (option OrderView)) * World)
    (pid : ObjectId) (w : World) : Prop :=
  xorb (succeeded (race w).1.1) (succeeded (race w).1.2) = true
  /\ stock <$> products (db (race w).2) !! pid = Some 0
  /\ size (orders (db (race w).2)) = S (size (orders (db w))).

(** Alice and Bob each hold the last lamp in their cart. *)
Definition shop_last_unit : World :=
  {| db := {| products := {[ "pA" := {| title := "Lamp"; price := 10%float; stock := 1 |} ]};
              carts := [ {| cart_id := "c1"; cart_userId := "u1" |};
                         {| cart_id := "c2"; cart_userId := "u2" |} ];
              cartItems := [ {| ci_id := "i1"; ci_cartId := "c1"; ci_productId := "pA";
                                ci_quantity := 1; ci_price := 10%float |};
                             {| ci_id := "i2"; ci_cartId := "c2"; ci_productId := "pA";
                                ci_quantity := 1; ci_price := 10%float |} ];
              orders := ∅;
              orderItems := [] |};
     logs := [] |}.

(** ** Reading an order, and further vocabulary *)


(** Units of product [pid] in the cart of user [userId]: 0 without a cart or
    without a line for the product. *)
Definition cartQuantity (d : DB) (userId pid : ObjectId) : Z :=
  match cartOf d userId with
  | Some c => match lineOf d (cart_id c) pid with
              | Some i => ci_quantity i
              | None => 0
              end
  | None => 0
  end.

(** The line of id [id] in cart [cartId], as updateCartItem and
    removeFromCart look it up. *)
Definition lineById (d : DB) (id cartId : ObjectId) : option CartItem :=
  find (fun i => bool_decide (ci_id i = id) && bool_decide (ci_cartId i = cartId))
       (cartItems d).

(** What the schema declares unique: the ids of carts and of cart lines
    ([@id]) and the user of a cart ([@unique]). *)
Definition keys_ok (d : DB) : Prop :=
  NoDup (map cart_id (carts d))
  /\ NoDup (map cart_userId (carts d))
  /\ NoDup (map ci_id (cartItems d)).

(** Every cart line and every order line names a stored product (the
    [@relation] of CartItem and OrderItem to Product). *)
Definition refs_ok (d : DB) : Prop :=
  Forall (fun i => is_Some (products d !! ci_productId i)) (cartItems d)
  /\ Forall (fun i => is_Some (products d !! oi_productId i)) (orderItems d).

(** The user on whose behalf a request runs; the admin status update has none. *)
Definition actor {Body} (r : @Request Body) : option User :=
  match r with
  | GetCart u | AddToCart u _ | UpdateCartItem u _ _ | RemoveFromCart u _
  | ClearCart u | CreateOrder u _ | CancelOrder u _ => Some u
  | UpdateOrderStatus _ _ => None
  end.

(** An error a handler raises on purpose, as opposed to an exception. *)
Definition raised_on_purpose (e : AppError) : bool :=
  match e with
  | ValidationError _ | NotFoundError _ => true
  | TypeError | RecordNotFound => false
  end.

(** Bob holds a bulb in his own cart, next to Alice's lamp and bulb. *)
Definition shop_two_carts : World :=
  {| db := with_cartItems
             (with_carts shop_db
                [ {| cart_id := "c1"; cart_userId := "u1" |};
                  {| cart_id := "c2"; cart_userId := "u2" |} ])
             [ {| ci_id := "i1"; ci_cartId := "c1"; ci_productId := "pA";
                  ci_quantity := 2; ci_price := 10%float |};
               {| ci_id := "i2"; ci_cartId := "c1"; ci_productId := "pB";
                  ci_quantity := 1; ci_price := 5%float |};
               {| ci_id := "i3"; ci_cartId := "c2"; ci_productId := "pB";
                  ci_quantity := 1; ci_price := 5%float |} ];
     logs := [] |}.

(** A catalog and nothing else. *)
Definition shop_catalog : World :=
  {| db := {| products := products shop_db; carts := []; cartItems := [];
              orders := ∅; orderItems := [] |};
     logs := [] |}.
(** ** Monad and store lemmas *)

Open Scope list_scope.

Lemma bind_Ok {A B} (c : M A) (k : A -> M B) w a w' :
  c w = (Ok a, w') -> bind c k w = k a w'.
Proof. intros H. unfold bind. now rewrite H. Qed.

Lemma bind_Err {A B} (c : M A) (k : A -> M B) w e w' :
  c w = (Err e, w') -> bind c k w = (Err e, w').
Proof. intros H. unfold bind. now rewrite H. Qed.

Lemma add_stock_0 p : add_stock 0 p = p.
Proof. destruct p. unfold add_stock, set_stock. simpl. f_equal. lia. Qed.

Lemma add_stock_add n m p : add_stock n (add_stock m p) = add_stock (m + n) p.
Proof. unfold add_stock, set_stock. simpl. f_equal. lia. Qed.

Lemma stock_add_stock n p : stock (add_stock n p) = stock p + n.
Proof. reflexivity. Qed.

Lemma product_update_stock_Some id n w p :
  products (db w) !! id = Some p ->
  product_update_stock id n w =
    (Ok tt, {| db := with_products (db w) (<[id := add_stock n p]> (products (db w)));
               logs := logs w |}).
Proof.
  intros H. unfold product_update_stock, bind, getDB, putDB. simpl. now rewrite H.
Qed.

Lemma product_update_stock_None id n w :
  products (db w) !! id = None ->
  product_update_stock id n w = (Err RecordNotFound, w).
Proof.
  intros H. unfold product_update_stock, bind, getDB, raise. simpl. now rewrite H.
Qed.

Lemma lookup_insert_add_stock (ps : gmap string Product) id n p pid :
  ps !! id = Some p ->
  <[id := add_stock n p]> ps !! pid
  = add_stock (if bool_decide (id = pid) then n else 0) <$> ps !! pid.
Proof.
  intros H. case_bool_decide as E.
  - subst. rewrite lookup_insert_eq, H. reflexivity.
  - rewrite lookup_insert_ne by done.
    destruct (ps !! pid); simpl; [now rewrite add_stock_0 | reflexivity].
Qed.

(** The loop of the transaction of createOrder: one order line per cart
    line, each product debited by the quantity of its lines. *)
Lemma createOrder_loop oid (items : list (CartItem * option Product)) :
  forall w,
    Forall (fun it => is_Some (products (db w) !! ci_productId it.1)) items ->
    exists w' news,
      forEach items (fun item =>
        orderItem_create oid (ci_productId item.1) (ci_quantity item.1) (ci_price item.1) ;;
        product_update_stock (ci_productId item.1) (- ci_quantity item.1)) w = (Ok tt, w')
      /\ logs w' = logs w
      /\ carts (db w') = carts (db w)
      /\ cartItems (db w') = cartItems (db w)
      /\ orders (db w') = orders (db w)
      /\ orderItems (db w') = orderItems (db w) ++ news
      /\ map orderLine news = map (fun it => cartLine it.1) items
      /\ Forall (fun oi => oi_orderId oi = oid) news
      /\ forall pid, products (db w') !! pid
                     = add_stock (- reserved (map fst items) pid) <$> products (db w) !! pid.
Proof.
  induction items as [|it rest IH]; intros w Hall.
  - exists w, []. simpl. rewrite app_nil_r. repeat split; auto.
    intros pid. destruct (products (db w) !! pid); simpl; [now rewrite add_stock_0 | done].
  - apply Forall_cons in Hall as [[p Hp] Hrest].
    set (oi := {| oi_id := auto (db w); oi_orderId := oid; oi_productId := ci_productId it.1;
                  oi_quantity := ci_quantity it.1; oi_price := ci_price it.1 |}).
    set (w1 := {| db := with_orderItems (db w) (orderItems (db w) ++ [oi]); logs := logs w |}).
    set (w2 := {| db := with_products (db w1)
                          (<[ci_productId it.1 := add_stock (- ci_quantity it.1) p]>
                             (products (db w1)));
                  logs := logs w1 |}).
    destruct (IH w2) as (w' & news & Hrun & Hlogs & Hcarts & Hcis & Hords & Hois & Hlines & Hoid & Hps).
    { eapply Forall_impl; [exact Hrest|]. intros x [q Hq]. simpl.
      rewrite lookup_insert_is_Some. destruct (decide (ci_productId it.1 = ci_productId x.1)); eauto. }
    exists w', (oi :: news). split.
    { cbn [forEach]. erewrite bind_Ok; [exact Hrun|].
      erewrite bind_Ok; [|reflexivity].
      apply (product_update_stock_Some _ _ w1). exact Hp. }
    repeat split; auto.
    + rewrite Hois. simpl. now rewrite <- app_assoc.
    + simpl. now f_equal.
    + intros pid. rewrite Hps. simpl.
      rewrite (lookup_insert_add_stock _ _ _ _ _ Hp).
      destruct (products (db w) !! pid); simpl; [|done].
      rewrite add_stock_add. do 2 f_equal. case_bool_decide; lia.
Qed.

(** *** Fresh identifiers *)

Lemma auto_fresh d : auto d ∉ used_ids d.
Proof. apply infinite_is_fresh. Qed.

Lemma auto_not_order d : orders d !! auto d = None.
Proof.
  destruct (orders d !! auto d) as [o|] eqn:E; [|reflexivity].
  exfalso. apply (auto_fresh d). unfold used_ids.
  rewrite !elem_of_app. right; right; right; left.
  apply list_elem_of_In, in_map_iff. exists (auto d, o). split; [reflexivity|].
  apply list_elem_of_In, elem_of_map_to_list, E.
Qed.

Lemma auto_no_orderItems d : itemsOfOrder d (auto d) = [].
Proof.
  unfold itemsOfOrder.
  destruct (filter (fun i => oi_orderId i = auto d) (orderItems d)) as [|oi l] eqn:E;
    [reflexivity|].
  exfalso. assert (Hin : oi ∈ filter (fun i => oi_orderId i = auto d) (orderItems d))
    by (rewrite E; left).
  apply list_elem_of_filter in Hin as [Hid Hin].
  apply (auto_fresh d). unfold used_ids.
  rewrite !elem_of_app. do 5 right.
  apply list_elem_of_In, in_flat_map. exists oi. split; [now apply list_elem_of_In|].
  rewrite <- Hid. simpl. auto.
Qed.

(** *** The stock check *)

Lemma checkStock_cons it rest w :
  checkStock (it :: rest) w =
    match it.2 with
    | None => (Err TypeError, w)
    | Some p =>
        if bool_decide (ci_quantity it.1 > stock p)
        then (Err (ValidationError (insufficientStockMessage p (ci_quantity it.1))), w)
        else checkStock rest w
    end.
Proof.
  unfold checkStock. cbn [forEach]. unfold bind at 1.
  destruct (it.2) as [p|]; [|reflexivity].
  destruct (bool_decide (ci_quantity it.1 > stock p)); reflexivity.
Qed.

Lemma checkStock_cases items w :
  (stock_ok items /\ checkStock items w = (Ok tt, w))
  \/ (~ stock_ok items /\ exists e, checkStock items w = (Err e, w)).
Proof.
  induction items as [|it rest IH].
  - left. split; [constructor | reflexivity].
  - rewrite checkStock_cons. destruct (it.2) as [p|] eqn:Ep.
    + case_bool_decide as Hq.
      * right. split; [|eauto]. intros H. apply Forall_cons in H as [(q & Hq1 & Hq2) _].
        rewrite Ep in Hq1. injection Hq1 as <-. lia.
      * destruct IH as [[Hok Hrun] | [Hno Hrun]].
        -- left. split; [|exact Hrun]. constructor; [|exact Hok]. exists p. split; [done|lia].
        -- right. split; [|exact Hrun]. intros H. apply Forall_cons in H as [_ H]. auto.
    + right. split; [|eauto]. intros H. apply Forall_cons in H as [(q & Hq1 & _) _].
      rewrite Ep in Hq1. discriminate.
Qed.

Lemma checkStock_ok items w : stock_ok items -> checkStock items w = (Ok tt, w).
Proof. intros H. destruct (checkStock_cases items w) as [[_ ?]|[? _]]; [done|contradiction]. Qed.

(** The first line whose quantity exceeds the stock decides the error. *)
Lemma checkStock_first pre ci p post w :
  stock_ok pre ->
  ci_quantity ci > stock p ->
  checkStock (pre ++ (ci, Some p) :: post) w
  = (Err (ValidationError (insufficientStockMessage p (ci_quantity ci))), w).
Proof.
  intros Hpre Hq. induction pre as [|it pre IH]; simpl app.
  - rewrite checkStock_cons. simpl. rewrite bool_decide_eq_true_2 by done. reflexivity.
  - apply Forall_cons in Hpre as [(q & Hq1 & Hq2) Hpre].
    rewrite checkStock_cons, Hq1. rewrite bool_decide_eq_false_2 by lia. auto.
Qed.

Lemma cart_items_product d cid :
  Forall (fun it => it.2 = products d !! ci_productId it.1) (cart_items_with_product d cid).
Proof.
  unfold cart_items_with_product. apply Forall_forall. intros x Hx.
  apply list_elem_of_In, in_map_iff in Hx as (i & <- & _). reflexivity.
Qed.

Lemma cart_items_fst d cid : map fst (cart_items_with_product d cid) = itemsOfCart d cid.
Proof.
  unfold cart_items_with_product. rewrite map_map. simpl. apply map_id.
Qed.

(** *** The email service *)

Lemma sendEmail_spec {Body} (sv : Services Body) msg w :
  sendEmail sv msg w
  = (Ok (sgMail_send sv msg), {| db := db w; logs := logs w ++ [mailLog sv msg] |}).
Proof.
  unfold sendEmail, mailLog. destruct (sgMail_send sv msg); reflexivity.
Qed.

Lemma emailLines_Some (items : list (OrderItem * option Product)) :
  Forall (fun x => is_Some x.2) items -> is_Some (emailLines items).
Proof.
  induction 1 as [|[i o] rest [p Hp] _ [ls IH]]; simpl in *.
  - eauto.
  - subst o. rewrite IH. eauto.
Qed.

(** *** createOrder *)

Lemma order_create_spec o w :
  order_create o w
  = (Ok (auto (db w)),
     {| db := with_orders (db w) (<[auto (db w) := o]> (orders (db w))); logs := logs w |}).
Proof. reflexivity. Qed.

Lemma cartItem_deleteMany_spec cid w :
  cartItem_deleteMany cid w
  = (Ok tt, {| db := with_cartItems (db w)
                       (filter (fun i => ci_cartId i <> cid) (cartItems (db w)));
               logs := logs w |}).
Proof. reflexivity. Qed.

Lemma filter_Forall_id {A} (P : A -> Prop) `{!forall x, Decision (P x)} (l : list A) :
  Forall P l -> filter P l = l.
Proof.
  induction 1 as [|x l Hx _ IH]; [reflexivity|].
  rewrite filter_cons_True by done. now rewrite IH.
Qed.

Lemma createOrderTx_ok (user : User) od cart total w :
  Forall (fun it => is_Some (products (db w) !! ci_productId it.1)) (cv_items cart) ->
  exists w',
    createOrderTx user od cart total w = (Ok (auto (db w)), w')
    /\ logs w' = logs w
    /\ order_placed user od cart total (auto (db w)) (db w) (db w').
Proof.
  intros Hprods. unfold createOrderTx.
  set (oid := auto (db w)).
  set (o := {| order_userId := user_id user; totalAmount := total; status := PENDING;
               shippingAddress := od_shippingAddress od;
               paymentMethod := od_paymentMethod od |}).
  set (w1 := {| db := with_orders (db w) (<[oid := o]> (orders (db w))); logs := logs w |}).
  destruct (createOrder_loop oid (cv_items cart) w1 Hprods)
    as (w2 & news & Hrun & Hlogs & Hcarts & Hcis & Hords & Hois & Hlines & Hoid & Hps).
  eexists. split.
  { erewrite bind_Ok; [|apply order_create_spec].
    erewrite bind_Ok; [|exact Hrun].
    erewrite bind_Ok; [|apply cartItem_deleteMany_spec]. reflexivity. }
  simpl. split; [exact Hlogs|].
  unfold order_placed. simpl.
  split; [apply auto_not_order|]. split; [apply auto_no_orderItems|].
  split; [now rewrite Hords|].
  split.
  { exists news. rewrite Hois. simpl. repeat split; auto.
    unfold itemsOfOrder. simpl. rewrite Hois. simpl. rewrite filter_app.
    fold (itemsOfOrder (db w) oid). unfold oid at 1. rewrite auto_no_orderItems.
    simpl. now apply filter_Forall_id. }
  split; [exact Hps|]. split; [now rewrite Hcis | exact Hcarts].
Qed.

Lemma order_placed_view user od cart total oid d d' :
  order_placed user od cart total oid d d' ->
  Forall (fun it => is_Some (products d !! ci_productId it.1)) (cv_items cart) ->
  exists v ls, order_view d' oid = Some v
               /\ ov_id v = oid
               /\ totalAmount (ov_order v) = total
               /\ status (ov_order v) = PENDING
               /\ map fst (ov_items v) = itemsOfOrder d' oid
               /\ emailLines (ov_items v) = Some ls.
Proof.
  intros (Hnew & Hnone & Hords & (news & Hois & Hof & Hlines & Hoid) & Hps & Hcis & Hcarts) Hprods.
  unfold order_view. rewrite Hords, lookup_insert_eq.
  destruct (emailLines_Some
              (map (fun i => (i, products d' !! oi_productId i)) (itemsOfOrder d' oid)))
    as [ls Hls].
  { rewrite Hof. apply Forall_forall. intros x Hx.
    apply list_elem_of_In, in_map_iff in Hx as (oi & <- & Hin). simpl.
    assert (Hp : In (oi_productId oi) (map (fun it => ci_productId it.1) (cv_items cart))).
    { replace (map (fun it => ci_productId it.1) (cv_items cart))
        with (map (fun l => l.1.1) (map (fun it => cartLine it.1) (cv_items cart)))
        by (rewrite map_map; reflexivity).
      rewrite <- Hlines, map_map. apply in_map_iff. exists oi. split; [reflexivity|exact Hin]. }
    apply in_map_iff in Hp as (it & Hit & Hin').
    rewrite Forall_forall in Hprods. apply list_elem_of_In, Hprods in Hin' as [p Hp].
    rewrite Hps, <- Hit, Hp. simpl. eauto. }
  eexists _, ls. split; [reflexivity|]. simpl. repeat split; auto.
  rewrite map_map. simpl. apply map_id.
Qed.

Lemma stock_ok_products d cid :
  stock_ok (cart_items_with_product d cid) ->
  Forall (fun it => is_Some (products d !! ci_productId it.1)) (cart_items_with_product d cid).
Proof.
  intros Hok. pose proof (cart_items_product d cid) as Hp.
  unfold stock_ok in Hok. rewrite Forall_forall in *. intros x Hx.
  destruct (Hok x Hx) as (p & Hp1 & _). rewrite <- (Hp x Hx), Hp1. eauto.
Qed.

Lemma transaction_Ok {A} (body : M A) w a w' :
  body w = (Ok a, w') -> transaction body w = (Ok a, w').
Proof. intros H. unfold transaction. now rewrite H. Qed.

Lemma transaction_Err {A} (body : M A) w e w' :
  body w = (Err e, w') -> transaction body w = (Err e, {| db := db w; logs := logs w' |}).
Proof. intros H. unfold transaction. now rewrite H. Qed.

Lemma order_findUnique_spec id w : order_findUnique id w = (Ok (order_view (db w) id), w).
Proof. reflexivity. Qed.

Lemma cart_findUnique_include_spec uid w :
  cart_findUnique_include uid w
  = (Ok (match cartOf (db w) uid with
         | None => None
         | Some c => Some {| cv_cart := c; cv_items := cart_items_with_product (db w) (cart_id c) |}
         end), w).
Proof. reflexivity. Qed.

(** createOrder, from the answer of the cart query on, for a cart view whose
    lines pass the stock check and whose products are in the store. *)
Lemma createOrderFromCart_ok {Body} (sv : Services Body) (user : User) od cart w :
  cv_items cart <> [] ->
  stock_ok (cv_items cart) ->
  Forall (fun it => is_Some (products (db w) !! ci_productId it.1)) (cv_items cart) ->
  exists w' v msg,
    createOrderFromCart sv user od (Some cart) w = (Ok (json 201 (Some v)), w')
    /\ order_view (db w') (auto (db w)) = Some v
    /\ logs w' = logs w ++ [mailLog sv msg]
    /\ order_placed user od cart (cartTotal (cv_items cart)) (auto (db w)) (db w) (db w').
Proof.
  intros Hne Hok Hprods.
  destruct (createOrderTx_ok user od cart (cartTotal (cv_items cart)) w Hprods)
    as (w1 & Htx & Hlogs & Hplaced).
  destruct (order_placed_view _ _ _ _ _ _ _ Hplaced Hprods)
    as (v & ls & Hv & Hid & Htot & Hst & Hitems & Hls).
  eexists _, v, _. split.
  { unfold createOrderFromCart.
    rewrite bool_decide_eq_false_2
      by (destruct (cv_items cart); [contradiction | simpl; lia]).
    erewrite bind_Ok; [|apply checkStock_ok, Hok].
    cbv zeta.
    erewrite bind_Ok; [|apply transaction_Ok, Htx].
    erewrite bind_Ok; [|apply order_findUnique_spec].
    rewrite Hv. unfold sendOrderConfirmationEmail. rewrite Hls.
    erewrite bind_Ok; [|apply sendEmail_spec]. reflexivity. }
  simpl. split; [exact Hv|]. split; [now rewrite Hlogs|]. exact Hplaced.
Qed.

(** createOrder on a cart that passes the stock check. *)
Lemma createOrder_ok {Body} (sv : Services Body) (user : User) body w od c :
  validateOrder sv body = ParseOk od ->
  cartOf (db w) (user_id user) = Some c ->
  cart_items_with_product (db w) (cart_id c) <> [] ->
  stock_ok (cart_items_with_product (db w) (cart_id c)) ->
  exists w' v msg,
    createOrder sv user body w = (Ok (json 201 (Some v)), w')
    /\ order_view (db w') (auto (db w)) = Some v
    /\ logs w' = logs w ++ [mailLog sv msg]
    /\ order_placed user od
         {| cv_cart := c; cv_items := cart_items_with_product (db w) (cart_id c) |}
         (cartTotal (cart_items_with_product (db w) (cart_id c)))
         (auto (db w)) (db w) (db w').
Proof.
  intros Hval Hcart Hne Hok.
  unfold createOrder. rewrite Hval.
  erewrite bind_Ok; [|apply cart_findUnique_include_spec]. rewrite Hcart.
  apply (createOrderFromCart_ok sv user od
           {| cv_cart := c; cv_items := cart_items_with_product (db w) (cart_id c) |});
    [exact Hne | exact Hok | now apply stock_ok_products].
Qed.

(** createOrder either fails and leaves the world as it was, or passes the
    stock check and commits the whole order. *)
Lemma createOrder_cases {Body} (sv : Services Body) (user : User) body w :
  (exists e, createOrder sv user body w = (Err e, w))
  \/ (exists od c,
        validateOrder sv body = ParseOk od
        /\ cartOf (db w) (user_id user) = Some c
        /\ cart_items_with_product (db w) (cart_id c) <> []
        /\ stock_ok (cart_items_with_product (db w) (cart_id c))).
Proof.
  unfold createOrder.
  destruct (validateOrder sv body) as [m|od] eqn:Hval; [left; eauto|].
  erewrite bind_Ok; [|apply cart_findUnique_include_spec].
  destruct (cartOf (db w) (user_id user)) as [c|] eqn:Hc; [|left; eauto].
  unfold createOrderFromCart. simpl cv_items.
  case_bool_decide as Hlen; [left; eauto|].
  destruct (checkStock_cases (cart_items_with_product (db w) (cart_id c)) w)
    as [[Hok Hrun]|[Hno [e Hrun]]].
  - right. exists od, c. repeat split; auto.
    intros E. rewrite E in Hlen. now apply Hlen.
  - left. exists e. erewrite bind_Err; [reflexivity | exact Hrun].
Qed.

Lemma itemsOfCart_deleted (d d' : DB) cid :
  cartItems d' = filter (fun i => ci_cartId i <> cid) (cartItems d) ->
  itemsOfCart d' cid = [].
Proof.
  intros H. unfold itemsOfCart. rewrite H. clear H.
  induction (cartItems d) as [|i l IH]; [reflexivity|].
  destruct (decide (ci_cartId i = cid)) as [E|E].
  - rewrite (filter_cons_False _ i l) by tauto. exact IH.
  - rewrite (filter_cons_True _ i l) by done.
    rewrite filter_cons_False by done. exact IH.
Qed.

Lemma order_placed_lookup user od cart total oid d d' v :
  order_placed user od cart total oid d d' ->
  order_view d' oid = Some v ->
  ov_id v = oid
  /\ orders d' !! oid = Some (ov_order v)
  /\ order_userId (ov_order v) = user_id user
  /\ totalAmount (ov_order v) = total
  /\ status (ov_order v) = PENDING
  /\ map fst (ov_items v) = itemsOfOrder d' oid
  /\ map orderLine (itemsOfOrder d' oid) = map (fun it => cartLine it.1) (cv_items cart).
Proof.
  intros (Hnew & Hnone & Hords & (news & Hois & Hof & Hlines & Hoid) & Hps & Hcis & Hcarts) Hv.
  unfold order_view in Hv. rewrite Hords, lookup_insert_eq in Hv. injection Hv as <-.
  simpl. rewrite Hords, lookup_insert_eq, Hof. repeat split; auto.
  rewrite map_map. simpl. apply map_id.
Qed.

(** ** Placing an order *)

(** C1. A user whose cart holds exactly the lines (A, 2, 10) and (B, 1, 5),
    with 5 units of A and 5 of B in stock, places an order: the call answers
    201 with an order in status PENDING and total 25 holding one line per
    cart line, the stock of A becomes 3 and that of B becomes 4, and the
    cart has no line left. *)
Theorem place_order_two_lines {Body} (sv : Services Body) (user : User) (body : Body)
    (w : World) od c iA iB pA pB prodA prodB :
  validateOrder sv body = ParseOk od ->
  cartOf (db w) (user_id user) = Some c ->
  itemsOfCart (db w) (cart_id c) = [iA; iB] ->
  cartLine iA = (pA, 2, 10%float) ->
  cartLine iB = (pB, 1, 5%float) ->
  pA <> pB ->
  products (db w) !! pA = Some prodA -> stock prodA = 5 ->
  products (db w) !! pB = Some prodB -> stock prodB = 5 ->
  exists w' v,
    createOrder sv user body w = (Ok (json 201 (Some v)), w')
    /\ orders (db w') !! ov_id v = Some (ov_order v)
    /\ status (ov_order v) = PENDING
    /\ totalAmount (ov_order v) = 25%float
    /\ map fst (ov_items v) = itemsOfOrder (db w') (ov_id v)
    /\ map orderLine (itemsOfOrder (db w') (ov_id v)) = [(pA, 2, 10%float); (pB, 1, 5%float)]
    /\ stock <$> products (db w') !! pA = Some 3
    /\ stock <$> products (db w') !! pB = Some 4
    /\ itemsOfCart (db w') (cart_id c) = [].
Proof.
  intros Hval Hcart Hitems HA HB Hne HpA HsA HpB HsB.
  injection HA as HA1 HA2 HA3. injection HB as HB1 HB2 HB3.
  assert (Hv : cart_items_with_product (db w) (cart_id c) = [(iA, Some prodA); (iB, Some prodB)]).
  { unfold cart_items_with_product. rewrite Hitems. simpl.
    now rewrite HA1, HB1, HpA, HpB. }
  destruct (createOrder_ok sv user body w od c Hval Hcart) as (w' & v & msg & Hrun & Hview & _ & Hp).
  { now rewrite Hv. }
  { rewrite Hv. repeat constructor; eexists; (split; [reflexivity|]); simpl; lia. }
  rewrite Hv in Hp.
  destruct (order_placed_lookup _ _ _ _ _ _ _ _ Hp Hview)
    as (Hid & Hord & _ & Htot & Hst & Hfst & Hlines).
  destruct Hp as (_ & _ & _ & _ & Hps & Hcis & _).
  exists w', v. rewrite Hid. repeat split; auto.
  - rewrite Htot. unfold cartTotal. simpl. rewrite HA2, HA3, HB2, HB3. reflexivity.
  - rewrite Hlines. simpl. unfold cartLine. now rewrite HA1, HA2, HA3, HB1, HB2, HB3.
  - rewrite Hps, HpA. simpl. rewrite HA1, HB1, HA2.
    rewrite bool_decide_eq_true_2 by done. rewrite bool_decide_eq_false_2 by done.
    f_equal. lia.
  - rewrite Hps, HpB. simpl. rewrite HA1, HB1, HB2.
    rewrite bool_decide_eq_false_2 by done. rewrite bool_decide_eq_true_2 by done.
    f_equal. lia.
  - now apply (itemsOfCart_deleted (db w)).
Qed.

Lemma place_order_two_lines_witness :
  exists w' v,
    createOrder (shop_services true) alice tt shop = (Ok (json 201 (Some v)), w')
    /\ orders (db w') !! ov_id v = Some (ov_order v)
    /\ status (ov_order v) = PENDING
    /\ totalAmount (ov_order v) = 25%float
    /\ map fst (ov_items v) = itemsOfOrder (db w') (ov_id v)
    /\ map orderLine (itemsOfOrder (db w') (ov_id v)) = [("pA", 2, 10%float); ("pB", 1, 5%float)]
    /\ stock <$> products (db w') !! "pA" = Some 3
    /\ stock <$> products (db w') !! "pB" = Some 4
    /\ itemsOfCart (db w') "c1" = [].
Proof.
  apply (place_order_two_lines (shop_services true) alice tt shop
           {| od_shippingAddress := "1 Main Street"; od_paymentMethod := "card" |}
           {| cart_id := "c1"; cart_userId := "u1" |}
           {| ci_id := "i1"; ci_cartId := "c1"; ci_productId := "pA";
              ci_quantity := 2; ci_price := 10%float |}
           {| ci_id := "i2"; ci_cartId := "c1"; ci_productId := "pB";
              ci_quantity := 1; ci_price := 5%float |}
           "pA" "pB"
           {| title := "Lamp"; price := 10%float; stock := 5 |}
           {| title := "Bulb"; price := 5%float; stock := 5 |});
    first [ reflexivity | discriminate | vm_compute; reflexivity ].
Defined.

Lemma orderItem_create_spec oid pid q pr w :
  orderItem_create oid pid q pr w
  = (Ok tt, {| db := with_orderItems (db w)
                       (orderItems (db w) ++
                          [{| oi_id := auto (db w); oi_orderId := oid; oi_productId := pid;
                              oi_quantity := q; oi_price := pr |}]);
               logs := logs w |}).
Proof. reflexivity. Qed.

(** When a product of the cart view has left the store, the loop of the
    transaction throws. *)
Lemma createOrder_loop_missing oid (items : list (CartItem * option Product)) :
  forall w,
    ~ Forall (fun it => is_Some (products (db w) !! ci_productId it.1)) items ->
    exists w',
      forEach items (fun item =>
        orderItem_create oid (ci_productId item.1) (ci_quantity item.1) (ci_price item.1) ;;
        product_update_stock (ci_productId item.1) (- ci_quantity item.1)) w
      = (Err RecordNotFound, w').
Proof.
  induction items as [|it rest IH]; intros w Hno.
  - exfalso. apply Hno. constructor.
  - cbn [forEach].
    destruct (products (db w) !! ci_productId it.1) as [p|] eqn:Hp.
    + set (w1 := {| db := with_orderItems (db w)
                            (orderItems (db w) ++
                               [{| oi_id := auto (db w); oi_orderId := oid;
                                   oi_productId := ci_productId it.1;
                                   oi_quantity := ci_quantity it.1;
                                   oi_price := ci_price it.1 |}]);
                    logs := logs w |}).
      set (w2 := {| db := with_products (db w1)
                            (<[ci_productId it.1 := add_stock (- ci_quantity it.1) p]>
                               (products (db w1)));
                    logs := logs w1 |}).
      destruct (IH w2) as [w' Hrun].
      { intros Hall. apply Hno. constructor; [rewrite Hp; eauto|].
        eapply Forall_impl; [exact Hall|]. intros x. simpl.
        rewrite lookup_insert_is_Some. intros [<-|[_ H]]; [rewrite Hp; eauto | exact H]. }
      exists w'. erewrite bind_Ok; [exact Hrun|].
      erewrite bind_Ok; [|apply orderItem_create_spec].
      apply (product_update_stock_Some _ _ w1). exact Hp.
    + eexists. erewrite bind_Err; [reflexivity|].
      erewrite bind_Ok; [|apply orderItem_create_spec].
      now apply product_update_stock_None.
Qed.

(** C2. A call of createOrder either succeeds, and then the order row, one
    line per cart line, the debit of every product and the removal of all
    lines of the cart are in the store together, or it fails and the world
    is exactly the one before the call. The same holds of the transaction
    taken alone, for any cart view handed to it: it commits everything or,
    when it throws, leaves the store as it was. *)
Theorem place_order_all_or_nothing {Body} (sv : Services Body) (user : User) (body : Body)
    (w : World) :
  match createOrder sv user body w with
  | (Err _, w') => w' = w
  | (Ok resp, w') =>
      exists od c,
        validateOrder sv body = ParseOk od
        /\ cartOf (db w) (user_id user) = Some c
        /\ statusCode resp = 201%nat
        /\ order_placed user od
             {| cv_cart := c; cv_items := cart_items_with_product (db w) (cart_id c) |}
             (cartTotal (cart_items_with_product (db w) (cart_id c)))
             (auto (db w)) (db w) (db w')
  end
  /\ forall od cart total,
       match transaction (createOrderTx user od cart total) w with
       | (Err _, w') => db w' = db w
       | (Ok oid, w') => order_placed user od cart total oid (db w) (db w')
       end.
Proof.
  split.
  - destruct (createOrder_cases sv user body w) as [[e He]|(od & c & Hval & Hcart & Hne & Hok)].
    + now rewrite He.
    + destruct (createOrder_ok sv user body w od c Hval Hcart Hne Hok)
        as (w' & v & msg & Hrun & _ & _ & Hp).
      rewrite Hrun. exists od, c. auto.
  - intros od cart total.
    destruct (decide (Forall (fun it => is_Some (products (db w) !! ci_productId it.1))
                             (cv_items cart))) as [Hall|Hno].
    + destruct (createOrderTx_ok user od cart total w Hall) as (w' & Hrun & _ & Hp).
      now rewrite (transaction_Ok _ _ _ _ Hrun).
    + unfold transaction.
      destruct (createOrderTx user od cart total w) as [[oid|e] w'] eqn:Hrun; [|reflexivity].
      exfalso. unfold createOrderTx in Hrun.
      erewrite bind_Ok in Hrun; [|apply order_create_spec].
      edestruct (createOrder_loop_missing (auto (db w)) (cv_items cart)) as [w1 Hloop];
        [|erewrite bind_Err in Hrun; [discriminate | exact Hloop]].
      exact Hno.
Qed.

(** createOrder, from the answer of the cart query on, for a cart view with
    a line that exceeds the stock. *)
Lemma createOrderFromCart_rejected {Body} (sv : Services Body) (user : User) od cart w
    pre ci p post :
  cv_items cart = pre ++ (ci, Some p) :: post ->
  stock_ok pre ->
  ci_quantity ci > stock p ->
  createOrderFromCart sv user od (Some cart) w
  = (Err (ValidationError (insufficientStockMessage p (ci_quantity ci))), w).
Proof.
  intros Hitems Hpre Hq. unfold createOrderFromCart. rewrite Hitems.
  rewrite bool_decide_eq_false_2 by (rewrite length_app; simpl; lia).
  erewrite bind_Err; [reflexivity|]. now apply checkStock_first.
Qed.

(** C4, as amended. When a line of the cart asks for more than the live
    stock of its product, createOrder ends with the validation error built
    from the first such line: its message gives the title of the product (not
    its id), the quantity in stock and the quantity requested. Nothing is
    written: stocks and cart are as before. *)
Theorem insufficient_stock_rejected {Body} (sv : Services Body) (user : User) (body : Body)
    (w : World) od c pre ci p post :
  validateOrder sv body = ParseOk od ->
  cartOf (db w) (user_id user) = Some c ->
  cart_items_with_product (db w) (cart_id c) = pre ++ (ci, Some p) :: post ->
  stock_ok pre ->
  ci_quantity ci > stock p ->
  products (db w) !! ci_productId ci = Some p
  /\ createOrder sv user body w
     = (Err (ValidationError
               (title p ++ " has only " ++ pretty (stock p)
                        ++ " items in stock, but you requested " ++ pretty (ci_quantity ci))%string),
        w).
Proof.
  intros Hval Hcart Hitems Hpre Hq. split.
  - pose proof (cart_items_product (db w) (cart_id c)) as Hp.
    rewrite Hitems in Hp. apply Forall_app in Hp as [_ Hp].
    apply Forall_cons in Hp as [Hp _]. simpl in Hp. now rewrite <- Hp.
  - unfold createOrder. rewrite Hval.
    erewrite bind_Ok; [|apply cart_findUnique_include_spec]. rewrite Hcart.
    now apply (createOrderFromCart_rejected sv user od
                 {| cv_cart := c; cv_items := cart_items_with_product (db w) (cart_id c) |}
                 w pre ci p post).
Qed.

Lemma insufficient_stock_rejected_witness :
  products (db (shop_short "pA")) !! "pA" = Some {| title := "Lamp"; price := 10%float; stock := 5 |}
  /\ createOrder (shop_services true) alice tt (shop_short "pA")
     = (Err (ValidationError "Lamp has only 5 items in stock, but you requested 6"),
        shop_short "pA").
Proof.
  apply (insufficient_stock_rejected (shop_services true) alice tt (shop_short "pA")
           {| od_shippingAddress := "1 Main Street"; od_paymentMethod := "card" |}
           {| cart_id := "c1"; cart_userId := "u1" |}
           []
           {| ci_id := "i1"; ci_cartId := "c1"; ci_productId := "pA";
              ci_quantity := 6; ci_price := 10%float |}
           {| title := "Lamp"; price := 10%float; stock := 5 |}
           []);
    first [ reflexivity | constructor | (simpl; lia) ].
Defined.

(** C4 as stated does not hold: the error does not tell the id of the
    offending product. The same lamp stored under two different ids yields
    the same error. *)
Lemma error_omits_product_id : ~ error_tells_product_id (shop_services true).
Proof.
  intros [decode H].
  assert (HA := H alice tt (shop_short "pA")
           {| od_shippingAddress := "1 Main Street"; od_paymentMethod := "card" |}
           {| cart_id := "c1"; cart_userId := "u1" |}
           []
           {| ci_id := "i1"; ci_cartId := "c1"; ci_productId := "pA";
              ci_quantity := 6; ci_price := 10%float |}
           {| title := "Lamp"; price := 10%float; stock := 5 |}
           [] eq_refl eq_refl eq_refl (Forall_nil_2 _) eq_refl).
  assert (HZ := H alice tt (shop_short "pZ")
           {| od_shippingAddress := "1 Main Street"; od_paymentMethod := "card" |}
           {| cart_id := "c1"; cart_userId := "u1" |}
           []
           {| ci_id := "i1"; ci_cartId := "c1"; ci_productId := "pZ";
              ci_quantity := 6; ci_price := 10%float |}
           {| title := "Lamp"; price := 10%float; stock := 5 |}
           [] eq_refl eq_refl eq_refl (Forall_nil_2 _) eq_refl).
  destruct HA as (eA & wA & HrunA & HdA). destruct HZ as (eZ & wZ & HrunZ & HdZ).
  vm_compute in HrunA. vm_compute in HrunZ.
  injection HrunA as <- _. injection HrunZ as <- _.
  rewrite HdA in HdZ. discriminate.
Qed.

Lemma same_outcome_refl {A} (x : Result A * World) : same_outcome x x.
Proof. split; reflexivity. Qed.

Lemma same_outcome_bind {A B} (c : M A) (k1 k2 : A -> M B) w :
  (forall a w', same_outcome (k1 a w') (k2 a w')) ->
  same_outcome (bind c k1 w) (bind c k2 w).
Proof.
  intros H. unfold bind. destruct (c w) as [[a|e] w']; [apply H | apply same_outcome_refl].
Qed.

Lemma createOrder_same_outcome {Body} (sv : Services Body)
    (send1 send2 : EmailOptions -> bool) (user : User) (body : Body) (w : World) :
  same_outcome (createOrder (with_transport sv send1) user body w)
               (createOrder (with_transport sv send2) user body w).
Proof.
  unfold createOrder. cbn [validateOrder with_transport].
  destruct (validateOrder sv body) as [m|od]; [apply same_outcome_refl|].
  apply same_outcome_bind. intros cart w1. unfold createOrderFromCart.
  destruct cart as [c|]; [|apply same_outcome_refl].
  case_bool_decide; [apply same_outcome_refl|].
  apply same_outcome_bind. intros _ w2. cbv zeta.
  apply same_outcome_bind. intros oid w3.
  apply same_outcome_bind. intros v w4.
  unfold sendOrderConfirmationEmail.
  destruct v as [v|]; [|apply same_outcome_refl].
  destruct (emailLines (ov_items v)) as [ls|]; [|apply same_outcome_refl].
  rewrite !(bind_Ok _ _ _ _ _ (sendEmail_spec _ _ _)). split; reflexivity.
Qed.

(** C9. The outcome of createOrder and the store it leaves do not depend on
    the mail transport: whether SendGrid delivers or rejects the
    confirmation, the response (or the error) is the same and so are orders,
    order lines, stocks and carts. sendEmail itself never throws and never
    writes to the store. With a transport that rejects every message, a
    createOrder whose cart passes the stock check still answers 201 and the
    order is placed. *)
Theorem place_order_ignores_mail_outcome {Body} (sv : Services Body)
    (send1 send2 : EmailOptions -> bool) (user : User) (body : Body) (w : World) :
  (createOrder (with_transport sv send1) user body w).1
  = (createOrder (with_transport sv send2) user body w).1
  /\ db (createOrder (with_transport sv send1) user body w).2
     = db (createOrder (with_transport sv send2) user body w).2
  /\ (forall msg w0, (sendEmail sv msg w0).1 = Ok (sgMail_send sv msg)
                     /\ db (sendEmail sv msg w0).2 = db w0)
  /\ (forall od c,
        validateOrder sv body = ParseOk od ->
        cartOf (db w) (user_id user) = Some c ->
        cart_items_with_product (db w) (cart_id c) <> [] ->
        stock_ok (cart_items_with_product (db w) (cart_id c)) ->
        exists v w',
          createOrder (with_transport sv (fun _ => false)) user body w
          = (Ok (json 201 (Some v)), w')
          /\ logs w' = logs w ++ [LogError "Error sending email:"]
          /\ order_placed user od
               {| cv_cart := c; cv_items := cart_items_with_product (db w) (cart_id c) |}
               (cartTotal (cart_items_with_product (db w) (cart_id c)))
               (auto (db w)) (db w) (db w')).
Proof.
  destruct (createOrder_same_outcome sv send1 send2 user body w) as [H1 H2].
  split; [exact H1|]. split; [exact H2|]. split.
  - intros msg w0. now rewrite sendEmail_spec.
  - intros od c Hval Hcart Hne Hok.
    destruct (createOrder_ok (with_transport sv (fun _ => false)) user body w od c
                Hval Hcart Hne Hok) as (w' & v & msg & Hrun & _ & Hlogs & Hp).
    exists v, w'. split; [exact Hrun|]. split; [exact Hlogs | exact Hp].
Qed.

Lemma place_order_ignores_mail_outcome_witness :
  exists v w',
    createOrder (with_transport (shop_services true) (fun _ => false)) alice tt shop
    = (Ok (json 201 (Some v)), w')
    /\ logs w' = [LogError "Error sending email:"]
    /\ stock <$> products (db w') !! "pA" = Some 3.
Proof.
  destruct (proj2 (proj2 (proj2
              (place_order_ignores_mail_outcome (shop_services true)
                 (fun _ => true) (fun _ => false) alice tt shop)))
              {| od_shippingAddress := "1 Main Street"; od_paymentMethod := "card" |}
              {| cart_id := "c1"; cart_userId := "u1" |})
    as (v & w' & Hrun & Hlogs & Hp);
    [reflexivity | reflexivity | discriminate | |].
  - repeat constructor; eexists; (split; [vm_compute; reflexivity | simpl; lia]).
  - exists v, w'. split; [exact Hrun|]. split; [exact Hlogs|].
    destruct Hp as (_ & _ & _ & _ & Hps & _). rewrite Hps. reflexivity.
Defined.

(** *** cancelOrder *)

Lemma order_findFirst_spec id uid w :
  order_findFirst id uid w = (Ok (orderOf (db w) id uid), w).
Proof. reflexivity. Qed.

Lemma order_update_status_Some id st w o :
  orders (db w) !! id = Some o ->
  order_update_status id st w
  = (Ok (set_status o st),
     {| db := with_orders (db w) (<[id := set_status o st]> (orders (db w))); logs := logs w |}).
Proof.
  intros H. unfold order_update_status, bind, getDB, putDB, ret. simpl. now rewrite H.
Qed.

Lemma order_update_status_None id st w :
  orders (db w) !! id = None -> order_update_status id st w = (Err RecordNotFound, w).
Proof.
  intros H. unfold order_update_status, bind, getDB, raise. simpl. now rewrite H.
Qed.

(** The loop of the transaction of cancelOrder: each product is credited
    with the quantity of its lines, nothing else is written. *)
Lemma cancelOrder_loop (items : list (OrderItem * option Product)) :
  forall w,
    Forall (fun it => is_Some (products (db w) !! oi_productId it.1)) items ->
    exists w',
      forEach items (fun item =>
        product_update_stock (oi_productId item.1) (oi_quantity item.1)) w = (Ok tt, w')
      /\ logs w' = logs w
      /\ carts (db w') = carts (db w)
      /\ cartItems (db w') = cartItems (db w)
      /\ orders (db w') = orders (db w)
      /\ orderItems (db w') = orderItems (db w)
      /\ forall pid, products (db w') !! pid
                     = add_stock (released (map fst items) pid) <$> products (db w) !! pid.
Proof.
  induction items as [|it rest IH]; intros w Hall.
  - exists w. simpl. repeat split; auto.
    intros pid. destruct (products (db w) !! pid); simpl; [now rewrite add_stock_0 | done].
  - apply Forall_cons in Hall as [[p Hp] Hrest].
    set (w1 := {| db := with_products (db w)
                          (<[oi_productId it.1 := add_stock (oi_quantity it.1) p]>
                             (products (db w)));
                  logs := logs w |}).
    destruct (IH w1) as (w' & Hrun & Hlogs & Hcarts & Hcis & Hords & Hois & Hps).
    { eapply Forall_impl; [exact Hrest|]. intros x [q Hq]. simpl.
      rewrite lookup_insert_is_Some. destruct (decide (oi_productId it.1 = oi_productId x.1)); eauto. }
    exists w'. split.
    { cbn [forEach]. erewrite bind_Ok; [exact Hrun|].
      now apply product_update_stock_Some. }
    repeat split; auto.
    intros pid. rewrite Hps. simpl.
    rewrite (lookup_insert_add_stock _ _ _ _ _ Hp).
    destruct (products (db w) !! pid); simpl; [|done].
    rewrite add_stock_add. f_equal; try (case_bool_decide; lia).
Qed.

Lemma order_view_Some d id o :
  orders d !! id = Some o ->
  order_view d id
  = Some {| ov_id := id; ov_order := o;
            ov_items := map (fun i => (i, products d !! oi_productId i)) (itemsOfOrder d id) |}.
Proof. intros H. unfold order_view. now rewrite H. Qed.

Lemma order_view_items_fst d id :
  map fst (map (fun i => (i, products d !! oi_productId i)) (itemsOfOrder d id))
  = itemsOfOrder d id.
Proof. rewrite map_map. simpl. apply map_id. Qed.

(** cancelOrder on a cancellable order whose lines name stored products. *)
Lemma cancelOrder_ok {Body} (sv : Services Body) (user : User) id w o :
  orders (db w) !! id = Some o ->
  order_userId o = user_id user ->
  status o = PENDING \/ status o = PROCESSING ->
  Forall (fun i => is_Some (products (db w) !! oi_productId i)) (itemsOfOrder (db w) id) ->
  exists w',
    cancelOrder sv user id w = (Ok (json 200 (set_status o CANCELLED)), w')
    /\ orders (db w') = <[id := set_status o CANCELLED]> (orders (db w))
    /\ (forall pid, products (db w') !! pid
                    = add_stock (released (itemsOfOrder (db w) id) pid) <$> products (db w) !! pid)
    /\ orderItems (db w') = orderItems (db w)
    /\ carts (db w') = carts (db w)
    /\ cartItems (db w') = cartItems (db w).
Proof.
  intros Ho Hu Hst Hprods.
  set (v := {| ov_id := id; ov_order := o;
               ov_items := map (fun i => (i, products (db w) !! oi_productId i))
                               (itemsOfOrder (db w) id) |}).
  set (w1 := {| db := with_orders (db w) (<[id := set_status o CANCELLED]> (orders (db w)));
                logs := logs w |}).
  destruct (cancelOrder_loop (ov_items v) w1) as (w2 & Hrun & Hlogs & Hcarts & Hcis & Hords & Hois & Hps).
  { simpl. apply Forall_forall. intros x Hx.
    apply list_elem_of_In, in_map_iff in Hx as (i & <- & Hin). simpl.
    rewrite Forall_forall in Hprods. apply Hprods. now apply list_elem_of_In. }
  eexists. split.
  { unfold cancelOrder. erewrite bind_Ok; [|apply order_findFirst_spec].
    unfold orderOf. rewrite (order_view_Some _ _ _ Ho). cbn [ov_order].
    rewrite bool_decide_eq_true_2 by done. fold v. cbn [ov_order v].
    replace (bool_decide (status o <> PENDING) && bool_decide (status o <> PROCESSING))
      with false
      by (destruct Hst as [-> | ->]; reflexivity).
    erewrite bind_Ok.
    2:{ apply transaction_Ok. unfold cancelOrderTx.
        erewrite bind_Ok; [|apply order_update_status_Some, Ho].
        erewrite bind_Ok; [|exact Hrun]. reflexivity. }
    unfold sendOrderStatusUpdateEmail.
    erewrite bind_Ok; [|apply sendEmail_spec]. reflexivity. }
  simpl. rewrite Hords, Hois, Hcarts, Hcis. repeat split; auto.
  intros pid. rewrite Hps. simpl. now rewrite order_view_items_fst.
Qed.

(** cancelOrder never ends in an error after having written to the store. *)
Lemma cancelOrder_Err_unchanged {Body} (sv : Services Body) (user : User) id w e w' :
  cancelOrder sv user id w = (Err e, w') -> db w' = db w.
Proof.
  unfold cancelOrder. erewrite bind_Ok; [|apply order_findFirst_spec].
  destruct (orderOf (db w) id (user_id user)) as [v|]; [|intros [= _ <-]; reflexivity].
  destruct (bool_decide (status (ov_order v) <> PENDING)
            && bool_decide (status (ov_order v) <> PROCESSING));
    [intros [= _ <-]; reflexivity|].
  unfold bind at 1. unfold transaction.
  destruct (cancelOrderTx id v w) as [[o|e0] w1]; [|intros [= _ <-]; reflexivity].
  unfold sendOrderStatusUpdateEmail.
  erewrite bind_Ok; [|apply sendEmail_spec]. discriminate.
Qed.

Lemma released_reserved news items pid :
  map orderLine news = map cartLine items -> released news pid = reserved items pid.
Proof.
  revert items. induction news as [|oi news IH]; intros [|ci items] H; try discriminate.
  - reflexivity.
  - injection H as H1 H2 H3 Hrest. simpl. rewrite H1, H2. f_equal. now apply IH.
Qed.

(** cancelOrder on an order of the user that is neither PENDING nor PROCESSING. *)
Lemma cancelOrder_not_cancellable {Body} (sv : Services Body) (user : User) id w o :
  orders (db w) !! id = Some o ->
  order_userId o = user_id user ->
  status o <> PENDING -> status o <> PROCESSING ->
  cancelOrder sv user id w
  = (Err (ValidationError "Order cannot be cancelled at this stage"), w).
Proof.
  intros Ho Hu H1 H2. unfold cancelOrder.
  erewrite bind_Ok; [|apply order_findFirst_spec].
  unfold orderOf. rewrite (order_view_Some _ _ _ Ho). cbn [ov_order].
  rewrite bool_decide_eq_true_2 by done. cbn [ov_order].
  rewrite !bool_decide_eq_true_2 by done. reflexivity.
Qed.

(** C7. cancelOrder ends with NotFoundError when no order of that id belongs
    to the requesting user, and with the validation error
    [Order cannot be cancelled at this stage] when the order is neither
    PENDING nor PROCESSING (so for a SHIPPED order); in these cases the world
    is untouched, and whenever cancelOrder ends in an error the store (order
    statuses, stocks) is the one before the call. *)
Theorem cancel_order_rejections {Body} (sv : Services Body) (user : User) (id : ObjectId)
    (w : World) :
  ((forall o, orders (db w) !! id = Some o -> order_userId o <> user_id user) ->
   cancelOrder sv user id w = (Err (NotFoundError "Order not found"), w))
  /\ (forall o, orders (db w) !! id = Some o ->
                order_userId o = user_id user ->
                status o <> PENDING -> status o <> PROCESSING ->
                cancelOrder sv user id w
                = (Err (ValidationError "Order cannot be cancelled at this stage"), w))
  /\ (forall e w', cancelOrder sv user id w = (Err e, w') -> db w' = db w).
Proof.
  split; [|split].
  - intros Hnone. unfold cancelOrder. erewrite bind_Ok; [|apply order_findFirst_spec].
    unfold orderOf, order_view. destruct (orders (db w) !! id) as [o|] eqn:Ho; [|reflexivity].
    cbn [ov_order]. rewrite bool_decide_eq_false_2 by (now apply Hnone). reflexivity.
  - intros o. apply cancelOrder_not_cancellable.
  - intros e w'. apply cancelOrder_Err_unchanged.
Qed.

Lemma cancel_order_rejections_witness :
  cancelOrder (shop_services true) alice "o1" shop_shipped
  = (Err (ValidationError "Order cannot be cancelled at this stage"), shop_shipped)
  /\ cancelOrder (shop_services true) bob "o1" shop_shipped
     = (Err (NotFoundError "Order not found"), shop_shipped)
  /\ db shop_shipped = db shop_shipped.
Proof.
  split; [|split].
  - apply (proj1 (proj2 (cancel_order_rejections (shop_services true) alice "o1" shop_shipped))
             {| order_userId := "u1"; totalAmount := 20%float; status := SHIPPED;
                shippingAddress := "1 Main Street"; paymentMethod := "card" |});
      first [ reflexivity | discriminate ].
  - apply (proj1 (cancel_order_rejections (shop_services true) bob "o1" shop_shipped)).
    intros o Ho. vm_compute in Ho. injection Ho as <-. discriminate.
  - apply (proj2 (proj2 (cancel_order_rejections (shop_services true) alice "o1" shop_shipped))
             (ValidationError "Order cannot be cancelled at this stage") shop_shipped).
    reflexivity.
Defined.

(** C6. For a PENDING order of the requesting user (whose lines name stored
    products) cancelOrder answers 200, sets the status to CANCELLED and
    credits every product with the quantity of its lines; a second
    cancelOrder of the same order is rejected with
    [Order cannot be cancelled at this stage] and changes nothing. A
    createOrder followed at once by the cancelOrder of the new order leaves
    every product as it was before the order. *)
Theorem cancel_pending_order {Body} (sv : Services Body) (user : User) (w : World) :
  (forall id o,
     orders (db w) !! id = Some o ->
     order_userId o = user_id user ->
     status o = PENDING ->
     Forall (fun i => is_Some (products (db w) !! oi_productId i)) (itemsOfOrder (db w) id) ->
     exists w',
       cancelOrder sv user id w = (Ok (json 200 (set_status o CANCELLED)), w')
       /\ status <$> orders (db w') !! id = Some CANCELLED
       /\ orders (db w') = <[id := set_status o CANCELLED]> (orders (db w))
       /\ (forall pid,
             products (db w') !! pid
             = add_stock (released (itemsOfOrder (db w) id) pid) <$> products (db w) !! pid)
       /\ orderItems (db w') = orderItems (db w)
       /\ cartItems (db w') = cartItems (db w)
       /\ cancelOrder sv user id w'
          = (Err (ValidationError "Order cannot be cancelled at this stage"), w'))
  /\ (forall body resp w1,
        createOrder sv user body w = (Ok resp, w1) ->
        exists v o w2,
          data resp = Some v
          /\ cancelOrder sv user (ov_id v) w1 = (Ok (json 200 o), w2)
          /\ status o = CANCELLED
          /\ products (db w2) = products (db w)).
Proof.
  split.
  - intros id o Ho Hu Hst Hprods.
    destruct (cancelOrder_ok sv user id w o Ho Hu (or_introl Hst) Hprods)
      as (w' & Hrun & Hords & Hps & Hois & Hcarts & Hcis).
    exists w'. repeat split; auto.
    + rewrite Hords, lookup_insert_eq. reflexivity.
    + apply (cancelOrder_not_cancellable sv user id w' (set_status o CANCELLED)).
      * rewrite Hords. apply lookup_insert_eq.
      * exact Hu.
      * discriminate.
      * discriminate.
  - intros body resp w1 Hrun.
    destruct (createOrder_cases sv user body w) as [[e He]|(od & c & Hval & Hcart & Hne & Hok)];
      [rewrite He in Hrun; discriminate|].
    destruct (createOrder_ok sv user body w od c Hval Hcart Hne Hok)
      as (w' & v & msg & Hrun' & Hview & _ & Hp).
    rewrite Hrun' in Hrun. injection Hrun as <- <-.
    destruct (order_placed_lookup _ _ _ _ _ _ _ _ Hp Hview)
      as (Hid & Hord & Huser & _ & Hst & _ & Hlines).
    destruct Hp as (_ & _ & _ & (news & _ & Hof & _ & _) & Hps & _ & _).
    destruct (cancelOrder_ok sv user (ov_id v) w' (ov_order v))
      as (w2 & Hrun2 & _ & Hps2 & _).
    { now rewrite Hid. }
    { exact Huser. }
    { now left. }
    { rewrite Hid. apply Forall_forall. intros oi Hin.
      assert (Hpid : In (oi_productId oi)
                        (map (fun l => l.1.1) (map orderLine (itemsOfOrder (db w') (auto (db w))))))
        by (rewrite map_map; apply in_map_iff; exists oi; split;
            [reflexivity | now apply list_elem_of_In]).
      rewrite Hlines, map_map in Hpid. apply in_map_iff in Hpid as (it & Hit & Hin').
      pose proof (stock_ok_products _ _ Hok) as Hall. rewrite Forall_forall in Hall.
      apply list_elem_of_In, Hall in Hin' as [p Hp]. simpl in Hit.
      rewrite Hps, <- Hit. simpl. rewrite Hp. simpl. eauto. }
    exists v, (set_status (ov_order v) CANCELLED), w2.
    split; [reflexivity|]. split; [exact Hrun2|]. split; [reflexivity|].
    apply map_eq. intros pid. rewrite Hps2, Hps, Hid.
    rewrite (released_reserved _ (map fst (cart_items_with_product (db w) (cart_id c)))).
    2:{ rewrite Hlines. simpl. now rewrite map_map. }
    destruct (products (db w) !! pid) as [p|]; simpl; [|reflexivity].
    rewrite add_stock_add. f_equal.
    replace (- _ + _) with 0 by lia. apply add_stock_0.
Qed.

Lemma cancel_pending_order_witness :
  (exists w',
     cancelOrder (shop_services true) alice "o1" shop_pending
     = (Ok (json 200 {| order_userId := "u1"; totalAmount := 20%float; status := CANCELLED;
                        shippingAddress := "1 Main Street"; paymentMethod := "card" |}), w')
     /\ stock <$> products (db w') !! "pA" = Some 5
     /\ cancelOrder (shop_services true) alice "o1" w'
        = (Err (ValidationError "Order cannot be cancelled at this stage"), w'))
  /\ match createOrder (shop_services true) alice tt shop with
     | (Ok resp, w1) =>
         exists v o w2,
           data resp = Some v
           /\ cancelOrder (shop_services true) alice (ov_id v) w1 = (Ok (json 200 o), w2)
           /\ status o = CANCELLED
           /\ products (db w2) = products (db shop)
     | (Err _, _) => False
     end.
Proof.
  split.
  - destruct (proj1 (cancel_pending_order (shop_services true) alice shop_pending) "o1"
                {| order_userId := "u1"; totalAmount := 20%float; status := PENDING;
                   shippingAddress := "1 Main Street"; paymentMethod := "card" |})
      as (w' & Hrun & _ & _ & Hps & _ & _ & Hagain);
      [reflexivity | reflexivity | reflexivity | | ].
    + repeat constructor. vm_compute. eauto.
    + exists w'. split; [exact Hrun|]. split; [|exact Hagain].
      rewrite Hps. reflexivity.
  - destruct (createOrder (shop_services true) alice tt shop) as [[resp|e] w1] eqn:E.
    + apply (proj2 (cancel_pending_order (shop_services true) alice shop) tt resp w1 E).
    + vm_compute in E. discriminate.
Defined.

(** *** addToCart *)

Lemma cart_findUnique_spec uid w : cart_findUnique uid w = (Ok (cartOf (db w) uid), w).
Proof. reflexivity. Qed.

Lemma product_findUnique_spec id w : product_findUnique id w = (Ok (products (db w) !! id), w).
Proof. reflexivity. Qed.

Lemma cartItem_findFirst_product_spec cid pid w :
  cartItem_findFirst_product cid pid w = (Ok (lineOf (db w) cid pid), w).
Proof. reflexivity. Qed.

Lemma cartItem_update_found id f w :
  existsb (fun i => bool_decide (ci_id i = id)) (cartItems (db w)) = true ->
  cartItem_update id f w
  = (Ok tt, {| db := with_cartItems (db w)
                       (map (fun i => if bool_decide (ci_id i = id) then f i else i)
                            (cartItems (db w)));
               logs := logs w |}).
Proof.
  intros H. unfold cartItem_update, bind, getDB, putDB. simpl. now rewrite H.
Qed.

Lemma find_existsb_id (P : CartItem -> bool) l item :
  find P l = Some item ->
  existsb (fun i => bool_decide (ci_id i = ci_id item)) l = true.
Proof.
  induction l as [|x l IH]; simpl; [discriminate|].
  destruct (P x).
  - intros [= ->]. now rewrite bool_decide_eq_true_2.
  - intros H. rewrite (IH H). apply orb_true_r.
Qed.

(** Updating by id the line that [find] returns: [find] now returns the
    updated line, as long as the update keeps what [find] looks at. *)
Lemma find_update (P : CartItem -> bool) (f : CartItem -> CartItem) l item :
  (forall i, P (f i) = P i) ->
  find P l = Some item ->
  find P (map (fun i => if bool_decide (ci_id i = ci_id item) then f i else i) l)
  = Some (f item).
Proof.
  intros HP. induction l as [|x l IH]; simpl; [discriminate|].
  destruct (P x) eqn:Hx.
  - intros [= ->]. rewrite bool_decide_eq_true_2 by done. now rewrite HP, Hx.
  - intros H. case_bool_decide; [rewrite HP|]; rewrite Hx; auto.
Qed.

Lemma addToCart_existing_ok (user : User) (body : CartItemBody) (w : World) c item p :
  cartOf (db w) (user_id user) = Some c ->
  lineOf (db w) (cart_id c) (body_productId body) = Some item ->
  products (db w) !! body_productId body = Some p ->
  validateCartItem body = ParseOk body ->
  ~ body_quantity body > stock p ->
  ~ ci_quantity item + body_quantity body > stock p ->
  exists resp w',
    addToCart user body w = (Ok resp, w')
    /\ statusCode resp = 200%nat
    /\ lineOf (db w') (cart_id c) (body_productId body)
       = Some {| ci_id := ci_id item; ci_cartId := ci_cartId item;
                 ci_productId := ci_productId item;
                 ci_quantity := ci_quantity item + body_quantity body;
                 ci_price := price p |}
    /\ length (cartItems (db w')) = length (cartItems (db w))
    /\ products (db w') = products (db w).
Proof.
  intros Hcart Hitem Hp Hval Hq Hnq. eexists _, _. split.
  { unfold addToCart. rewrite Hval.
    erewrite bind_Ok; [|apply product_findUnique_spec]. rewrite Hp.
    rewrite bool_decide_eq_false_2 by done.
    erewrite bind_Ok; [|apply cart_findUnique_spec]. rewrite Hcart.
    erewrite bind_Ok; [|reflexivity].
    erewrite bind_Ok; [|apply cartItem_findFirst_product_spec]. rewrite Hitem.
    rewrite bool_decide_eq_false_2 by done.
    erewrite bind_Ok; [|apply cartItem_update_found, (find_existsb_id _ _ _ Hitem)].
    erewrite bind_Ok; [|reflexivity]. reflexivity. }
  simpl. split; [reflexivity|]. split; [|split; [apply length_map | reflexivity]].
  unfold lineOf. simpl.
  apply (find_update _ (fun i => {| ci_id := ci_id i; ci_cartId := ci_cartId i;
                                    ci_productId := ci_productId i;
                                    ci_quantity := ci_quantity item + body_quantity body;
                                    ci_price := price p |})); [reflexivity | exact Hitem].
Qed.

(** C10. When the cart of the user already holds a line for the product,
    a successful addToCart for that product leaves that line with its
    quantity increased by the quantity requested and its price replaced by
    the current catalog price of the product; no line is added. A rejected
    call changes nothing. The call succeeds whenever the product id is not
    empty, the quantity is positive and neither it nor the new quantity of
    the line exceeds the stock. *)
Theorem add_to_cart_existing_line (user : User) (body : CartItemBody) (w : World) c item :
  cartOf (db w) (user_id user) = Some c ->
  lineOf (db w) (cart_id c) (body_productId body) = Some item ->
  match addToCart user body w with
  | (Ok resp, w') =>
      exists p,
        products (db w) !! body_productId body = Some p
        /\ statusCode resp = 200%nat
        /\ lineOf (db w') (cart_id c) (body_productId body)
           = Some {| ci_id := ci_id item; ci_cartId := ci_cartId item;
                     ci_productId := ci_productId item;
                     ci_quantity := ci_quantity item + body_quantity body;
                     ci_price := price p |}
        /\ length (cartItems (db w')) = length (cartItems (db w))
        /\ products (db w') = products (db w)
  | (Err _, w') => w' = w
  end
  /\ (forall p,
        products (db w) !! body_productId body = Some p ->
        body_productId body <> "" ->
        0 < body_quantity body ->
        body_quantity body <= stock p ->
        ci_quantity item + body_quantity body <= stock p ->
        exists resp w', addToCart user body w = (Ok resp, w')).
Proof.
  intros Hcart Hitem.
  split.
  - unfold addToCart at 1.
    destruct (validateCartItem body) as [m|b] eqn:Hval; [reflexivity|].
    assert (b = body) as ->.
    { unfold validateCartItem in Hval. repeat case_bool_decide; congruence. }
    erewrite bind_Ok; [|apply product_findUnique_spec].
    destruct (products (db w) !! body_productId body) as [p|] eqn:Hp; [|reflexivity].
    case_bool_decide as Hq; [reflexivity|].
    erewrite bind_Ok; [|apply cart_findUnique_spec]. rewrite Hcart.
    erewrite bind_Ok; [|reflexivity].
    erewrite bind_Ok; [|apply cartItem_findFirst_product_spec]. rewrite Hitem.
    case_bool_decide as Hnq; [reflexivity|].
    destruct (addToCart_existing_ok user body w c item p Hcart Hitem Hp Hval Hq Hnq) as (resp & w' & Hrun & Hrest).
    unfold addToCart in Hrun. rewrite Hval in Hrun.
    erewrite bind_Ok in Hrun; [|apply product_findUnique_spec]. rewrite Hp in Hrun.
    rewrite bool_decide_eq_false_2 in Hrun by done.
    erewrite bind_Ok in Hrun; [|apply cart_findUnique_spec]. rewrite Hcart in Hrun.
    erewrite bind_Ok in Hrun; [|reflexivity].
    erewrite bind_Ok in Hrun; [|apply cartItem_findFirst_product_spec]. rewrite Hitem in Hrun.
    rewrite bool_decide_eq_false_2 in Hrun by done.
    rewrite Hrun. exists p. split; [reflexivity | exact Hrest].
  - intros p Hp Hid Hpos Hq Hnq.
    destruct (addToCart_existing_ok user body w c item p Hcart Hitem Hp) as (resp & w' & Hrun & _); [|lia|lia|eauto].
    unfold validateCartItem. rewrite bool_decide_eq_false_2 by done.
    rewrite bool_decide_eq_false_2 by lia. reflexivity.
Qed.

Lemma add_to_cart_existing_line_witness :
  exists resp w',
    addToCart alice {| body_productId := "pA"; body_quantity := 1 |} shop_repriced = (Ok resp, w')
    /\ lineOf (db w') "c1" "pA"
       = Some {| ci_id := "i1"; ci_cartId := "c1"; ci_productId := "pA";
                 ci_quantity := 3; ci_price := 12%float |}.
Proof.
  destruct (add_to_cart_existing_line alice {| body_productId := "pA"; body_quantity := 1 |}
              shop_repriced {| cart_id := "c1"; cart_userId := "u1" |}
              {| ci_id := "i1"; ci_cartId := "c1"; ci_productId := "pA";
                 ci_quantity := 2; ci_price := 10%float |} eq_refl eq_refl) as [H1 H2].
  destruct (H2 {| title := "Lamp"; price := 12%float; stock := 5 |})
    as (resp & w' & Hrun); [reflexivity | discriminate | simpl; lia | simpl; lia | simpl; lia |].
  rewrite Hrun in H1. destruct H1 as (p & Hp & _ & Hline & _).
  exists resp, w'. split; [exact Hrun|].
  vm_compute in Hp. injection Hp as <-. exact Hline.
Defined.

(** *** The invariant of the store under writes to the cart lines *)

Lemma itemsOfCart_map_keys (f : CartItem -> CartItem) l cid :
  (forall i, ci_cartId (f i) = ci_cartId i) ->
  (forall i, ci_productId (f i) = ci_productId i) ->
  map ci_productId (filter (fun i => ci_cartId i = cid) (map f l))
  = map ci_productId (filter (fun i => ci_cartId i = cid) l).
Proof.
  intros Hc Hp. induction l as [|x l IH]; [reflexivity|]. simpl map at 2.
  destruct (decide (ci_cartId x = cid)) as [E|E].
  - rewrite (filter_cons_True _ x l) by done.
    rewrite filter_cons_True by (rewrite Hc; done). simpl. now rewrite Hp, IH.
  - rewrite (filter_cons_False _ x l) by done.
    rewrite filter_cons_False by (rewrite Hc; done). exact IH.
Qed.

Lemma db_ok_update_items d (f : CartItem -> CartItem) :
  (forall i, ci_cartId (f i) = ci_cartId i) ->
  (forall i, ci_productId (f i) = ci_productId i) ->
  (forall i, i ∈ cartItems d -> 0 < ci_quantity (f i)) ->
  db_ok d -> db_ok (with_cartItems d (map f (cartItems d))).
Proof.
  intros Hc Hp Hq (Hs & Hci & Hnd & Hoi). repeat split; auto; simpl.
  - apply Forall_forall. intros x Hx.
    apply list_elem_of_In, in_map_iff in Hx as (i & <- & Hin). apply Hq. now apply list_elem_of_In.
  - intros cid. unfold itemsOfCart. simpl. rewrite itemsOfCart_map_keys by done. apply Hnd.
Qed.

Lemma lineOf_None_notin d cid pid :
  lineOf d cid pid = None -> pid ∉ map ci_productId (itemsOfCart d cid).
Proof.
  unfold lineOf, itemsOfCart. intros Hnone Hin.
  apply list_elem_of_In, in_map_iff in Hin as (i & Hpid & Hin).
  apply list_elem_of_In, list_elem_of_filter in Hin as [Hcid Hin].
  apply list_elem_of_In in Hin.
  apply (find_none _ _ Hnone) in Hin.
  rewrite !bool_decide_eq_true_2 in Hin by done. discriminate.
Qed.

Lemma db_ok_add_item d (new : CartItem) :
  0 < ci_quantity new ->
  lineOf d (ci_cartId new) (ci_productId new) = None ->
  db_ok d -> db_ok (with_cartItems d (cartItems d ++ [new])).
Proof.
  intros Hq Hnone (Hs & Hci & Hnd & Hoi). repeat split; auto; simpl.
  - apply Forall_app. split; [exact Hci | now constructor].
  - intros cid. unfold itemsOfCart. simpl. rewrite filter_app, map_app.
    destruct (decide (ci_cartId new = cid)) as [E|E].
    + rewrite filter_cons_True by done. simpl. apply NoDup_app. split; [apply Hnd|].
      split; [|apply NoDup_singleton].
      intros x Hx Hx'. apply list_elem_of_singleton in Hx'. subst x cid.
      now apply (lineOf_None_notin _ _ _ Hnone).
    + rewrite filter_cons_False by done. simpl. rewrite app_nil_r. apply Hnd.
Qed.

Lemma db_ok_filter_items d (P : CartItem -> Prop) `{!forall i, Decision (P i)} :
  db_ok d -> db_ok (with_cartItems d (filter P (cartItems d))).
Proof.
  intros (Hs & Hci & Hnd & Hoi). repeat split; auto; simpl.
  - apply Forall_forall. intros x Hx. apply list_elem_of_filter in Hx as [_ Hx].
    rewrite Forall_forall in Hci. now apply Hci.
  - intros cid. unfold itemsOfCart. simpl.
    eapply sublist_NoDup; [apply (Hnd cid)|].
    change (ci_productId <$> filter (fun i => ci_cartId i = cid) (filter P (cartItems d))
            `sublist_of` ci_productId <$> itemsOfCart d cid).
    apply fmap_sublist. unfold itemsOfCart.
    rewrite list_filter_filter.
    rewrite (list_filter_iff _ (fun i => P i /\ ci_cartId i = cid)) by tauto.
    rewrite <- list_filter_filter. apply sublist_filter.
Qed.

Lemma db_ok_with_carts d cs : db_ok d -> db_ok (with_carts d cs).
Proof. intros (Hs & Hci & Hnd & Hoi). repeat split; auto. Qed.

Lemma db_ok_with_orders d os : db_ok d -> db_ok (with_orders d os).
Proof. intros (Hs & Hci & Hnd & Hoi). repeat split; auto. Qed.

(** *** The cart controller writes to carts and cart lines only *)

Ltac run_handler :=
  unfold cart_findUnique_include, cart_findUnique_id_include, cart_findUnique, cart_create,
    product_findUnique, cartItem_findFirst_product, cartItem_findFirst_id,
    cartItem_update, cartItem_create, cartItem_delete, cartItem_deleteMany,
    bind, ret, raise, getDB, putDB;
  simpl; repeat (case_match; simpl; simplify_eq); simpl.

Lemma getCart_write (user : User) w : cart_write (db w) (db (getCart user w).2).
Proof. unfold getCart. run_handler; repeat split. Qed.

Lemma addToCart_write (user : User) body w : cart_write (db w) (db (addToCart user body w).2).
Proof. unfold addToCart. run_handler; repeat split. Qed.

Lemma updateCartItem_write (user : User) id q w :
  cart_write (db w) (db (updateCartItem user id q w).2).
Proof. unfold updateCartItem. run_handler; repeat split. Qed.

Lemma removeFromCart_write (user : User) id w :
  cart_write (db w) (db (removeFromCart user id w).2).
Proof. unfold removeFromCart. run_handler; repeat split. Qed.

Lemma clearCart_write (user : User) w : cart_write (db w) (db (clearCart user w).2).
Proof. unfold clearCart. run_handler; repeat split. Qed.

(** *** The cart controller keeps the invariant *)

Ltac split_if :=
  match goal with |- context [bool_decide ?P] => destruct (bool_decide P) end.

Ltac decide_hyps :=
  repeat match goal with
    | H : bool_decide _ = false |- _ => apply bool_decide_eq_false in H
    | H : bool_decide _ = true |- _ => apply bool_decide_eq_true in H
    end.

Lemma db_ok_quantity d i : db_ok d -> i ∈ cartItems d -> 0 < ci_quantity i.
Proof. intros (_ & Hci & _) Hin. rewrite Forall_forall in Hci. now apply Hci. Qed.

Lemma find_elem_of {A} (P : A -> bool) l x : find P l = Some x -> x ∈ l.
Proof. intros H. apply list_elem_of_In. now apply (find_some _ _ H). Qed.

Lemma getCart_db_ok (user : User) w : db_ok (db w) -> db_ok (db (getCart user w).2).
Proof.
  intros Hok. unfold getCart. run_handler; auto; now apply (db_ok_with_carts (db w)).
Qed.

Lemma clearCart_db_ok (user : User) w : db_ok (db w) -> db_ok (db (clearCart user w).2).
Proof.
  intros Hok. unfold clearCart. run_handler; auto; now apply (db_ok_filter_items (db w)).
Qed.

Lemma removeFromCart_db_ok (user : User) id w :
  db_ok (db w) -> db_ok (db (removeFromCart user id w).2).
Proof.
  intros Hok. unfold removeFromCart. run_handler; auto; now apply (db_ok_filter_items (db w)).
Qed.

Lemma updateCartItem_db_ok (user : User) id q w :
  db_ok (db w) -> db_ok (db (updateCartItem user id q w).2).
Proof.
  intros Hok. unfold updateCartItem. run_handler; auto.
  all: apply (db_ok_update_items (db w)); auto.
  all: try (intros i; split_if; reflexivity).
  all: intros i Hi; split_if; simpl;
    [decide_hyps; lia | now apply (db_ok_quantity (db w))].
Qed.

Lemma validateCartItem_Ok body b :
  validateCartItem body = ParseOk b -> b = body /\ 0 < body_quantity body.
Proof.
  unfold validateCartItem. repeat case_bool_decide; intros; simplify_eq. split; [done | lia].
Qed.

Lemma addToCart_db_ok (user : User) body w :
  db_ok (db w) -> db_ok (db (addToCart user body w).2).
Proof.
  intros Hok. unfold addToCart.
  destruct (validateCartItem body) as [m|b] eqn:Hval; [exact Hok|].
  apply validateCartItem_Ok in Hval as [-> Hpos].
  run_handler; auto.
  all: simpl in *.
  all: lazymatch goal with
       | |- db_ok (with_cartItems ?d (map ?f _)) =>
           apply (db_ok_update_items d f);
           [ intros i; split_if; reflexivity
           | intros i; split_if; reflexivity
           | intros i Hi; split_if; simpl;
             [ match goal with
               | H : find _ (cartItems _) = Some ?c |- _ =>
                   pose proof (db_ok_quantity _ _ Hok (find_elem_of _ _ _ H)); lia
               end
             | exact (db_ok_quantity _ _ Hok Hi) ]
           | auto; now apply db_ok_with_carts ]
       | |- db_ok (with_cartItems ?d (_ ++ [?n])) =>
           apply (db_ok_add_item d n);
           [ exact Hpos | assumption | auto; now apply db_ok_with_carts ]
       end.
Qed.

(** *** createOrder and cancelOrder keep the invariant *)

Lemma reserved_notin items pid :
  pid ∉ map ci_productId items -> reserved items pid = 0.
Proof.
  induction items as [|i items IH]; simpl; [reflexivity|].
  intros Hnot. apply not_elem_of_cons in Hnot as [Hne Hnot].
  rewrite bool_decide_eq_false_2 by congruence. rewrite IH by done. reflexivity.
Qed.

Lemma reserved_le (ps : gmap string Product) items pid p :
  NoDup (map ci_productId items) ->
  Forall (fun i => exists q, ps !! ci_productId i = Some q /\ ci_quantity i <= stock q) items ->
  ps !! pid = Some p ->
  0 <= stock p ->
  reserved items pid <= stock p.
Proof.
  intros Hnd Hall Hp Hs. induction items as [|i items IH]; simpl; [lia|].
  apply NoDup_cons in Hnd as [Hnot Hnd]. apply Forall_cons in Hall as [(q & Hq & Hle) Hall].
  case_bool_decide as E.
  - subst pid. rewrite reserved_notin by done. rewrite Hp in Hq. injection Hq as <-. lia.
  - specialize (IH Hnd Hall). lia.
Qed.

Lemma stock_ok_lines d cid :
  stock_ok (cart_items_with_product d cid) ->
  Forall (fun i => exists q, products d !! ci_productId i = Some q /\ ci_quantity i <= stock q)
         (itemsOfCart d cid).
Proof.
  unfold stock_ok, cart_items_with_product. rewrite !Forall_forall. intros H i Hi.
  specialize (H (i, products d !! ci_productId i)). simpl in H. apply H.
  apply list_elem_of_In, in_map_iff. exists i. split; [reflexivity | now apply list_elem_of_In].
Qed.

Lemma order_placed_db_ok (user : User) od c total oid d d' :
  order_placed user od {| cv_cart := c; cv_items := cart_items_with_product d (cart_id c) |}
               total oid d d' ->
  stock_ok (cart_items_with_product d (cart_id c)) ->
  db_ok d -> db_ok d'.
Proof.
  intros (_ & _ & _ & (news & Hois & _ & Hlines & _) & Hps & Hcis & _) Hok (Hs & Hci & Hnd & Hoi).
  simpl in *. rewrite cart_items_fst in Hps.
  split; [|split; [|split]].
  - intros pid p' Hp'. rewrite Hps in Hp'.
    destruct (products d !! pid) as [p|] eqn:Hp; [|discriminate]. injection Hp' as <-.
    rewrite stock_add_stock.
    pose proof (reserved_le (products d) (itemsOfCart d (cart_id c)) pid p
                  (Hnd (cart_id c)) (stock_ok_lines _ _ Hok) Hp (Hs _ _ Hp)). lia.
  - destruct (db_ok_filter_items d (fun i => ci_cartId i <> cart_id c)) as (_ & H & _);
      [repeat split; auto|]. simpl in H. now rewrite Hcis.
  - intros cid.
    destruct (db_ok_filter_items d (fun i => ci_cartId i <> cart_id c)) as (_ & _ & H & _);
      [repeat split; auto|].
    specialize (H cid). unfold itemsOfCart in *. simpl in H. now rewrite Hcis.
  - rewrite Hois. apply Forall_app. split; [exact Hoi|].
    assert (Hq : map oi_quantity news = map ci_quantity (itemsOfCart d (cart_id c))).
    { replace (map oi_quantity news) with (map (fun l => l.1.2) (map orderLine news))
        by (rewrite map_map; reflexivity).
      rewrite Hlines, !map_map. unfold cart_items_with_product. rewrite map_map. reflexivity. }
    apply Forall_forall. intros oi Hin.
    assert (Hin' : In (oi_quantity oi) (map ci_quantity (itemsOfCart d (cart_id c)))).
    { rewrite <- Hq. apply in_map. now apply list_elem_of_In. }
    apply in_map_iff in Hin' as (ci & <- & Hci').
    rewrite Forall_forall in Hci. apply list_elem_of_In in Hci'.
    apply list_elem_of_filter in Hci' as [_ Hci']. specialize (Hci _ Hci'). lia.
Qed.

Lemma createOrder_db_ok {Body} (sv : Services Body) (user : User) body w :
  db_ok (db w) -> db_ok (db (createOrder sv user body w).2).
Proof.
  intros Hdb.
  destruct (createOrder_cases sv user body w) as [[e He]|(od & c & Hval & Hcart & Hne & Hok)].
  - now rewrite He.
  - destruct (createOrder_ok sv user body w od c Hval Hcart Hne Hok)
      as (w' & v & msg & Hrun & _ & _ & Hp).
    rewrite Hrun. simpl. eapply order_placed_db_ok; eauto.
Qed.

(** When a product of an order line has left the store, the loop of the
    transaction of cancelOrder throws. *)
Lemma cancelOrder_loop_missing (items : list (OrderItem * option Product)) :
  forall w,
    ~ Forall (fun it => is_Some (products (db w) !! oi_productId it.1)) items ->
    exists w',
      forEach items (fun item =>
        product_update_stock (oi_productId item.1) (oi_quantity item.1)) w
      = (Err RecordNotFound, w').
Proof.
  induction items as [|it rest IH]; intros w Hno.
  - exfalso. apply Hno. constructor.
  - cbn [forEach].
    destruct (products (db w) !! oi_productId it.1) as [p|] eqn:Hp.
    + set (w1 := {| db := with_products (db w)
                            (<[oi_productId it.1 := add_stock (oi_quantity it.1) p]>
                               (products (db w)));
                    logs := logs w |}).
      destruct (IH w1) as [w' Hrun].
      { intros Hall. apply Hno. constructor; [rewrite Hp; eauto|].
        eapply Forall_impl; [exact Hall|]. intros x. simpl.
        rewrite lookup_insert_is_Some. intros [<-|[_ H]]; [rewrite Hp; eauto | exact H]. }
      exists w'. erewrite bind_Ok; [exact Hrun|]. now apply product_update_stock_Some.
    + eexists. erewrite bind_Err; [reflexivity|]. now apply product_update_stock_None.
Qed.

(** cancelOrder either leaves the store as it was, or finds a cancellable
    order of the user whose lines all name stored products. *)
Lemma cancelOrder_cases {Body} (sv : Services Body) (user : User) id w :
  db (cancelOrder sv user id w).2 = db w
  \/ exists o,
       orders (db w) !! id = Some o
       /\ order_userId o = user_id user
       /\ (status o = PENDING \/ status o = PROCESSING)
       /\ Forall (fun i => is_Some (products (db w) !! oi_productId i)) (itemsOfOrder (db w) id).
Proof.
  destruct (cancelOrder sv user id w) as [[resp|e] w'] eqn:Hrun;
    [|left; now apply (cancelOrder_Err_unchanged sv user id w e w')].
  right. unfold cancelOrder in Hrun.
  erewrite bind_Ok in Hrun; [|apply order_findFirst_spec].
  unfold orderOf, order_view in Hrun.
  destruct (orders (db w) !! id) as [o|] eqn:Ho; [|discriminate].
  cbn [ov_order] in Hrun. case_bool_decide as Hu; [|discriminate].
  cbn [ov_order] in Hrun.
  destruct (bool_decide (status o <> PENDING) && bool_decide (status o <> PROCESSING)) eqn:Hst;
    [discriminate|].
  exists o. split; [reflexivity|]. split; [exact Hu|]. split.
  { apply andb_false_iff in Hst as [H|H]; apply bool_decide_eq_false in H;
      destruct (status o); try tauto; exfalso; apply H; discriminate. }
  destruct (decide (Forall (fun i => is_Some (products (db w) !! oi_productId i))
                           (itemsOfOrder (db w) id))) as [Hall|Hno]; [exact Hall|].
  exfalso.
  set (v := {| ov_id := id; ov_order := o;
               ov_items := map (fun i => (i, products (db w) !! oi_productId i))
                               (itemsOfOrder (db w) id) |}) in *.
  set (w1 := {| db := with_orders (db w) (<[id := set_status o CANCELLED]> (orders (db w)));
                logs := logs w |}).
  destruct (cancelOrder_loop_missing (ov_items v) w1) as [w2 Hloop].
  { intros Hall. apply Hno. apply Forall_forall. intros i Hi.
    rewrite Forall_forall in Hall.
    apply (Hall (i, products (db w) !! oi_productId i)).
    apply list_elem_of_In, in_map_iff. exists i. split; [reflexivity | now apply list_elem_of_In]. }
  erewrite bind_Err in Hrun; [discriminate|].
  apply transaction_Err. unfold cancelOrderTx.
  erewrite bind_Ok; [|apply order_update_status_Some, Ho].
  erewrite bind_Err; [reflexivity | exact Hloop].
Qed.

Lemma released_nonneg items pid :
  Forall (fun i => 0 <= oi_quantity i) items -> 0 <= released items pid.
Proof.
  induction 1 as [|i items Hi _ IH]; simpl; [lia|]. case_bool_decide; lia.
Qed.

Lemma cancelOrder_db_ok {Body} (sv : Services Body) (user : User) id w :
  db_ok (db w) -> db_ok (db (cancelOrder sv user id w).2).
Proof.
  intros Hdb.
  destruct (cancelOrder_cases sv user id w) as [E|(o & Ho & Hu & Hst & Hprods)];
    [now rewrite E|].
  destruct (cancelOrder_ok sv user id w o Ho Hu Hst Hprods)
    as (w' & Hrun & _ & Hps & Hois & _ & Hcis).
  rewrite Hrun. simpl. destruct Hdb as (Hs & Hci & Hnd & Hoi).
  split; [|split; [|split]].
  - intros pid p' Hp'. rewrite Hps in Hp'.
    destruct (products (db w) !! pid) as [p|] eqn:Hp; [|discriminate]. injection Hp' as <-.
    rewrite stock_add_stock.
    assert (0 <= released (itemsOfOrder (db w) id) pid).
    { apply released_nonneg. apply Forall_forall. intros i Hi.
      apply list_elem_of_filter in Hi as [_ Hi]. rewrite Forall_forall in Hoi. now apply Hoi. }
    specialize (Hs _ _ Hp). simpl in Hs. lia.
  - now rewrite Hcis.
  - intros cid. unfold itemsOfCart. rewrite Hcis. apply Hnd.
  - now rewrite Hois.
Qed.

Lemma updateOrderStatus_db (id : ObjectId) st w :
  db (updateOrderStatus id st w).2 = db w
  \/ exists o s, orders (db w) !! id = Some o
                 /\ db (updateOrderStatus id st w).2
                    = with_orders (db w) (<[id := set_status o s]> (orders (db w))).
Proof.
  unfold updateOrderStatus. destruct (parseStatus st) as [s|]; [|now left].
  erewrite bind_Ok; [|apply order_findUnique_spec].
  unfold order_view. destruct (orders (db w) !! id) as [o|] eqn:Ho; [|now left].
  right. exists o, s. split; [reflexivity|].
  erewrite bind_Ok; [|apply order_update_status_Some, Ho]. reflexivity.
Qed.

Lemma updateOrderStatus_db_ok (id : ObjectId) st w :
  db_ok (db w) -> db_ok (db (updateOrderStatus id st w).2).
Proof.
  intros Hdb. destruct (updateOrderStatus_db id st w) as [E|(o & s & _ & E)]; rewrite E;
    [exact Hdb | now apply db_ok_with_orders].
Qed.

Lemma handle_db_ok {Body} (sv : Services Body) (r : Request) w :
  db_ok (db w) -> db_ok (db (handle sv r w)).
Proof.
  destruct r; simpl;
    auto using getCart_db_ok, addToCart_db_ok, updateCartItem_db_ok, removeFromCart_db_ok,
      clearCart_db_ok, createOrder_db_ok, cancelOrder_db_ok, updateOrderStatus_db_ok.
Qed.

Lemma run_db_ok {Body} (sv : Services Body) (rs : list Request) :
  forall w, db_ok (db w) -> db_ok (db (run sv rs w)).
Proof.
  induction rs as [|r rs IH]; intros w Hdb; [exact Hdb|].
  simpl. apply IH. now apply handle_db_ok.
Qed.

(** A catalog without negative stock, with no cart line and no order line
    yet, satisfies the invariant. *)
Lemma fresh_store_ok d : stock_nonneg d -> fresh_store d -> db_ok d.
Proof.
  intros Hs [Hci Hoi]. repeat split; auto.
  - rewrite Hci. constructor.
  - intros cid. unfold itemsOfCart. rewrite Hci. constructor.
  - rewrite Hoi. constructor.
Qed.

(** C3. From a store whose stocks are not negative (and whose cart lines
    are as the cart controller makes them: positive quantities, one line per
    product and cart), no sequence of requests to the cart and order
    handlers, createOrder and cancelOrder among them, ever leaves a product
    with a negative stock. In any world, a createOrder whose cart asks for
    more of a product than its stock is rejected and changes nothing. *)
Theorem stock_never_negative {Body} (sv : Services Body) (w : World) :
  db_ok (db w) ->
  (forall rs, stock_nonneg (db (run sv rs w)))
  /\ (forall (w1 : World) (user : User) body c i p,
        cartOf (db w1) (user_id user) = Some c ->
        i ∈ itemsOfCart (db w1) (cart_id c) ->
        products (db w1) !! ci_productId i = Some p ->
        ci_quantity i > stock p ->
        exists e, createOrder sv user body w1 = (Err e, w1)).
Proof.
  intros Hdb. split.
  - intros rs. now apply (run_db_ok sv rs w).
  - intros w1 user body c i p Hcart Hin Hp Hq.
    destruct (createOrder_cases sv user body w1) as [He|(od & c' & _ & Hcart' & _ & Hok)];
      [exact He|].
    exfalso. rewrite Hcart in Hcart'. injection Hcart' as <-.
    pose proof (stock_ok_lines _ _ Hok) as Hall. rewrite Forall_forall in Hall.
    destruct (Hall i Hin) as (q & Hq1 & Hq2). rewrite Hp in Hq1. injection Hq1 as <-. lia.
Qed.

Lemma shop_db_ok : db_ok shop_db.
Proof.
  split; [|split; [|split]].
  - intros id p. unfold shop_db. simpl.
    rewrite lookup_insert_Some. intros [[_ <-]|[_ H]]; [simpl; lia|].
    apply lookup_singleton_Some in H as [_ <-]. simpl; lia.
  - repeat constructor.
  - intros cid. unfold itemsOfCart, shop_db. simpl.
    rewrite filter_cons. destruct (decide _); simpl.
    + rewrite filter_cons_True by done. simpl.
      apply NoDup_cons. split; [|apply NoDup_singleton].
      rewrite list_elem_of_singleton. discriminate.
    + rewrite filter_cons. destruct (decide _); [contradiction|]. constructor.
  - constructor.
Qed.

Lemma stock_never_negative_witness :
  stock_nonneg (db (run (shop_services true) shop_day shop))
  /\ exists e, createOrder (shop_services true) alice tt (shop_short "pA")
               = (Err e, shop_short "pA").
Proof.
  destruct (stock_never_negative (shop_services true) shop shop_db_ok) as [H1 H2].
  split; [apply H1|].
  apply (H2 (shop_short "pA") alice tt {| cart_id := "c1"; cart_userId := "u1" |}
            {| ci_id := "i1"; ci_cartId := "c1"; ci_productId := "pA";
               ci_quantity := 6; ci_price := 10%float |}
            {| title := "Lamp"; price := 10%float; stock := 5 |});
    first [ reflexivity | (vm_compute; left) | (simpl; lia) ].
Defined.

(** *** Orders keep their total and their lines *)

Lemma orderTotal_cartTotal news (items : list (CartItem * option Product)) :
  map orderLine news = map (fun it => cartLine it.1) items ->
  orderTotal news = cartTotal items.
Proof.
  unfold orderTotal, cartTotal. generalize 0%float as acc.
  revert items. induction news as [|oi news IH]; intros [|it items] acc H; try discriminate.
  - reflexivity.
  - injection H as _ H2 H3 Hrest. simpl. rewrite H2, H3. now apply IH.
Qed.

Lemma order_write_refl d d' : d' = d -> order_write d d'.
Proof.
  intros -> id. destruct (orders d !! id) as [o|] eqn:Ho; [|now left].
  exists o. auto.
Qed.

Lemma order_write_cart d d' : cart_write d d' -> order_write d d'.
Proof.
  intros (_ & Hords & Hois) id. unfold itemsOfOrder. rewrite Hords, Hois.
  destruct (orders d !! id) as [o|]; [|now left]. exists o. auto.
Qed.

Lemma order_write_status d d' id0 o s :
  orders d !! id0 = Some o ->
  orders d' = <[id0 := set_status o s]> (orders d) ->
  orderItems d' = orderItems d ->
  order_write d d'.
Proof.
  intros Ho Hords Hois id. unfold itemsOfOrder. rewrite Hords, Hois.
  destruct (decide (id0 = id)) as [<-|Hne].
  - rewrite Ho, lookup_insert_eq. exists (set_status o s). auto.
  - rewrite lookup_insert_ne by done.
    destruct (orders d !! id) as [o1|]; [|now left]. exists o1. auto.
Qed.

Lemma order_write_placed (user : User) od cart oid d d' :
  order_placed user od cart (cartTotal (cv_items cart)) oid d d' -> order_write d d'.
Proof.
  intros (Hnew & Hnone & Hords & (news & Hois & Hof & Hlines & Hoid) & _) id.
  destruct (decide (oid = id)) as [<-|Hne].
  - rewrite Hnew. right. rewrite Hords, lookup_insert_eq. eexists. split; [reflexivity|].
    simpl. rewrite Hof. symmetry. now apply orderTotal_cartTotal.
  - assert (Hitems : itemsOfOrder d' id = itemsOfOrder d id).
    { unfold itemsOfOrder. rewrite Hois, filter_app.
      replace (filter (fun i => oi_orderId i = id) news) with (@nil OrderItem);
        [apply app_nil_r|].
      symmetry. clear -Hoid Hne. induction Hoid as [|x l Hx _ IH]; [reflexivity|].
      rewrite filter_cons_False by congruence. exact IH. }
    rewrite Hords, lookup_insert_ne by done.
    destruct (orders d !! id) as [o|]; [|now left]. exists o. auto.
Qed.

Lemma handle_order_write {Body} (sv : Services Body) (r : Request) w :
  order_write (db w) (db (handle sv r w)).
Proof.
  destruct r; simpl.
  - apply order_write_cart, getCart_write.
  - apply order_write_cart, addToCart_write.
  - apply order_write_cart, updateCartItem_write.
  - apply order_write_cart, removeFromCart_write.
  - apply order_write_cart, clearCart_write.
  - destruct (createOrder_cases sv user body w) as [[e He]|(od & c & Hval & Hcart & Hne & Hok)].
    + rewrite He. now apply order_write_refl.
    + destruct (createOrder_ok sv user body w od c Hval Hcart Hne Hok)
        as (w' & v & msg & Hrun & _ & _ & Hp).
      rewrite Hrun. simpl. eapply (order_write_placed user od). exact Hp.
  - destruct (cancelOrder_cases sv user id w) as [E|(o & Ho & Hu & Hst & Hprods)].
    + now apply order_write_refl.
    + destruct (cancelOrder_ok sv user id w o Ho Hu Hst Hprods)
        as (w' & Hrun & Hords & _ & Hois & _).
      rewrite Hrun. simpl. eapply order_write_status; eauto.
  - destruct (updateOrderStatus_db id st w) as [E|(o & s & Ho & E)].
    + now apply order_write_refl.
    + rewrite E. eapply order_write_status; eauto.
Qed.

Lemma order_write_totals d d' : order_write d d' -> totals_ok d -> totals_ok d'.
Proof.
  intros Hw Hok id o' Ho'. specialize (Hw id).
  destruct (orders d !! id) as [o|] eqn:Ho.
  - destruct Hw as (o1 & Ho1 & _ & Htot & Hitems). rewrite Ho1 in Ho'. injection Ho' as <-.
    rewrite Htot, Hitems. now apply Hok.
  - destruct Hw as [Hnone|(o1 & Ho1 & Htot)]; [congruence|].
    rewrite Ho1 in Ho'. injection Ho' as <-. exact Htot.
Qed.

Lemma run_totals_ok {Body} (sv : Services Body) (rs : list Request) :
  forall w, totals_ok (db w) -> totals_ok (db (run sv rs w)).
Proof.
  induction rs as [|r rs IH]; intros w Hok; [exact Hok|].
  simpl. apply IH. eapply order_write_totals; [apply handle_order_write | exact Hok].
Qed.

(** C5. The order that createOrder stores has one line per line of the cart
    with the product, quantity and price of that cart line (the price noted
    in the cart, whatever the catalog says now), and its totalAmount is the
    sum of price times quantity over these lines. No request to the cart and
    order handlers changes the total, the owner or the lines of a stored
    order, so every order of every store reached from a store where totals
    match (an empty one for instance) has the sum over its lines as total. *)
Theorem order_total_is_sum_of_lines {Body} (sv : Services Body) (w : World) :
  (forall (user : User) body resp w',
     createOrder sv user body w = (Ok resp, w') ->
     exists v c,
       data resp = Some v
       /\ cartOf (db w) (user_id user) = Some c
       /\ orders (db w) !! ov_id v = None
       /\ orders (db w') !! ov_id v = Some (ov_order v)
       /\ map orderLine (itemsOfOrder (db w') (ov_id v))
          = map cartLine (itemsOfCart (db w) (cart_id c))
       /\ totalAmount (ov_order v) = orderTotal (itemsOfOrder (db w') (ov_id v)))
  /\ (forall r id, order_kept (db w) (db (handle sv r w)) id)
  /\ (totals_ok (db w) -> forall rs, totals_ok (db (run sv rs w))).
Proof.
  split; [|split].
  - intros user body resp w' Hrun.
    destruct (createOrder_cases sv user body w) as [[e He]|(od & c & Hval & Hcart & Hne & Hok)];
      [rewrite He in Hrun; discriminate|].
    destruct (createOrder_ok sv user body w od c Hval Hcart Hne Hok)
      as (w1 & v & msg & Hrun' & Hview & _ & Hp).
    rewrite Hrun' in Hrun. injection Hrun as <- <-.
    destruct (order_placed_lookup _ _ _ _ _ _ _ _ Hp Hview)
      as (Hid & Hord & _ & Htot & _ & _ & Hlines).
    exists v, c. rewrite Hid. simpl in Hlines.
    split; [reflexivity|]. split; [exact Hcart|].
    split; [apply auto_not_order|]. split; [exact Hord|]. split.
    + rewrite Hlines. unfold cart_items_with_product. rewrite map_map. reflexivity.
    + rewrite Htot. symmetry. now apply orderTotal_cartTotal.
  - intros r id o Ho. pose proof (handle_order_write sv r w id) as H.
    rewrite Ho in H. exact H.
  - intros Hok rs. now apply run_totals_ok.
Qed.

Lemma order_total_is_sum_of_lines_witness :
  (exists v,
     (createOrder (shop_services true) alice tt shop_repriced).1 = Ok (json 201 (Some v))
     /\ map orderLine (itemsOfOrder (db (createOrder (shop_services true) alice tt shop_repriced).2)
                                    (ov_id v))
        = [("pA", 2, 10%float); ("pB", 1, 5%float)]
     /\ totalAmount (ov_order v) = 25%float)
  /\ totals_ok (db (run (shop_services true) shop_day shop_repriced)).
Proof.
  destruct (order_total_is_sum_of_lines (shop_services true) shop_repriced) as (H1 & _ & H3).
  split.
  - destruct (createOrder (shop_services true) alice tt shop_repriced) as [[resp|e] w'] eqn:E;
      [|vm_compute in E; discriminate].
    destruct (H1 alice tt resp w' E) as (v & c & Hv & Hc & _ & _ & Hlines & Htot).
    vm_compute in Hc. injection Hc as <-.
    exists v. simpl. split; [destruct resp as [code d]; simpl in Hv; subst d|].
    + vm_compute in E. injection E as <- _ _. reflexivity.
    + split; [exact Hlines|]. rewrite Htot, (orderTotal_cartTotal _
        [({| ci_id := "i1"; ci_cartId := "c1"; ci_productId := "pA";
             ci_quantity := 2; ci_price := 10%float |}, None);
         ({| ci_id := "i2"; ci_cartId := "c1"; ci_productId := "pB";
             ci_quantity := 1; ci_price := 5%float |}, None)] Hlines). reflexivity.
  - apply H3. intros id o Ho. vm_compute in Ho. discriminate.
Defined.

(** *** Two requests for the last unit *)

(** createOrder is its read followed by its resumption. *)
Lemma createOrder_read_resume {Body} (sv : Services Body) (user : User) body w :
  createOrder sv user body w
  = (let (x, w1) := createOrderRead sv user body w in createOrderResume sv user x w1).
Proof.
  unfold createOrder, createOrderRead, createOrderResume.
  destruct (validateOrder sv body) as [m|od]; [reflexivity|].
  rewrite !(bind_Ok _ _ _ _ _ (cart_findUnique_include_spec _ _)). reflexivity.
Qed.

Lemma itemsOfCart_other (d d' : DB) cid cid' :
  cartItems d' = filter (fun i => ci_cartId i <> cid) (cartItems d) ->
  cid' <> cid ->
  itemsOfCart d' cid' = itemsOfCart d cid'.
Proof.
  intros H Hne. unfold itemsOfCart. rewrite H. clear H.
  induction (cartItems d) as [|i l IH]; [reflexivity|].
  destruct (decide (ci_cartId i = cid)) as [E|E].
  - rewrite (filter_cons_False _ i l) by tauto.
    rewrite (filter_cons_False _ i l) by congruence. exact IH.
  - rewrite (filter_cons_True _ i l) by done.
    destruct (decide (ci_cartId i = cid')) as [E'|E'].
    + rewrite !filter_cons_True by done. now rewrite IH.
    + rewrite !filter_cons_False by done. exact IH.
Qed.

(** C8, as amended. Two createOrder calls, each for the last unit of a
    product with stock 1, served one after the other: the first succeeds,
    the second is rejected for insufficient stock, the stock ends at 0 and
    one order is created. *)
Theorem last_unit_in_turn {Body} (sv : Services Body) (userA userB : User)
    (bodyA bodyB : Body) (w : World) odA odB cA cB iA iB pid p :
  validateOrder sv bodyA = ParseOk odA ->
  validateOrder sv bodyB = ParseOk odB ->
  cartOf (db w) (user_id userA) = Some cA ->
  cartOf (db w) (user_id userB) = Some cB ->
  cart_id cA <> cart_id cB ->
  itemsOfCart (db w) (cart_id cA) = [iA] ->
  itemsOfCart (db w) (cart_id cB) = [iB] ->
  ci_productId iA = pid -> ci_quantity iA = 1 ->
  ci_productId iB = pid -> ci_quantity iB = 1 ->
  products (db w) !! pid = Some p -> stock p = 1 ->
  (exists resp w',
     createOrder_in_turn sv userA userB bodyA bodyB w
     = (Ok resp,
        Err (ValidationError (title p ++ " has only 0 items in stock, but you requested 1")%string),
        w'))
  /\ one_winner (createOrder_in_turn sv userA userB bodyA bodyB) pid w.
Proof.
  intros HvA HvB HcA HcB Hne HiA HiB HpA HqA HpB HqB Hp Hs.
  assert (HviewA : cart_items_with_product (db w) (cart_id cA) = [(iA, Some p)]).
  { unfold cart_items_with_product. rewrite HiA. simpl. now rewrite HpA, Hp. }
  destruct (createOrder_ok sv userA bodyA w odA cA HvA HcA) as (w1 & v & msg & Hrun & _ & _ & Hpl).
  { now rewrite HviewA. }
  { rewrite HviewA. repeat constructor. exists p. split; [reflexivity|]. simpl. lia. }
  rewrite HviewA in Hpl.
  destruct Hpl as (Hnew & _ & Hords & _ & Hps & Hcis & Hcarts). simpl in Hps, Hcis.
  assert (Hp1 : products (db w1) !! pid = Some (add_stock (-1) p)).
  { rewrite Hps, Hp. simpl. rewrite HpA, HqA. rewrite bool_decide_eq_true_2 by done.
    reflexivity. }
  assert (HviewB : cart_items_with_product (db w1) (cart_id cB)
                   = [] ++ (iB, Some (add_stock (-1) p)) :: []).
  { unfold cart_items_with_product.
    rewrite (itemsOfCart_other (db w) (db w1) (cart_id cA)) by auto.
    rewrite HiB. simpl. now rewrite HpB, Hp1. }
  assert (HcB1 : cartOf (db w1) (user_id userB) = Some cB)
    by (unfold cartOf in *; now rewrite Hcarts).
  assert (Hrej : createOrder sv userB bodyB w1
                 = (Err (ValidationError
                           (insufficientStockMessage (add_stock (-1) p) (ci_quantity iB))), w1)).
  { unfold createOrder. rewrite HvB.
    erewrite bind_Ok; [|apply cart_findUnique_include_spec]. rewrite HcB1.
    apply (createOrderFromCart_rejected sv userB odB
             {| cv_cart := cB; cv_items := cart_items_with_product (db w1) (cart_id cB) |}
             w1 [] iB (add_stock (-1) p) []); [exact HviewB | constructor | simpl; lia]. }
  assert (Hturn : createOrder_in_turn sv userA userB bodyA bodyB w
                  = (Ok (json 201 (Some v)),
                     Err (ValidationError
                            (title p ++ " has only 0 items in stock, but you requested 1")%string),
                     w1)).
  { unfold createOrder_in_turn. rewrite Hrun, Hrej.
    unfold insufficientStockMessage. simpl. rewrite Hs, HqB. reflexivity. }
  split; [eauto|].
  unfold one_winner. rewrite Hturn. simpl. split; [reflexivity|]. split.
  - rewrite Hp1. simpl. rewrite Hs. reflexivity.
  - rewrite Hords. now apply map_size_insert_None.
Qed.

Lemma last_unit_in_turn_witness :
  (exists resp w',
     createOrder_in_turn (shop_services true) alice bob tt tt shop_last_unit
     = (Ok resp,
        Err (ValidationError "Lamp has only 0 items in stock, but you requested 1"),
        w'))
  /\ one_winner (createOrder_in_turn (shop_services true) alice bob tt tt) "pA" shop_last_unit.
Proof.
  apply (last_unit_in_turn (shop_services true) alice bob tt tt shop_last_unit
           {| od_shippingAddress := "1 Main Street"; od_paymentMethod := "card" |}
           {| od_shippingAddress := "1 Main Street"; od_paymentMethod := "card" |}
           {| cart_id := "c1"; cart_userId := "u1" |}
           {| cart_id := "c2"; cart_userId := "u2" |}
           {| ci_id := "i1"; ci_cartId := "c1"; ci_productId := "pA";
              ci_quantity := 1; ci_price := 10%float |}
           {| ci_id := "i2"; ci_cartId := "c2"; ci_productId := "pA";
              ci_quantity := 1; ci_price := 10%float |}
           "pA" {| title := "Lamp"; price := 10%float; stock := 1 |});
    first [ reflexivity | discriminate ].
Defined.

(** C8 as stated does not hold. When both requests have read their cart
    before either commits, both pass the stock check on the unit they read
    and both transactions commit: two calls succeed, two orders are created
    and the stock ends at -1. *)
Lemma last_unit_interleaved_two_winners :
  succeeded (createOrder_interleaved (shop_services true) alice bob tt tt shop_last_unit).1.1 = true
  /\ succeeded (createOrder_interleaved (shop_services true) alice bob tt tt shop_last_unit).1.2 = true
  /\ stock <$> products (db (createOrder_interleaved (shop_services true) alice bob tt tt
                               shop_last_unit).2) !! "pA" = Some (-1)
  /\ size (orders (db (createOrder_interleaved (shop_services true) alice bob tt tt
                         shop_last_unit).2)) = 2%nat
  /\ ~ one_winner (createOrder_interleaved (shop_services true) alice bob tt tt) "pA" shop_last_unit.
Proof.
  repeat split; try (vm_compute; reflexivity).
  intros [H _]. vm_compute in H. discriminate.
Qed.

(** ** Further properties of the cart controller *)

Lemma find_snoc {A} (f : A -> bool) l x :
  find f (l ++ [x])
  = match find f l with
    | Some y => Some y
    | None => if f x then Some x else None
    end.
Proof.
  induction l as [|y l IH]; simpl; [reflexivity|]. destruct (f y); [reflexivity | exact IH].
Qed.

Lemma find_None_intro {A} (f : A -> bool) l :
  (forall x, In x l -> f x = false) -> find f l = None.
Proof.
  induction l as [|y l IH]; intros H; simpl; [reflexivity|].
  rewrite (H y) by (now left). apply IH. intros x Hx. apply H. now right.
Qed.

Lemma auto_not_cartId d i : i ∈ cartItems d -> ci_cartId i <> auto d.
Proof.
  intros Hin E. apply (auto_fresh d). unfold used_ids.
  rewrite !elem_of_app. right; right; left.
  apply list_elem_of_In, in_flat_map. exists i. split; [now apply list_elem_of_In|].
  rewrite <- E. simpl. auto.
Qed.

Lemma auto_not_ci_id d i : i ∈ cartItems d -> ci_id i <> auto d.
Proof.
  intros Hin E. apply (auto_fresh d). unfold used_ids.
  rewrite !elem_of_app. right; right; left.
  apply list_elem_of_In, in_flat_map. exists i. split; [now apply list_elem_of_In|].
  rewrite <- E. simpl. auto.
Qed.

Lemma auto_not_cart_id d c : c ∈ carts d -> cart_id c <> auto d.
Proof.
  intros Hin E. apply (auto_fresh d). unfold used_ids.
  rewrite !elem_of_app. right; left.
  apply list_elem_of_In, in_flat_map. exists c. split; [now apply list_elem_of_In|].
  rewrite <- E. simpl. auto.
Qed.

Lemma lineOf_fresh_cart d pid : lineOf d (auto d) pid = None.
Proof.
  apply find_None_intro. intros i Hi.
  rewrite bool_decide_eq_false_2; [reflexivity|].
  apply auto_not_cartId. now apply list_elem_of_In.
Qed.

Lemma itemsOfCart_fresh d : itemsOfCart d (auto d) = [].
Proof.
  unfold itemsOfCart.
  destruct (filter (fun i => ci_cartId i = auto d) (cartItems d)) as [|i l] eqn:E;
    [reflexivity|].
  exfalso. assert (Hin : i ∈ filter (fun i => ci_cartId i = auto d) (cartItems d))
    by (rewrite E; left).
  apply list_elem_of_filter in Hin as [Hid Hin]. now apply (auto_not_cartId d i).
Qed.

Lemma cart_create_spec uid w :
  cart_create uid w
  = (Ok {| cart_id := auto (db w); cart_userId := uid |},
     {| db := with_carts (db w)
                (carts (db w) ++ [{| cart_id := auto (db w); cart_userId := uid |}]);
        logs := logs w |}).
Proof. reflexivity. Qed.

Lemma cartItem_create_spec cid pid q pr w :
  cartItem_create cid pid q pr w
  = (Ok tt, {| db := with_cartItems (db w)
                       (cartItems (db w) ++
                          [{| ci_id := auto (db w); ci_cartId := cid; ci_productId := pid;
                              ci_quantity := q; ci_price := pr |}]);
               logs := logs w |}).
Proof. reflexivity. Qed.

Lemma cart_findUnique_id_include_spec id w :
  cart_findUnique_id_include id w
  = (Ok (match find (fun c => bool_decide (cart_id c = id)) (carts (db w)) with
         | None => None
         | Some c => Some {| cv_cart := c; cv_items := cart_items_with_product (db w) (cart_id c) |}
         end), w).
Proof. reflexivity. Qed.

(** The four ways addToCart ends: rejected with nothing written; the line
    of the product updated; a line appended to the cart of the user; a cart
    created for the user and a line appended to it. *)
Lemma addToCart_cases (user : User) (body : CartItemBody) (w : World) :
  (exists e, addToCart user body w = (Err e, w) /\ raised_on_purpose e = true)
  \/ (exists p,
        products (db w) !! body_productId body = Some p
        /\ 0 < body_quantity body
        /\ body_quantity body <= stock p
        /\ ((exists c item resp,
               cartOf (db w) (user_id user) = Some c
               /\ lineOf (db w) (cart_id c) (body_productId body) = Some item
               /\ ci_quantity item + body_quantity body <= stock p
               /\ addToCart user body w
                  = (Ok resp,
                     {| db := with_cartItems (db w)
                                (map (fun i =>
                                        if bool_decide (ci_id i = ci_id item)
                                        then {| ci_id := ci_id i; ci_cartId := ci_cartId i;
                                                ci_productId := ci_productId i;
                                                ci_quantity := ci_quantity item + body_quantity body;
                                                ci_price := price p |}
                                        else i) (cartItems (db w)));
                        logs := logs w |})
               /\ statusCode resp = 200%nat)
            \/ (exists c resp,
                  cartOf (db w) (user_id user) = Some c
                  /\ lineOf (db w) (cart_id c) (body_productId body) = None
                  /\ addToCart user body w
                     = (Ok resp,
                        {| db := with_cartItems (db w)
                                   (cartItems (db w) ++
                                      [{| ci_id := auto (db w); ci_cartId := cart_id c;
                                          ci_productId := body_productId body;
                                          ci_quantity := body_quantity body;
                                          ci_price := price p |}]);
                           logs := logs w |})
                  /\ statusCode resp = 200%nat)
            \/ (exists resp,
                  cartOf (db w) (user_id user) = None
                  /\ addToCart user body w
                     = (Ok resp,
                        {| db := with_cartItems
                                   (with_carts (db w)
                                      (carts (db w) ++
                                         [{| cart_id := auto (db w);
                                             cart_userId := user_id user |}]))
                                   (cartItems (db w) ++
                                      [{| ci_id := auto (with_carts (db w)
                                                          (carts (db w) ++
                                                             [{| cart_id := auto (db w);
                                                                 cart_userId := user_id user |}]));
                                          ci_cartId := auto (db w);
                                          ci_productId := body_productId body;
                                          ci_quantity := body_quantity body;
                                          ci_price := price p |}]);
                           logs := logs w |})
                  /\ statusCode resp = 200%nat))).
Proof.
  unfold addToCart.
  destruct (validateCartItem body) as [m|b] eqn:Hval; [left; eexists; split; reflexivity|].
  apply validateCartItem_Ok in Hval as [-> Hpos].
  erewrite bind_Ok; [|apply product_findUnique_spec].
  destruct (products (db w) !! body_productId body) as [p|] eqn:Hp; [|left; eauto].
  case_bool_decide as Hq; [left; eexists; split; reflexivity|].
  erewrite bind_Ok; [|apply cart_findUnique_spec].
  destruct (cartOf (db w) (user_id user)) as [c|] eqn:Hcart.
  - erewrite bind_Ok; [|reflexivity].
    erewrite bind_Ok; [|apply cartItem_findFirst_product_spec].
    destruct (lineOf (db w) (cart_id c) (body_productId body)) as [item|] eqn:Hitem.
    + case_bool_decide as Hnq; [left; eexists; split; reflexivity|].
      right. exists p. split; [first [assumption | reflexivity]|]. split; [exact Hpos|]. split; [lia|].
      left. eexists c, item, _. split; [first [assumption | reflexivity]|]. split; [first [assumption | reflexivity]|]. split; [lia|].
      split.
      * erewrite bind_Ok; [|apply cartItem_update_found, (find_existsb_id _ _ _ Hitem)].
        erewrite bind_Ok; [|apply cart_findUnique_id_include_spec]. reflexivity.
      * reflexivity.
    + right. exists p. split; [first [assumption | reflexivity]|]. split; [exact Hpos|]. split; [lia|].
      right; left. eexists c, _. split; [first [assumption | reflexivity]|]. split; [first [assumption | reflexivity]|]. split.
      * erewrite bind_Ok; [|apply cartItem_create_spec].
        erewrite bind_Ok; [|apply cart_findUnique_id_include_spec]. reflexivity.
      * reflexivity.
  - right. exists p. split; [first [assumption | reflexivity]|]. split; [exact Hpos|]. split; [lia|].
    right; right. eexists. split; [first [assumption | reflexivity]|]. split.
    + erewrite bind_Ok; [|apply cart_create_spec].
      erewrite bind_Ok; [|apply cartItem_findFirst_product_spec].
      cbn [cart_id].
      replace (lineOf _ (auto (db w)) (body_productId body)) with (@None CartItem)
        by (symmetry; apply (lineOf_fresh_cart (db w))).
      erewrite bind_Ok; [|apply cartItem_create_spec].
      erewrite bind_Ok; [|apply cart_findUnique_id_include_spec]. reflexivity.
    + reflexivity.
Qed.

Lemma validateCartItem_valid body :
  body_productId body <> "" -> 0 < body_quantity body -> validateCartItem body = ParseOk body.
Proof.
  intros Hid Hq. unfold validateCartItem.
  rewrite bool_decide_eq_false_2 by done. rewrite bool_decide_eq_false_2 by lia. reflexivity.
Qed.

(** X1. A successful addToCart leaves the user with a cart whose line for
    the product holds the quantity the cart held before (0 without a cart or
    without a line) plus the quantity requested, at the current catalog
    price, and that quantity does not exceed the stock of the product. The
    catalog is not written. *)
Theorem add_to_cart_effect (user : User) (body : CartItemBody) (w w' : World) resp :
  addToCart user body w = (Ok resp, w') ->
  exists c p item,
    cartOf (db w') (user_id user) = Some c
    /\ products (db w) !! body_productId body = Some p
    /\ lineOf (db w') (cart_id c) (body_productId body) = Some item
    /\ ci_productId item = body_productId body
    /\ ci_quantity item
       = cartQuantity (db w) (user_id user) (body_productId body) + body_quantity body
    /\ ci_price item = price p
    /\ ci_quantity item <= stock p
    /\ products (db w') = products (db w)
    /\ statusCode resp = 200%nat.
Proof.
  intros Hrun.
  destruct (addToCart_cases user body w)
    as [(e & He & _)|(p & Hp & Hpos & Hq &
          [(c & item & r & Hc & Hl & Hnq & Hrun' & Hcode)
          |[(c & r & Hc & Hl & Hrun' & Hcode)|(r & Hc & Hrun' & Hcode)]])];
    [rewrite He in Hrun; discriminate| | |];
    rewrite Hrun' in Hrun; injection Hrun as <- <-; unfold cartQuantity; rewrite Hc.
  - rewrite Hl. pose proof (find_some _ _ Hl) as [_ Hmatch].
    apply andb_true_iff in Hmatch as [_ Hpid]. apply bool_decide_eq_true in Hpid.
    eexists c, p, _. split; [exact Hc|]. split; [exact Hp|]. split.
    { unfold lineOf. simpl.
      apply (find_update _ (fun i => {| ci_id := ci_id i; ci_cartId := ci_cartId i;
                                        ci_productId := ci_productId i;
                                        ci_quantity := ci_quantity item + body_quantity body;
                                        ci_price := price p |})); [reflexivity | exact Hl]. }
    simpl. repeat split; auto.
  - rewrite Hl.
    eexists c, p, _. split; [exact Hc|]. split; [exact Hp|]. split.
    { unfold lineOf in *. simpl. rewrite find_snoc, Hl. simpl.
      rewrite !bool_decide_eq_true_2 by done. reflexivity. }
    simpl. repeat split; auto.
  - eexists _, p, _. split.
    { unfold cartOf in *. simpl. rewrite find_snoc, Hc. simpl.
      rewrite bool_decide_eq_true_2 by done. reflexivity. }
    split; [exact Hp|]. split.
    { unfold lineOf. simpl. rewrite find_snoc.
      fold (lineOf (db w) (auto (db w)) (body_productId body)).
      rewrite lineOf_fresh_cart. simpl.
      rewrite !bool_decide_eq_true_2 by done. reflexivity. }
    simpl. repeat split; auto.
Qed.

Lemma add_to_cart_effect_witness :
  exists c p item,
    cartOf (db (addToCart alice {| body_productId := "pA"; body_quantity := 2 |} shop_catalog).2)
           "u1" = Some c
    /\ products (db shop_catalog) !! "pA" = Some p
    /\ lineOf (db (addToCart alice {| body_productId := "pA"; body_quantity := 2 |}
                     shop_catalog).2) (cart_id c) "pA" = Some item
    /\ ci_quantity item = 2
    /\ ci_price item = 10%float.
Proof.
  destruct (addToCart alice {| body_productId := "pA"; body_quantity := 2 |} shop_catalog)
    as [[resp|e] w'] eqn:E; [|vm_compute in E; discriminate].
  destruct (add_to_cart_effect alice {| body_productId := "pA"; body_quantity := 2 |}
              shop_catalog w' resp E)
    as (c & p & item & Hc & Hp & Hl & _ & Hq & Hpr & _).
  exists c, p, item. simpl. repeat split; auto.
  rewrite Hpr. vm_compute in Hp. now injection Hp as <-.
Defined.

(** X2. A rejected addToCart writes nothing, not even the cart it would
    have created, and its error is one the handler raises on purpose. A
    product that is not in the catalog gives NotFoundError; a quantity above
    the stock, or one that brings the line of the cart above the stock, gives
    a ValidationError that tells the stock. *)
Theorem add_to_cart_rejections (user : User) (body : CartItemBody) (w : World) :
  (forall e w', addToCart user body w = (Err e, w') ->
                w' = w /\ raised_on_purpose e = true)
  /\ (body_productId body <> "" -> 0 < body_quantity body ->
      products (db w) !! body_productId body = None ->
      addToCart user body w = (Err (NotFoundError "Product not found"), w))
  /\ (forall p,
        body_productId body <> "" -> 0 < body_quantity body ->
        products (db w) !! body_productId body = Some p ->
        body_quantity body > stock p ->
        addToCart user body w
        = (Err (ValidationError
                  ("Not enough stock. Only " ++ pretty (stock p) ++ " available.")%string), w))
  /\ (forall p c item,
        body_productId body <> "" -> 0 < body_quantity body ->
        products (db w) !! body_productId body = Some p ->
        body_quantity body <= stock p ->
        cartOf (db w) (user_id user) = Some c ->
        lineOf (db w) (cart_id c) (body_productId body) = Some item ->
        ci_quantity item + body_quantity body > stock p ->
        addToCart user body w
        = (Err (ValidationError
                  ("Cannot add more. Only " ++ pretty (stock p) ++ " available.")%string), w)).
Proof.
  split; [|split; [|split]].
  - intros e w' Hrun.
    destruct (addToCart_cases user body w)
      as [(e0 & He & Hkind)|(p & _ & _ & _ &
            [(c & item & r & _ & _ & _ & Hrun' & _)
            |[(c & r & _ & _ & Hrun' & _)|(r & _ & Hrun' & _)]])];
      rewrite Hrun in *; try discriminate.
    injection He as -> ->. auto.
  - intros Hid Hpos Hp. unfold addToCart. rewrite (validateCartItem_valid _ Hid Hpos).
    erewrite bind_Ok; [|apply product_findUnique_spec]. now rewrite Hp.
  - intros p Hid Hpos Hp Hq. unfold addToCart. rewrite (validateCartItem_valid _ Hid Hpos).
    erewrite bind_Ok; [|apply product_findUnique_spec]. rewrite Hp.
    now rewrite bool_decide_eq_true_2.
  - intros p c item Hid Hpos Hp Hq Hc Hl Hnq. unfold addToCart.
    rewrite (validateCartItem_valid _ Hid Hpos).
    erewrite bind_Ok; [|apply product_findUnique_spec]. rewrite Hp.
    rewrite bool_decide_eq_false_2 by lia.
    erewrite bind_Ok; [|apply cart_findUnique_spec]. rewrite Hc.
    erewrite bind_Ok; [|reflexivity].
    erewrite bind_Ok; [|apply cartItem_findFirst_product_spec]. rewrite Hl.
    now rewrite bool_decide_eq_true_2.
Qed.

Lemma add_to_cart_rejections_witness :
  addToCart alice {| body_productId := "pA"; body_quantity := 4 |} shop
  = (Err (ValidationError "Cannot add more. Only 5 available."), shop)
  /\ addToCart bob {| body_productId := "pA"; body_quantity := 6 |} shop
     = (Err (ValidationError "Not enough stock. Only 5 available."), shop)
  /\ addToCart bob {| body_productId := "pZ"; body_quantity := 1 |} shop
     = (Err (NotFoundError "Product not found"), shop).
Proof.
  split; [|split].
  - apply (proj2 (proj2 (proj2 (add_to_cart_rejections alice
              {| body_productId := "pA"; body_quantity := 4 |} shop)))
             {| title := "Lamp"; price := 10%float; stock := 5 |}
             {| cart_id := "c1"; cart_userId := "u1" |}
             {| ci_id := "i1"; ci_cartId := "c1"; ci_productId := "pA";
                ci_quantity := 2; ci_price := 10%float |});
      first [ reflexivity | discriminate | (simpl; lia) ].
  - apply (proj1 (proj2 (proj2 (add_to_cart_rejections bob
              {| body_productId := "pA"; body_quantity := 6 |} shop)))
             {| title := "Lamp"; price := 10%float; stock := 5 |});
      first [ reflexivity | discriminate | (simpl; lia) ].
  - apply (proj1 (proj2 (add_to_cart_rejections bob
              {| body_productId := "pZ"; body_quantity := 1 |} shop)));
      first [ reflexivity | discriminate | (simpl; lia) ].
Defined.

Lemma cartItem_findFirst_id_spec id cid w :
  cartItem_findFirst_id id cid w = (Ok (lineById (db w) id cid), w).
Proof. reflexivity. Qed.

Lemma lineById_id d id cid item : lineById d id cid = Some item -> ci_id item = id.
Proof.
  intros H. apply find_some in H as [_ H]. apply andb_true_iff in H as [H _].
  now apply bool_decide_eq_true in H.
Qed.

Lemma lineById_cart d id cid item : lineById d id cid = Some item -> ci_cartId item = cid.
Proof.
  intros H. apply find_some in H as [_ H]. apply andb_true_iff in H as [_ H].
  now apply bool_decide_eq_true in H.
Qed.

(** X3. updateCartItem sets the quantity of a line of the user's own cart
    to the quantity given when that is at least 1 and at most the stock of
    the product; the price noted in the line stays as it was. A line that is
    not in the cart of the user (one of another user's cart, say) is reported
    as not found, a quantity below 1 or above the stock is rejected, and a
    failed call writes nothing. *)
Theorem update_cart_item_sets_quantity (user : User) (id : ObjectId) (w : World) :
  (forall q c item p,
     cartOf (db w) (user_id user) = Some c ->
     lineById (db w) id (cart_id c) = Some item ->
     products (db w) !! ci_productId item = Some p ->
     1 <= q -> q <= stock p ->
     exists resp w',
       updateCartItem user id (Some q) w = (Ok resp, w')
       /\ statusCode resp = 200%nat
       /\ lineById (db w') id (cart_id c)
          = Some {| ci_id := ci_id item; ci_cartId := ci_cartId item;
                    ci_productId := ci_productId item;
                    ci_quantity := q; ci_price := ci_price item |}
       /\ length (cartItems (db w')) = length (cartItems (db w))
       /\ products (db w') = products (db w))
  /\ (forall q c,
        1 <= q ->
        cartOf (db w) (user_id user) = Some c ->
        lineById (db w) id (cart_id c) = None ->
        updateCartItem user id (Some q) w = (Err (NotFoundError "Item not found in cart"), w))
  /\ (forall q c item p,
        1 <= q ->
        cartOf (db w) (user_id user) = Some c ->
        lineById (db w) id (cart_id c) = Some item ->
        products (db w) !! ci_productId item = Some p ->
        q > stock p ->
        updateCartItem user id (Some q) w
        = (Err (ValidationError
                  ("Not enough stock. Only " ++ pretty (stock p) ++ " available.")%string), w))
  /\ (forall q, q < 1 -> exists e, updateCartItem user id (Some q) w = (Err e, w))
  /\ (forall quantity e w', updateCartItem user id quantity w = (Err e, w') -> w' = w).
Proof.
  split; [|split; [|split; [|split]]].
  - intros q c item p Hc Hl Hp Hq1 Hq2. eexists _, _. split.
    { unfold updateCartItem.
      rewrite bool_decide_eq_false_2 by lia. rewrite bool_decide_eq_false_2 by lia.
      erewrite bind_Ok; [|apply cart_findUnique_spec]. rewrite Hc.
      erewrite bind_Ok; [|apply cartItem_findFirst_id_spec]. rewrite Hl.
      erewrite bind_Ok; [|apply product_findUnique_spec]. rewrite Hp.
      rewrite bool_decide_eq_false_2 by lia.
      erewrite bind_Ok.
      2:{ apply cartItem_update_found. rewrite <- (lineById_id _ _ _ _ Hl).
          exact (find_existsb_id _ _ _ Hl). }
      erewrite bind_Ok; [|apply cart_findUnique_id_include_spec]. reflexivity. }
    simpl. split; [reflexivity|]. split; [|split; [apply length_map | reflexivity]].
    unfold lineById in *. simpl.
    pose proof (lineById_id _ _ _ _ Hl) as Hid. subst id.
    apply (find_update _ (fun i => {| ci_id := ci_id i; ci_cartId := ci_cartId i;
                                      ci_productId := ci_productId i;
                                      ci_quantity := q; ci_price := ci_price i |}));
      [reflexivity | exact Hl].
  - intros q c Hq Hc Hl. unfold updateCartItem.
    rewrite bool_decide_eq_false_2 by lia. rewrite bool_decide_eq_false_2 by lia.
    erewrite bind_Ok; [|apply cart_findUnique_spec]. rewrite Hc.
    erewrite bind_Ok; [|apply cartItem_findFirst_id_spec]. now rewrite Hl.
  - intros q c item p Hq Hc Hl Hp Hq2. unfold updateCartItem.
    rewrite bool_decide_eq_false_2 by lia. rewrite bool_decide_eq_false_2 by lia.
    erewrite bind_Ok; [|apply cart_findUnique_spec]. rewrite Hc.
    erewrite bind_Ok; [|apply cartItem_findFirst_id_spec]. rewrite Hl.
    erewrite bind_Ok; [|apply product_findUnique_spec]. rewrite Hp.
    now rewrite bool_decide_eq_true_2.
  - intros q Hq. unfold updateCartItem. case_bool_decide; [eauto|].
    rewrite bool_decide_eq_true_2 by lia. eauto.
  - intros quantity e w'. unfold updateCartItem.
    destruct quantity as [q|]; [|intros [= _ <-]; reflexivity].
    case_bool_decide; [intros [= _ <-]; reflexivity|].
    case_bool_decide; [intros [= _ <-]; reflexivity|].
    erewrite bind_Ok; [|apply cart_findUnique_spec].
    destruct (cartOf (db w) (user_id user)) as [c|]; [|intros [= _ <-]; reflexivity].
    erewrite bind_Ok; [|apply cartItem_findFirst_id_spec].
    destruct (lineById (db w) id (cart_id c)) as [item|] eqn:Hl;
      [|intros [= _ <-]; reflexivity].
    erewrite bind_Ok; [|apply product_findUnique_spec].
    destruct (products (db w) !! ci_productId item) as [p|]; [|intros [= _ <-]; reflexivity].
    case_bool_decide; [intros [= _ <-]; reflexivity|].
    erewrite bind_Ok.
    2:{ apply cartItem_update_found. rewrite <- (lineById_id _ _ _ _ Hl).
        exact (find_existsb_id _ _ _ Hl). }
    erewrite bind_Ok; [|apply cart_findUnique_id_include_spec]. discriminate.
Qed.

Lemma update_cart_item_sets_quantity_witness :
  (exists resp w',
     updateCartItem alice "i1" (Some 4) shop_repriced = (Ok resp, w')
     /\ lineById (db w') "i1" "c1"
        = Some {| ci_id := "i1"; ci_cartId := "c1"; ci_productId := "pA";
                  ci_quantity := 4; ci_price := 10%float |})
  /\ updateCartItem alice "i3" (Some 1) shop_two_carts
     = (Err (NotFoundError "Item not found in cart"), shop_two_carts)
  /\ updateCartItem alice "i1" (Some 6) shop
     = (Err (ValidationError "Not enough stock. Only 5 available."), shop).
Proof.
  split; [|split].
  - destruct (proj1 (update_cart_item_sets_quantity alice "i1" shop_repriced) 4
                {| cart_id := "c1"; cart_userId := "u1" |}
                {| ci_id := "i1"; ci_cartId := "c1"; ci_productId := "pA";
                   ci_quantity := 2; ci_price := 10%float |}
                {| title := "Lamp"; price := 12%float; stock := 5 |})
      as (resp & w' & Hrun & _ & Hl & _);
      [reflexivity | reflexivity | reflexivity | lia | simpl; lia |].
    exists resp, w'. split; [exact Hrun | exact Hl].
  - apply (proj1 (proj2 (update_cart_item_sets_quantity alice "i3" shop_two_carts)) 1
             {| cart_id := "c1"; cart_userId := "u1" |}); first [ reflexivity | lia ].
  - apply (proj1 (proj2 (proj2 (update_cart_item_sets_quantity alice "i1" shop))) 6
             {| cart_id := "c1"; cart_userId := "u1" |}
             {| ci_id := "i1"; ci_cartId := "c1"; ci_productId := "pA";
                ci_quantity := 2; ci_price := 10%float |}
             {| title := "Lamp"; price := 10%float; stock := 5 |});
      first [ reflexivity | lia | (simpl; lia) ].
Defined.

Lemma cartItem_delete_found id w :
  existsb (fun i => bool_decide (ci_id i = id)) (cartItems (db w)) = true ->
  cartItem_delete id w
  = (Ok tt, {| db := with_cartItems (db w) (filter (fun i => ci_id i <> id) (cartItems (db w)));
               logs := logs w |}).
Proof.
  intros H. unfold cartItem_delete, bind, getDB, putDB. simpl. now rewrite H.
Qed.

(** X4. removeFromCart deletes a line of the user's own cart: afterwards no
    line has that id and every line with another id is still there. A line
    that is not in the cart of the user is reported as not found, a user
    without a cart gets [Cart not found], and in both cases nothing is
    written. *)
Theorem remove_from_cart_own_line (user : User) (id : ObjectId) (w : World) :
  (forall c item,
     cartOf (db w) (user_id user) = Some c ->
     lineById (db w) id (cart_id c) = Some item ->
     exists resp w',
       removeFromCart user id w = (Ok resp, w')
       /\ statusCode resp = 200%nat
       /\ cartItems (db w') = filter (fun i => ci_id i <> id) (cartItems (db w))
       /\ (forall cid, lineById (db w') id cid = None)
       /\ carts (db w') = carts (db w)
       /\ products (db w') = products (db w))
  /\ (forall c,
        cartOf (db w) (user_id user) = Some c ->
        lineById (db w) id (cart_id c) = None ->
        removeFromCart user id w = (Err (NotFoundError "Item not found in cart"), w))
  /\ (cartOf (db w) (user_id user) = None ->
      removeFromCart user id w = (Err (NotFoundError "Cart not found"), w)).
Proof.
  split; [|split].
  - intros c item Hc Hl. eexists _, _. split.
    { unfold removeFromCart.
      erewrite bind_Ok; [|apply cart_findUnique_spec]. rewrite Hc.
      erewrite bind_Ok; [|apply cartItem_findFirst_id_spec]. rewrite Hl.
      erewrite bind_Ok.
      2:{ apply cartItem_delete_found. rewrite <- (lineById_id _ _ _ _ Hl).
          exact (find_existsb_id _ _ _ Hl). }
      erewrite bind_Ok; [|apply cart_findUnique_id_include_spec]. reflexivity. }
    simpl. repeat split; auto.
    intros cid. apply find_None_intro. intros i Hi.
    apply list_elem_of_In, list_elem_of_filter in Hi as [Hne _].
    now rewrite bool_decide_eq_false_2.
  - intros c Hc Hl. unfold removeFromCart.
    erewrite bind_Ok; [|apply cart_findUnique_spec]. rewrite Hc.
    erewrite bind_Ok; [|apply cartItem_findFirst_id_spec]. now rewrite Hl.
  - intros Hc. unfold removeFromCart.
    erewrite bind_Ok; [|apply cart_findUnique_spec]. now rewrite Hc.
Qed.

Lemma remove_from_cart_own_line_witness :
  (exists resp w',
     removeFromCart alice "i1" shop_two_carts = (Ok resp, w')
     /\ map ci_id (cartItems (db w')) = ["i2"; "i3"])
  /\ removeFromCart alice "i3" shop_two_carts
     = (Err (NotFoundError "Item not found in cart"), shop_two_carts)
  /\ removeFromCart bob "i1" shop
     = (Err (NotFoundError "Cart not found"), shop).
Proof.
  split; [|split].
  - destruct (proj1 (remove_from_cart_own_line alice "i1" shop_two_carts)
                {| cart_id := "c1"; cart_userId := "u1" |}
                {| ci_id := "i1"; ci_cartId := "c1"; ci_productId := "pA";
                   ci_quantity := 2; ci_price := 10%float |} eq_refl eq_refl)
      as (resp & w' & Hrun & _ & Hcis & _).
    exists resp, w'. split; [exact Hrun|]. rewrite Hcis. vm_compute. reflexivity.
  - apply (proj1 (proj2 (remove_from_cart_own_line alice "i3" shop_two_carts))
             {| cart_id := "c1"; cart_userId := "u1" |}); reflexivity.
  - apply (proj2 (proj2 (remove_from_cart_own_line bob "i1" shop))). reflexivity.
Defined.

(** X5. clearCart removes every line of the cart of the user and nothing
    else: the cart itself stays, the lines of every other cart stay, the
    catalog is not written. A user without a cart gets [Cart not found];
    clearCart does not create one. *)
Theorem clear_cart_only_own_lines (user : User) (w : World) :
  (forall c,
     cartOf (db w) (user_id user) = Some c ->
     exists resp w',
       clearCart user w = (Ok resp, w')
       /\ statusCode resp = 200%nat
       /\ itemsOfCart (db w') (cart_id c) = []
       /\ (forall cid, cid <> cart_id c -> itemsOfCart (db w') cid = itemsOfCart (db w) cid)
       /\ carts (db w') = carts (db w)
       /\ products (db w') = products (db w))
  /\ (cartOf (db w) (user_id user) = None ->
      clearCart user w = (Err (NotFoundError "Cart not found"), w)).
Proof.
  split.
  - intros c Hc. eexists _, _. split.
    { unfold clearCart.
      erewrite bind_Ok; [|apply cart_findUnique_spec]. rewrite Hc.
      erewrite bind_Ok; [|apply cartItem_deleteMany_spec].
      erewrite bind_Ok; [|apply cart_findUnique_id_include_spec]. reflexivity. }
    simpl. split; [reflexivity|]. split; [|split; [|split; reflexivity]].
    + now apply (itemsOfCart_deleted (db w)).
    + intros cid Hne. now apply (itemsOfCart_other (db w) _ (cart_id c)).
  - intros Hc. unfold clearCart.
    erewrite bind_Ok; [|apply cart_findUnique_spec]. now rewrite Hc.
Qed.

Lemma clear_cart_only_own_lines_witness :
  (exists resp w',
     clearCart alice shop_two_carts = (Ok resp, w')
     /\ itemsOfCart (db w') "c1" = []
     /\ map ci_id (itemsOfCart (db w') "c2") = ["i3"])
  /\ clearCart bob shop = (Err (NotFoundError "Cart not found"), shop).
Proof.
  split.
  - destruct (proj1 (clear_cart_only_own_lines alice shop_two_carts)
                {| cart_id := "c1"; cart_userId := "u1" |} eq_refl)
      as (resp & w' & Hrun & _ & Hown & Hother & _).
    exists resp, w'. split; [exact Hrun|]. split; [exact Hown|].
    rewrite (Hother "c2") by discriminate. vm_compute. reflexivity.
  - apply (proj2 (clear_cart_only_own_lines bob shop)). reflexivity.
Defined.

(** X6. getCart always answers 200 with a cart of the user. When the user
    had none it creates one, which holds no line; when the user had one the
    world is left as it was. Asking again returns the same cart and writes
    nothing: a user does not get a second cart. Cart lines and catalog are
    never written. *)
Theorem get_cart_creates_once (user : User) (w : World) :
  exists v w1,
    getCart user w = (Ok (json 200 (Some v)), w1)
    /\ cart_userId (cv_cart v) = user_id user
    /\ cartOf (db w1) (user_id user) = Some (cv_cart v)
    /\ cv_items v = cart_items_with_product (db w1) (cart_id (cv_cart v))
    /\ match cartOf (db w) (user_id user) with
       | Some c => cv_cart v = c /\ w1 = w
       | None => cv_items v = [] /\ carts (db w1) = carts (db w) ++ [cv_cart v]
       end
    /\ cartItems (db w1) = cartItems (db w)
    /\ products (db w1) = products (db w)
    /\ getCart user w1 = (Ok (json 200 (Some v)), w1).
Proof.
  unfold getCart at 1.
  erewrite bind_Ok; [|apply cart_findUnique_include_spec].
  destruct (cartOf (db w) (user_id user)) as [c|] eqn:Hc.
  - eexists _, w. split; [reflexivity|]. simpl.
    pose proof (find_some _ _ Hc) as [_ Hu]. apply bool_decide_eq_true in Hu.
    repeat split; auto.
    unfold getCart. erewrite bind_Ok; [|apply cart_findUnique_include_spec].
    now rewrite Hc.
  - erewrite bind_Ok; [|apply cart_create_spec].
    eexists _, _. split; [reflexivity|]. simpl.
    assert (Hc1 : cartOf
                    (with_carts (db w)
                       (carts (db w) ++ [{| cart_id := auto (db w); cart_userId := user_id user |}]))
                    (user_id user)
                  = Some {| cart_id := auto (db w); cart_userId := user_id user |}).
    { unfold cartOf in *. simpl. rewrite find_snoc, Hc. simpl.
      now rewrite bool_decide_eq_true_2. }
    split; [reflexivity|]. split; [exact Hc1|]. split; [reflexivity|]. split.
    { split; [|reflexivity]. unfold cart_items_with_product.
      replace (itemsOfCart _ (auto (db w))) with (itemsOfCart (db w) (auto (db w)))
        by reflexivity.
      now rewrite itemsOfCart_fresh. }
    split; [reflexivity|]. split; [reflexivity|].
    unfold getCart. erewrite bind_Ok; [|apply cart_findUnique_include_spec].
    cbn [db]. now rewrite Hc1.
Qed.

(** ** Keys stay unique *)

Lemma keys_ok_carts_snoc d uid :
  cartOf d uid = None ->
  keys_ok d ->
  keys_ok (with_carts d (carts d ++ [{| cart_id := auto d; cart_userId := uid |}])).
Proof.
  intros Hnone (Hc & Hu & Hi). repeat split; auto; simpl; rewrite map_app; simpl.
  - apply NoDup_app. split; [exact Hc|]. split; [|apply NoDup_singleton].
    intros x Hx Hx'. apply list_elem_of_singleton in Hx'. subst x.
    apply list_elem_of_In, in_map_iff in Hx as (c & Hid & Hin).
    apply (auto_not_cart_id d c); [now apply list_elem_of_In | exact Hid].
  - apply NoDup_app. split; [exact Hu|]. split; [|apply NoDup_singleton].
    intros x Hx Hx'. apply list_elem_of_singleton in Hx'. subst x.
    apply list_elem_of_In, in_map_iff in Hx as (c & Hid & Hin).
    apply (find_none _ _ Hnone) in Hin. rewrite bool_decide_eq_true_2 in Hin by done.
    discriminate.
Qed.

Lemma keys_ok_update_items d (f : CartItem -> CartItem) :
  (forall i, ci_id (f i) = ci_id i) ->
  keys_ok d -> keys_ok (with_cartItems d (map f (cartItems d))).
Proof.
  intros Hf (Hc & Hu & Hi). repeat split; auto; simpl.
  rewrite map_map. erewrite map_ext; [exact Hi|]. intros i. simpl. apply Hf.
Qed.

Lemma keys_ok_filter_items d (P : CartItem -> Prop) `{!forall i, Decision (P i)} :
  keys_ok d -> keys_ok (with_cartItems d (filter P (cartItems d))).
Proof.
  intros (Hc & Hu & Hi). repeat split; auto; simpl.
  eapply sublist_NoDup; [exact Hi|].
  change (ci_id <$> filter P (cartItems d) `sublist_of` ci_id <$> cartItems d).
  apply fmap_sublist, sublist_filter.
Qed.

Lemma keys_ok_add_item d d0 (new : CartItem) :
  cartItems d0 = cartItems d ->
  ci_id new = auto d0 ->
  keys_ok d -> keys_ok (with_cartItems d (cartItems d ++ [new])).
Proof.
  intros Hsame Hid (Hc & Hu & Hi). repeat split; auto; simpl.
  rewrite map_app. simpl. apply NoDup_app. split; [exact Hi|].
  split; [|apply NoDup_singleton].
  intros x Hx Hx'. apply list_elem_of_singleton in Hx'. subst x.
  apply list_elem_of_In, in_map_iff in Hx as (i & Hid' & Hin).
  apply (auto_not_ci_id d0 i); [rewrite Hsame; now apply list_elem_of_In | congruence].
Qed.

Lemma keys_ok_same d d' :
  carts d' = carts d -> cartItems d' = cartItems d -> keys_ok d -> keys_ok d'.
Proof. intros Hc Hi. unfold keys_ok. now rewrite Hc, Hi. Qed.

Lemma getCart_keys_ok (user : User) w : keys_ok (db w) -> keys_ok (db (getCart user w).2).
Proof.
  intros Hok. unfold getCart.
  erewrite bind_Ok; [|apply cart_findUnique_include_spec].
  destruct (cartOf (db w) (user_id user)) as [c|] eqn:Hc; [exact Hok|].
  erewrite bind_Ok; [|apply cart_create_spec]. simpl. now apply keys_ok_carts_snoc.
Qed.

Lemma addToCart_keys_ok (user : User) body w :
  keys_ok (db w) -> keys_ok (db (addToCart user body w).2).
Proof.
  intros Hok.
  destruct (addToCart_cases user body w)
    as [(e & He & _)|(p & Hp & Hpos & Hq &
          [(c & item & r & Hc & Hl & Hnq & Hrun & _)
          |[(c & r & Hc & Hl & Hrun & _)|(r & Hc & Hrun & _)]])].
  - now rewrite He.
  - rewrite Hrun. simpl.
    apply (keys_ok_update_items (db w)); [|exact Hok].
    intros i. now destruct (bool_decide _).
  - rewrite Hrun. simpl. now apply (keys_ok_add_item (db w) (db w)).
  - rewrite Hrun. simpl.
    set (d1 := with_carts (db w)
                 (carts (db w) ++ [{| cart_id := auto (db w); cart_userId := user_id user |}])).
    apply (keys_ok_add_item d1 d1); [reflexivity | reflexivity |].
    now apply keys_ok_carts_snoc.
Qed.

(** The ways updateCartItem and removeFromCart end. *)
Lemma updateCartItem_cases (user : User) id quantity w :
  (exists e, updateCartItem user id quantity w = (Err e, w))
  \/ (exists q c item p resp,
        quantity = Some q /\ 1 <= q
        /\ cartOf (db w) (user_id user) = Some c
        /\ lineById (db w) id (cart_id c) = Some item
        /\ products (db w) !! ci_productId item = Some p
        /\ q <= stock p
        /\ updateCartItem user id quantity w
           = (Ok resp,
              {| db := with_cartItems (db w)
                         (map (fun i => if bool_decide (ci_id i = id)
                                        then {| ci_id := ci_id i; ci_cartId := ci_cartId i;
                                                ci_productId := ci_productId i;
                                                ci_quantity := q; ci_price := ci_price i |}
                                        else i) (cartItems (db w)));
                 logs := logs w |})).
Proof.
  unfold updateCartItem.
  destruct quantity as [q|]; [|left; eauto].
  case_bool_decide as H0; [left; eauto|].
  case_bool_decide as H1; [left; eauto|].
  erewrite bind_Ok; [|apply cart_findUnique_spec].
  destruct (cartOf (db w) (user_id user)) as [c|] eqn:Hc; [|left; eauto].
  erewrite bind_Ok; [|apply cartItem_findFirst_id_spec].
  destruct (lineById (db w) id (cart_id c)) as [item|] eqn:Hl; [|left; eauto].
  erewrite bind_Ok; [|apply product_findUnique_spec].
  destruct (products (db w) !! ci_productId item) as [p|] eqn:Hp; [|left; eauto].
  case_bool_decide as Hq; [left; eauto|].
  right. eexists q, c, item, p, _.
  split; [reflexivity|]. split; [lia|]. split; [reflexivity|]. split; [exact Hl|].
  split; [exact Hp|]. split; [lia|].
  erewrite bind_Ok.
  2:{ apply cartItem_update_found. rewrite <- (lineById_id _ _ _ _ Hl).
      exact (find_existsb_id _ _ _ Hl). }
  erewrite bind_Ok; [|apply cart_findUnique_id_include_spec]. reflexivity.
Qed.

Lemma removeFromCart_cases (user : User) id w :
  (exists e, removeFromCart user id w = (Err e, w) /\ raised_on_purpose e = true)
  \/ (exists c item resp,
        cartOf (db w) (user_id user) = Some c
        /\ lineById (db w) id (cart_id c) = Some item
        /\ removeFromCart user id w
           = (Ok resp,
              {| db := with_cartItems (db w) (filter (fun i => ci_id i <> id) (cartItems (db w)));
                 logs := logs w |})).
Proof.
  unfold removeFromCart.
  erewrite bind_Ok; [|apply cart_findUnique_spec].
  destruct (cartOf (db w) (user_id user)) as [c|] eqn:Hc; [|left; eexists; split; reflexivity].
  erewrite bind_Ok; [|apply cartItem_findFirst_id_spec].
  destruct (lineById (db w) id (cart_id c)) as [item|] eqn:Hl;
    [|left; eexists; split; reflexivity].
  right. eexists c, item, _. split; [reflexivity|]. split; [exact Hl|].
  erewrite bind_Ok.
  2:{ apply cartItem_delete_found. rewrite <- (lineById_id _ _ _ _ Hl).
      exact (find_existsb_id _ _ _ Hl). }
  erewrite bind_Ok; [|apply cart_findUnique_id_include_spec]. reflexivity.
Qed.

Lemma clearCart_cases (user : User) w :
  (exists e, clearCart user w = (Err e, w) /\ raised_on_purpose e = true)
  \/ (exists c resp,
        cartOf (db w) (user_id user) = Some c
        /\ clearCart user w
           = (Ok resp,
              {| db := with_cartItems (db w)
                         (filter (fun i => ci_cartId i <> cart_id c) (cartItems (db w)));
                 logs := logs w |})).
Proof.
  unfold clearCart.
  erewrite bind_Ok; [|apply cart_findUnique_spec].
  destruct (cartOf (db w) (user_id user)) as [c|] eqn:Hc; [|left; eexists; split; reflexivity].
  right. eexists c, _. split; [reflexivity|].
  erewrite bind_Ok; [|apply cartItem_deleteMany_spec].
  erewrite bind_Ok; [|apply cart_findUnique_id_include_spec]. reflexivity.
Qed.

Lemma handle_keys_ok {Body} (sv : Services Body) (r : Request) w :
  keys_ok (db w) -> keys_ok (db (handle sv r w)).
Proof.
  intros Hok. destruct r; simpl.
  - now apply getCart_keys_ok.
  - now apply addToCart_keys_ok.
  - destruct (updateCartItem_cases user id quantity w)
      as [[e He]|(q & c & item & p & resp & _ & _ & _ & _ & _ & _ & Hrun)];
      [now rewrite He|].
    rewrite Hrun. simpl. apply (keys_ok_update_items (db w)); [|exact Hok].
    intros i. now destruct (bool_decide _).
  - destruct (removeFromCart_cases user id w) as [(e & He & _)|(c & item & resp & _ & _ & Hrun)];
      [now rewrite He|].
    rewrite Hrun. simpl. now apply (keys_ok_filter_items (db w)).
  - destruct (clearCart_cases user w) as [(e & He & _)|(c & resp & _ & Hrun)];
      [now rewrite He|].
    rewrite Hrun. simpl. now apply (keys_ok_filter_items (db w)).
  - destruct (createOrder_cases sv user body w) as [[e He]|(od & c & Hval & Hcart & Hne & Hstock)];
      [now rewrite He|].
    destruct (createOrder_ok sv user body w od c Hval Hcart Hne Hstock)
      as (w' & v & msg & Hrun & _ & _ & Hp).
    rewrite Hrun. simpl. destruct Hp as (_ & _ & _ & _ & _ & Hcis & Hcarts).
    apply (keys_ok_same (with_cartItems (db w)
                           (filter (fun i => ci_cartId i <> cart_id c) (cartItems (db w)))));
      [exact Hcarts | exact Hcis | now apply (keys_ok_filter_items (db w))].
  - destruct (cancelOrder_cases sv user id w) as [E|(o & Ho & Hu & Hst & Hprods)];
      [now rewrite E|].
    destruct (cancelOrder_ok sv user id w o Ho Hu Hst Hprods)
      as (w' & Hrun & _ & _ & _ & Hcarts & Hcis).
    rewrite Hrun. simpl. now apply (keys_ok_same (db w)).
  - destruct (updateOrderStatus_db id st w) as [E|(o & s & _ & E)]; rewrite E; [exact Hok|].
    now apply (keys_ok_same (db w)).
Qed.

(** X7. The keys the schema declares unique stay unique: starting from a
    store in which cart ids, cart-line ids and the user of a cart are
    unique, they still are after any sequence of requests. In particular no
    request ever gives a user a second cart. *)
Theorem keys_stay_unique {Body} (sv : Services Body) (rs : list Request) (w : World) :
  keys_ok (db w) -> keys_ok (db (run sv rs w)).
Proof.
  revert w. induction rs as [|r rs IH]; intros w Hok; [exact Hok|].
  simpl. apply IH. now apply handle_keys_ok.
Qed.

Lemma shop_catalog_keys_ok : keys_ok (db shop_catalog).
Proof. repeat split; constructor. Qed.

Lemma keys_stay_unique_witness :
  keys_ok (db (run (shop_services true)
                 [GetCart alice; GetCart alice;
                  AddToCart alice {| body_productId := "pA"; body_quantity := 1 |};
                  AddToCart bob {| body_productId := "pA"; body_quantity := 1 |};
                  CreateOrder alice tt] shop_catalog)).
Proof. apply keys_stay_unique. exact shop_catalog_keys_ok. Defined.

(** ** A request of one user leaves the carts of the others alone *)

Lemma NoDup_map_inj_on {A B} (f : A -> B) l x y :
  NoDup (map f l) -> x ∈ l -> y ∈ l -> f x = f y -> x = y.
Proof.
  induction l as [|a l IH]; simpl; intros Hnd Hx Hy Hf; [now apply elem_of_nil in Hx|].
  apply NoDup_cons in Hnd as [Hnot Hnd].
  apply elem_of_cons in Hx as [->|Hx]; apply elem_of_cons in Hy as [->|Hy]; auto.
  - exfalso. apply Hnot. rewrite Hf. apply list_elem_of_In, in_map. now apply list_elem_of_In.
  - exfalso. apply Hnot. rewrite <- Hf. apply list_elem_of_In, in_map. now apply list_elem_of_In.
Qed.

Lemma cartOf_elem d uid c : cartOf d uid = Some c -> c ∈ carts d /\ cart_userId c = uid.
Proof.
  intros H. apply find_some in H as [Hin Hu]. apply bool_decide_eq_true in Hu.
  split; [now apply list_elem_of_In | exact Hu].
Qed.

Lemma other_cart_id d c c' :
  keys_ok d -> c ∈ carts d -> c' ∈ carts d ->
  cart_userId c' <> cart_userId c -> cart_id c' <> cart_id c.
Proof.
  intros (Hc & _ & _) Hin Hin' Hne E.
  apply Hne. f_equal. now apply (NoDup_map_inj_on cart_id (carts d)).
Qed.

Lemma filter_map_same {A} (P : A -> Prop) `{!forall x, Decision (P x)} (g : A -> A) l :
  (forall i, i ∈ l -> (P (g i) <-> P i) /\ (P i -> g i = i)) ->
  filter P (map g l) = filter P l.
Proof.
  induction l as [|a l IH]; intros Hall; [reflexivity|]. simpl map.
  destruct (Hall a) as [Hiff Hid]; [left|].
  assert (IH' : filter P (map g l) = filter P l) by (apply IH; intros i Hi; apply Hall; now right).
  destruct (decide (P a)) as [Ha|Ha].
  - rewrite (filter_cons_True P a l) by done.
    rewrite filter_cons_True by (now apply Hiff). now rewrite Hid, IH'.
  - rewrite (filter_cons_False P a l) by done.
    rewrite filter_cons_False by (now rewrite Hiff). exact IH'.
Qed.

Lemma filter_filter_implied {A} (P Q : A -> Prop)
    `{!forall x, Decision (P x)} `{!forall x, Decision (Q x)} (l : list A) :
  (forall i, i ∈ l -> P i -> Q i) ->
  filter P (filter Q l) = filter P l.
Proof.
  induction l as [|a l IH]; intros Hall; [reflexivity|].
  assert (IH' : filter P (filter Q l) = filter P l) by (apply IH; intros i Hi; apply Hall; now right).
  destruct (decide (Q a)) as [Hq|Hq].
  - rewrite (filter_cons_True Q a l) by done.
    destruct (decide (P a)) as [Hp|Hp].
    + rewrite !filter_cons_True by done. now rewrite IH'.
    + rewrite !filter_cons_False by done. exact IH'.
  - rewrite (filter_cons_False Q a l) by done.
    rewrite (filter_cons_False P a l); [exact IH'|].
    intros Hp. apply Hq. apply Hall; [left | exact Hp].
Qed.

(** Updating by id a line of another cart does not show in cart [cid]. *)
Lemma itemsOfCart_update_other d (f : CartItem -> CartItem) item cid :
  keys_ok d ->
  item ∈ cartItems d ->
  ci_cartId item <> cid ->
  (forall i, ci_cartId (f i) = ci_cartId i) ->
  filter (fun i => ci_cartId i = cid)
         (map (fun i => if bool_decide (ci_id i = ci_id item) then f i else i) (cartItems d))
  = itemsOfCart d cid.
Proof.
  intros (_ & _ & Hids) Hin Hne Hf. apply filter_map_same. intros i Hi. split.
  - case_bool_decide; [now rewrite Hf | reflexivity].
  - intros Hcid. case_bool_decide as E; [|reflexivity].
    exfalso. apply Hne. rewrite <- Hcid. f_equal. symmetry.
    now apply (NoDup_map_inj_on ci_id (cartItems d)).
Qed.

(** Deleting by id a line of another cart does not show in cart [cid]. *)
Lemma itemsOfCart_delete_other d item cid :
  keys_ok d ->
  item ∈ cartItems d ->
  ci_cartId item <> cid ->
  filter (fun i => ci_cartId i = cid) (filter (fun i => ci_id i <> ci_id item) (cartItems d))
  = itemsOfCart d cid.
Proof.
  intros (_ & _ & Hids) Hin Hne. apply filter_filter_implied. intros i Hi Hcid E.
  apply Hne. rewrite <- Hcid. f_equal. symmetry.
  now apply (NoDup_map_inj_on ci_id (cartItems d)).
Qed.

(** X8. In a store with unique keys, a request made by one user never
    changes the lines of the cart of another user: whatever the request
    (adding, updating or removing a line, clearing the cart, placing or
    cancelling an order) and whatever ids it names, the lines of every cart
    of another user are the same before and after. *)
Theorem other_carts_untouched {Body} (sv : Services Body) (r : Request) (user : User)
    (w : World) (c' : Cart) :
  keys_ok (db w) ->
  actor r = Some user ->
  c' ∈ carts (db w) ->
  cart_userId c' <> user_id user ->
  itemsOfCart (db (handle sv r w)) (cart_id c') = itemsOfCart (db w) (cart_id c').
Proof.
  intros Hok Hact Hin' Hne.
  destruct r; simpl in Hact; try discriminate; injection Hact as ->; simpl.
  - assert (Hcis : cartItems (db (getCart user w).2) = cartItems (db w)).
    { unfold getCart. erewrite bind_Ok; [|apply cart_findUnique_include_spec].
      destruct (cartOf (db w) (user_id user)); [reflexivity|].
      erewrite bind_Ok; [|apply cart_create_spec]. reflexivity. }
    unfold itemsOfCart. now rewrite Hcis.
  - destruct (addToCart_cases user body w)
      as [(e & He & _)|(p & Hp & Hpos & Hq &
            [(c & item & resp & Hc & Hl & Hnq & Hrun & _)
            |[(c & resp & Hc & Hl & Hrun & _)|(resp & Hc & Hrun & _)]])].
    + now rewrite He.
    + rewrite Hrun. unfold itemsOfCart at 1. simpl.
      apply cartOf_elem in Hc as [Hin Hu].
      pose proof (find_some _ _ Hl) as [Hitem Hm].
      apply andb_true_iff in Hm as [Hm _]. apply bool_decide_eq_true in Hm.
      apply (itemsOfCart_update_other (db w)
               (fun i => {| ci_id := ci_id i; ci_cartId := ci_cartId i;
                            ci_productId := ci_productId i;
                            ci_quantity := ci_quantity item + body_quantity body;
                            ci_price := price p |})); auto.
      * now apply list_elem_of_In.
      * rewrite Hm. intros E. apply (other_cart_id (db w) c c'); auto. congruence.
    + rewrite Hrun. unfold itemsOfCart. simpl. rewrite filter_app.
      apply cartOf_elem in Hc as [Hin Hu].
      rewrite (filter_cons_False _ _ []); [apply app_nil_r|]. simpl.
      intros E. apply (other_cart_id (db w) c c'); auto. congruence.
    + rewrite Hrun. unfold itemsOfCart. simpl. rewrite filter_app.
      rewrite (filter_cons_False _ _ []); [apply app_nil_r|]. simpl.
      intros E. now apply (auto_not_cart_id (db w) c').
  - destruct (updateCartItem_cases user id quantity w)
      as [[e He]|(q & c & item & p & resp & _ & _ & Hc & Hl & _ & _ & Hrun)];
      [now rewrite He|].
    rewrite Hrun. unfold itemsOfCart at 1. simpl.
    apply cartOf_elem in Hc as [Hin Hu].
    rewrite <- (lineById_id _ _ _ _ Hl).
    apply (itemsOfCart_update_other (db w)
             (fun i => {| ci_id := ci_id i; ci_cartId := ci_cartId i;
                          ci_productId := ci_productId i;
                          ci_quantity := q; ci_price := ci_price i |})); auto.
    + exact (find_elem_of _ _ _ Hl).
    + rewrite (lineById_cart _ _ _ _ Hl). intros E.
      apply (other_cart_id (db w) c c'); auto. congruence.
  - destruct (removeFromCart_cases user id w) as [(e & He & _)|(c & item & resp & Hc & Hl & Hrun)];
      [now rewrite He|].
    rewrite Hrun. unfold itemsOfCart at 1. simpl.
    apply cartOf_elem in Hc as [Hin Hu].
    rewrite <- (lineById_id _ _ _ _ Hl).
    apply (itemsOfCart_delete_other (db w)); auto.
    + exact (find_elem_of _ _ _ Hl).
    + rewrite (lineById_cart _ _ _ _ Hl). intros E.
      apply (other_cart_id (db w) c c'); auto. congruence.
  - destruct (clearCart_cases user w) as [(e & He & _)|(c & resp & Hc & Hrun)];
      [now rewrite He|].
    rewrite Hrun. simpl. apply cartOf_elem in Hc as [Hin Hu].
    apply (itemsOfCart_other _ _ (cart_id c)); [reflexivity|].
    apply (other_cart_id (db w) c c'); auto. congruence.
  - destruct (createOrder_cases sv user body w) as [[e He]|(od & c & Hval & Hcart & Hnil & Hstock)];
      [now rewrite He|].
    destruct (createOrder_ok sv user body w od c Hval Hcart Hnil Hstock)
      as (w' & v & msg & Hrun & _ & _ & Hp).
    rewrite Hrun. simpl. destruct Hp as (_ & _ & _ & _ & _ & Hcis & _).
    apply cartOf_elem in Hcart as [Hin Hu].
    apply (itemsOfCart_other _ _ (cart_id c)); [exact Hcis|].
    apply (other_cart_id (db w) c c'); auto. congruence.
  - destruct (cancelOrder_cases sv user id w) as [E|(o & Ho & Hu & Hst & Hprods)];
      [now rewrite E|].
    destruct (cancelOrder_ok sv user id w o Ho Hu Hst Hprods)
      as (w' & Hrun & _ & _ & _ & _ & Hcis).
    rewrite Hrun. simpl. unfold itemsOfCart. now rewrite Hcis.
Qed.

Lemma shop_two_carts_keys_ok : keys_ok (db shop_two_carts).
Proof. repeat split; apply (bool_decide_unpack _); vm_compute; exact I. Qed.

Lemma other_carts_untouched_witness :
  itemsOfCart (db (handle (shop_services true) (RemoveFromCart alice "i3") shop_two_carts)) "c2"
  = itemsOfCart (db shop_two_carts) "c2"
  /\ itemsOfCart (db (handle (shop_services true) (CreateOrder alice tt) shop_two_carts)) "c2"
     = itemsOfCart (db shop_two_carts) "c2".
Proof.
  split.
  - apply (other_carts_untouched (shop_services true) (RemoveFromCart alice "i3") alice
             shop_two_carts {| cart_id := "c2"; cart_userId := "u2" |});
      first [ exact shop_two_carts_keys_ok | reflexivity | discriminate
            | (apply list_elem_of_In; simpl; auto) ].
  - apply (other_carts_untouched (shop_services true) (CreateOrder alice tt) alice
             shop_two_carts {| cart_id := "c2"; cart_userId := "u2" |});
      first [ exact shop_two_carts_keys_ok | reflexivity | discriminate
            | (apply list_elem_of_In; simpl; auto) ].
Defined.

(** ** Lines name stored products, and handlers do not throw *)

Lemma refs_ok_update_items d (f : CartItem -> CartItem) :
  (forall i, ci_productId (f i) = ci_productId i) ->
  refs_ok d -> refs_ok (with_cartItems d (map f (cartItems d))).
Proof.
  intros Hf [Hci Hoi]. split; [|exact Hoi]. simpl.
  apply Forall_forall. intros x Hx.
  apply list_elem_of_In, in_map_iff in Hx as (i & <- & Hin). rewrite Hf.
  rewrite Forall_forall in Hci. apply Hci. now apply list_elem_of_In.
Qed.

Lemma refs_ok_filter_items d (P : CartItem -> Prop) `{!forall i, Decision (P i)} :
  refs_ok d -> refs_ok (with_cartItems d (filter P (cartItems d))).
Proof.
  intros [Hci Hoi]. split; [|exact Hoi]. simpl.
  apply Forall_forall. intros x Hx. apply list_elem_of_filter in Hx as [_ Hx].
  rewrite Forall_forall in Hci. now apply Hci.
Qed.

Lemma refs_ok_add_item d (new : CartItem) :
  is_Some (products d !! ci_productId new) ->
  refs_ok d -> refs_ok (with_cartItems d (cartItems d ++ [new])).
Proof.
  intros Hnew [Hci Hoi]. split; [|exact Hoi]. simpl.
  apply Forall_app. split; [exact Hci | now constructor].
Qed.

Lemma refs_ok_same d d' :
  products d' = products d -> cartItems d' = cartItems d -> orderItems d' = orderItems d ->
  refs_ok d -> refs_ok d'.
Proof. intros Hp Hc Ho. unfold refs_ok. now rewrite Hp, Hc, Ho. Qed.

Lemma refs_ok_stock d d' (g : ObjectId -> Product -> Product) :
  (forall pid, products d' !! pid = g pid <$> products d !! pid) ->
  cartItems d' = cartItems d -> orderItems d' = orderItems d ->
  refs_ok d -> refs_ok d'.
Proof.
  intros Hp Hc Ho [Hci Hoi]. unfold refs_ok. rewrite Hc, Ho. split.
  - eapply Forall_impl; [exact Hci|]. intros i [p Hi]. rewrite Hp, Hi. simpl. eauto.
  - eapply Forall_impl; [exact Hoi|]. intros i [p Hi]. rewrite Hp, Hi. simpl. eauto.
Qed.

Lemma order_placed_refs_ok (user : User) od c total oid d d' :
  order_placed user od {| cv_cart := c; cv_items := cart_items_with_product d (cart_id c) |}
               total oid d d' ->
  refs_ok d -> refs_ok d'.
Proof.
  intros (_ & _ & _ & (news & Hois & _ & Hlines & _) & Hps & Hcis & _) [Hci Hoi].
  simpl in *.
  assert (Hdom : forall pid, is_Some (products d !! pid) -> is_Some (products d' !! pid)).
  { intros pid [p Hp]. rewrite Hps, Hp. simpl. eauto. }
  split.
  - rewrite Hcis. apply Forall_forall. intros i Hi.
    apply list_elem_of_filter in Hi as [_ Hi]. apply Hdom.
    rewrite Forall_forall in Hci. now apply Hci.
  - rewrite Hois. apply Forall_app. split.
    + eapply Forall_impl; [exact Hoi|]. intros i. apply Hdom.
    + apply Forall_forall. intros oi Hin. apply Hdom.
      assert (Hpid : In (oi_productId oi) (map (fun l => l.1.1) (map orderLine news)))
        by (rewrite map_map; apply in_map_iff; exists oi; split;
            [reflexivity | now apply list_elem_of_In]).
      rewrite Hlines, map_map in Hpid. apply in_map_iff in Hpid as (it & Hit & Hin').
      unfold cart_items_with_product in Hin'. apply in_map_iff in Hin' as (ci & <- & Hci').
      simpl in Hit. rewrite <- Hit.
      apply list_elem_of_In, list_elem_of_filter in Hci' as [_ Hci'].
      rewrite Forall_forall in Hci. now apply Hci.
Qed.

Lemma handle_refs_ok {Body} (sv : Services Body) (r : Request) w :
  refs_ok (db w) -> refs_ok (db (handle sv r w)).
Proof.
  intros Hok. destruct r; simpl.
  - destruct (getCart_write user w) as (Hp & _ & Ho).
    apply (refs_ok_same (db w)); auto.
    unfold getCart. erewrite bind_Ok; [|apply cart_findUnique_include_spec].
    destruct (cartOf (db w) (user_id user)); [reflexivity|].
    erewrite bind_Ok; [|apply cart_create_spec]. reflexivity.
  - destruct (addToCart_cases user body w)
      as [(e & He & _)|(p & Hp & Hpos & Hq &
            [(c & item & resp & Hc & Hl & Hnq & Hrun & _)
            |[(c & resp & Hc & Hl & Hrun & _)|(resp & Hc & Hrun & _)]])].
    + now rewrite He.
    + rewrite Hrun. simpl. apply (refs_ok_update_items (db w)); [|exact Hok].
      intros i. now destruct (bool_decide _).
    + rewrite Hrun. simpl. apply (refs_ok_add_item (db w)); [simpl; rewrite Hp; eauto | exact Hok].
    + rewrite Hrun. simpl.
      set (d1 := with_carts (db w)
                   (carts (db w) ++ [{| cart_id := auto (db w); cart_userId := user_id user |}])).
      apply (refs_ok_add_item d1); [simpl; rewrite Hp; eauto|].
      now apply (refs_ok_same (db w)).
  - destruct (updateCartItem_cases user id quantity w)
      as [[e He]|(q & c & item & p & resp & _ & _ & _ & _ & _ & _ & Hrun)];
      [now rewrite He|].
    rewrite Hrun. simpl. apply (refs_ok_update_items (db w)); [|exact Hok].
    intros i. now destruct (bool_decide _).
  - destruct (removeFromCart_cases user id w) as [(e & He & _)|(c & item & resp & _ & _ & Hrun)];
      [now rewrite He|].
    rewrite Hrun. simpl. now apply (refs_ok_filter_items (db w)).
  - destruct (clearCart_cases user w) as [(e & He & _)|(c & resp & _ & Hrun)];
      [now rewrite He|].
    rewrite Hrun. simpl. now apply (refs_ok_filter_items (db w)).
  - destruct (createOrder_cases sv user body w) as [[e He]|(od & c & Hval & Hcart & Hne & Hstock)];
      [now rewrite He|].
    destruct (createOrder_ok sv user body w od c Hval Hcart Hne Hstock)
      as (w' & v & msg & Hrun & _ & _ & Hp).
    rewrite Hrun. simpl. eapply order_placed_refs_ok; eauto.
  - destruct (cancelOrder_cases sv user id w) as [E|(o & Ho & Hu & Hst & Hprods)];
      [now rewrite E|].
    destruct (cancelOrder_ok sv user id w o Ho Hu Hst Hprods)
      as (w' & Hrun & _ & Hps & Hois & _ & Hcis).
    rewrite Hrun. simpl.
    apply (refs_ok_stock (db w) _
             (fun pid => add_stock (released (itemsOfOrder (db w) id) pid))); auto.
  - destruct (updateOrderStatus_db id st w) as [E|(o & s & _ & E)]; rewrite E; [exact Hok|].
    now apply (refs_ok_same (db w)).
Qed.

Lemma checkStock_error_kind items w e w' :
  Forall (fun it => is_Some it.2) items ->
  checkStock items w = (Err e, w') -> raised_on_purpose e = true.
Proof.
  induction 1 as [|it rest [p Hp] _ IH]; [discriminate|].
  rewrite checkStock_cons, Hp. case_bool_decide; [|exact IH].
  intros [= <- _]. reflexivity.
Qed.

Lemma refs_ok_cart_view d cid :
  refs_ok d -> Forall (fun it => is_Some it.2) (cart_items_with_product d cid).
Proof.
  intros [Hci _]. unfold cart_items_with_product. apply Forall_forall. intros x Hx.
  apply list_elem_of_In, in_map_iff in Hx as (i & <- & Hin). simpl.
  apply list_elem_of_In, list_elem_of_filter in Hin as [_ Hin].
  rewrite Forall_forall in Hci. now apply Hci.
Qed.

Lemma refs_ok_order_lines d id :
  refs_ok d -> Forall (fun i => is_Some (products d !! oi_productId i)) (itemsOfOrder d id).
Proof.
  intros [_ Hoi]. apply Forall_forall. intros i Hi.
  apply list_elem_of_filter in Hi as [_ Hi]. rewrite Forall_forall in Hoi. now apply Hoi.
Qed.

(** X9. When every cart line and order line names a stored product, this
    stays so after any sequence of requests, and then createOrder and
    cancelOrder never end in an exception: the only errors they give are
    the validation and not-found errors they raise themselves, and
    cancelling one's own PENDING or PROCESSING order always succeeds. *)
Theorem handlers_do_not_throw {Body} (sv : Services Body) (w : World) :
  refs_ok (db w) ->
  (forall rs, refs_ok (db (run sv rs w)))
  /\ (forall (user : User) body e w',
        createOrder sv user body w = (Err e, w') -> raised_on_purpose e = true)
  /\ (forall (user : User) id e w',
        cancelOrder sv user id w = (Err e, w') -> raised_on_purpose e = true)
  /\ (forall (user : User) id o,
        orders (db w) !! id = Some o ->
        order_userId o = user_id user ->
        status o = PENDING \/ status o = PROCESSING ->
        exists w', cancelOrder sv user id w = (Ok (json 200 (set_status o CANCELLED)), w')).
Proof.
  intros Hok. split; [|split; [|split]].
  - intros rs. revert w Hok. induction rs as [|r rs IH]; intros w Hok; [exact Hok|].
    simpl. apply IH. now apply handle_refs_ok.
  - intros user body e w' Hrun. unfold createOrder in Hrun.
    destruct (validateOrder sv body) as [m|od] eqn:Hval; [now injection Hrun as <- _|].
    erewrite bind_Ok in Hrun; [|apply cart_findUnique_include_spec].
    destruct (cartOf (db w) (user_id user)) as [c|] eqn:Hc; [|now injection Hrun as <- _].
    destruct (checkStock_cases (cart_items_with_product (db w) (cart_id c)) w)
      as [[Hstock _]|[_ [e0 He0]]].
    + destruct (cart_items_with_product (db w) (cart_id c)) as [|it l] eqn:Hitems.
      * unfold createOrderFromCart in Hrun. simpl in Hrun. now injection Hrun as <- _.
      * destruct (createOrderFromCart_ok sv user od
                    {| cv_cart := c; cv_items := it :: l |} w)
          as (w1 & v & msg & Hrun' & _); [discriminate | exact Hstock | |].
        { rewrite <- Hitems in *. now apply stock_ok_products. }
        rewrite Hrun' in Hrun. discriminate.
    + unfold createOrderFromCart in Hrun. cbn [cv_items] in Hrun.
      case_bool_decide; [now injection Hrun as <- _|].
      erewrite bind_Err in Hrun; [|exact He0]. injection Hrun as <- _.
      eapply checkStock_error_kind; [|exact He0]. now apply refs_ok_cart_view.
  - intros user id e w' Hrun.
    destruct (orders (db w) !! id) as [o|] eqn:Ho.
    + destruct (decide (order_userId o = user_id user)) as [Hu|Hu].
      * destruct (decide (status o = PENDING \/ status o = PROCESSING)) as [Hst|Hst].
        -- destruct (cancelOrder_ok sv user id w o Ho Hu Hst (refs_ok_order_lines _ _ Hok))
             as (w1 & Hrun' & _).
           rewrite Hrun' in Hrun. discriminate.
        -- rewrite (cancelOrder_not_cancellable sv user id w o Ho Hu) in Hrun by tauto.
           now injection Hrun as <- _.
      * unfold cancelOrder in Hrun. erewrite bind_Ok in Hrun; [|apply order_findFirst_spec].
        unfold orderOf in Hrun. rewrite (order_view_Some _ _ _ Ho) in Hrun.
        cbn [ov_order] in Hrun. rewrite bool_decide_eq_false_2 in Hrun by done.
        now injection Hrun as <- _.
    + unfold cancelOrder in Hrun. erewrite bind_Ok in Hrun; [|apply order_findFirst_spec].
      unfold orderOf, order_view in Hrun. rewrite Ho in Hrun. now injection Hrun as <- _.
  - intros user id o Ho Hu Hst.
    destruct (cancelOrder_ok sv user id w o Ho Hu Hst (refs_ok_order_lines _ _ Hok))
      as (w1 & Hrun & _). eauto.
Qed.

Lemma shop_refs_ok : refs_ok (db shop).
Proof. split; repeat constructor; vm_compute; eauto. Qed.

Lemma shop_pending_refs_ok : refs_ok (db shop_pending).
Proof. split; repeat constructor; vm_compute; eauto. Qed.

Lemma handlers_do_not_throw_witness :
  refs_ok (db (run (shop_services true) shop_day shop))
  /\ exists w', cancelOrder (shop_services true) alice "o1" shop_pending
                = (Ok (json 200 {| order_userId := "u1"; totalAmount := 20%float;
                                   status := CANCELLED;
                                   shippingAddress := "1 Main Street";
                                   paymentMethod := "card" |}), w').
Proof.
  split.
  - apply (proj1 (handlers_do_not_throw (shop_services true) shop shop_refs_ok)).
  - apply (proj2 (proj2 (proj2 (handlers_do_not_throw (shop_services true) shop_pending
                                  shop_pending_refs_ok)))
             alice "o1"
             {| order_userId := "u1"; totalAmount := 20%float; status := PENDING;
                shippingAddress := "1 Main Street"; paymentMethod := "card" |});
      first [ reflexivity | (left; reflexivity) ].
Defined.

(** ** Further properties of the order controller *)

(** X10. createOrder succeeds exactly when the body passes validation, the
    user has a cart with at least one line, and every line names a stored
    product whose stock covers the quantity of the line. *)
Theorem place_order_succeeds_iff {Body} (sv : Services Body) (user : User) (body : Body)
    (w : World) :
  succeeded (createOrder sv user body w).1 = true
  <-> exists od c,
        validateOrder sv body = ParseOk od
        /\ cartOf (db w) (user_id user) = Some c
        /\ itemsOfCart (db w) (cart_id c) <> []
        /\ Forall (fun i => exists p, products (db w) !! ci_productId i = Some p
                                      /\ ci_quantity i <= stock p)
                  (itemsOfCart (db w) (cart_id c)).
Proof.
  split.
  - intros Hs.
    destruct (createOrder_cases sv user body w) as [[e He]|(od & c & Hval & Hcart & Hne & Hok)];
      [rewrite He in Hs; discriminate|].
    exists od, c. split; [exact Hval|]. split; [exact Hcart|]. split.
    + intros E. apply Hne. unfold cart_items_with_product. now rewrite E.
    + now apply stock_ok_lines.
  - intros (od & c & Hval & Hcart & Hne & Hall).
    destruct (createOrder_ok sv user body w od c Hval Hcart) as (w' & v & msg & Hrun & _).
    + unfold cart_items_with_product. destruct (itemsOfCart (db w) (cart_id c));
        [contradiction | discriminate].
    + unfold stock_ok, cart_items_with_product. apply Forall_forall. intros x Hx.
      apply list_elem_of_In, in_map_iff in Hx as (i & <- & Hin). simpl.
      rewrite Forall_forall in Hall. apply Hall. now apply list_elem_of_In.
    + now rewrite Hrun.
Qed.

(** X11. createOrder on a body that fails validation, for a user without a
    cart, or for a cart without lines ends with a ValidationError and writes
    nothing. A successful createOrder empties the cart, so the same user
    asking again straight away gets [Cart is empty] and no second order. *)
Theorem place_order_needs_a_cart {Body} (sv : Services Body) (user : User) (w : World) :
  (forall body message,
     validateOrder sv body = ParseError message ->
     createOrder sv user body w = (Err (ValidationError message), w))
  /\ (forall body od,
        validateOrder sv body = ParseOk od ->
        cartOf (db w) (user_id user) = None ->
        createOrder sv user body w = (Err (ValidationError "Cart is empty"), w))
  /\ (forall body od c,
        validateOrder sv body = ParseOk od ->
        cartOf (db w) (user_id user) = Some c ->
        itemsOfCart (db w) (cart_id c) = [] ->
        createOrder sv user body w = (Err (ValidationError "Cart is empty"), w))
  /\ (forall body body' od resp w1,
        createOrder sv user body w = (Ok resp, w1) ->
        validateOrder sv body' = ParseOk od ->
        createOrder sv user body' w1 = (Err (ValidationError "Cart is empty"), w1)).
Proof.
  assert (Hempty : forall w0 body od c,
             validateOrder sv body = ParseOk od ->
             cartOf (db w0) (user_id user) = Some c ->
             itemsOfCart (db w0) (cart_id c) = [] ->
             createOrder sv user body w0 = (Err (ValidationError "Cart is empty"), w0)).
  { intros w0 body od c Hval Hc Hnil. unfold createOrder. rewrite Hval.
    erewrite bind_Ok; [|apply cart_findUnique_include_spec]. rewrite Hc.
    unfold createOrderFromCart, cart_items_with_product. cbn [cv_items]. now rewrite Hnil. }
  split; [|split; [|split]].
  - intros body m Hval. unfold createOrder. now rewrite Hval.
  - intros body od Hval Hc. unfold createOrder. rewrite Hval.
    erewrite bind_Ok; [|apply cart_findUnique_include_spec]. now rewrite Hc.
  - intros body od c. apply Hempty.
  - intros body body' od resp w1 Hrun Hval'.
    destruct (createOrder_cases sv user body w) as [[e He]|(od0 & c & Hval & Hcart & Hne & Hok)];
      [rewrite He in Hrun; discriminate|].
    destruct (createOrder_ok sv user body w od0 c Hval Hcart Hne Hok)
      as (w' & v & msg & Hrun' & _ & _ & Hp).
    rewrite Hrun' in Hrun. injection Hrun as <- <-.
    destruct Hp as (_ & _ & _ & _ & _ & Hcis & Hcarts). simpl in Hcis.
    apply (Hempty w' body' od c Hval').
    + unfold cartOf in *. now rewrite Hcarts.
    + now apply (itemsOfCart_deleted (db w)).
Qed.

Lemma place_order_needs_a_cart_witness :
  createOrder (shop_services true) bob tt shop
  = (Err (ValidationError "Cart is empty"), shop)
  /\ match createOrder (shop_services true) alice tt shop with
     | (Ok _, w1) =>
         createOrder (shop_services true) alice tt w1
         = (Err (ValidationError "Cart is empty"), w1)
     | (Err _, _) => False
     end.
Proof.
  split.
  - apply (proj1 (proj2 (place_order_needs_a_cart (shop_services true) bob shop)) tt
             {| od_shippingAddress := "1 Main Street"; od_paymentMethod := "card" |});
      reflexivity.
  - destruct (createOrder (shop_services true) alice tt shop) as [[resp|e] w1] eqn:E.
    + apply (proj2 (proj2 (proj2 (place_order_needs_a_cart (shop_services true) alice shop)))
               tt tt {| od_shippingAddress := "1 Main Street"; od_paymentMethod := "card" |}
               resp w1 E). reflexivity.
    + vm_compute in E. discriminate.
Defined.

(** X12. An order that is PROCESSING can still be cancelled by its owner,
    with the same effect as for a PENDING one: the status becomes CANCELLED
    and every product is credited with the quantity of its lines. *)
Theorem cancel_processing_order {Body} (sv : Services Body) (user : User) (id : ObjectId)
    (w : World) o :
  orders (db w) !! id = Some o ->
  order_userId o = user_id user ->
  status o = PROCESSING ->
  Forall (fun i => is_Some (products (db w) !! oi_productId i)) (itemsOfOrder (db w) id) ->
  exists w',
    cancelOrder sv user id w = (Ok (json 200 (set_status o CANCELLED)), w')
    /\ status <$> orders (db w') !! id = Some CANCELLED
    /\ (forall pid,
          products (db w') !! pid
          = add_stock (released (itemsOfOrder (db w) id) pid) <$> products (db w) !! pid)
    /\ orderItems (db w') = orderItems (db w)
    /\ cartItems (db w') = cartItems (db w).
Proof.
  intros Ho Hu Hst Hprods.
  destruct (cancelOrder_ok sv user id w o Ho Hu (or_intror Hst) Hprods)
    as (w' & Hrun & Hords & Hps & Hois & _ & Hcis).
  exists w'. repeat split; auto. rewrite Hords, lookup_insert_eq. reflexivity.
Qed.

Lemma cancel_processing_order_witness :
  exists w',
    cancelOrder (shop_services true) alice "o1"
      {| db := with_orders (db shop_shipped)
                 {[ "o1" := {| order_userId := "u1"; totalAmount := 20%float;
                               status := PROCESSING;
                               shippingAddress := "1 Main Street";
                               paymentMethod := "card" |} ]};
         logs := [] |}
    = (Ok (json 200 {| order_userId := "u1"; totalAmount := 20%float; status := CANCELLED;
                       shippingAddress := "1 Main Street"; paymentMethod := "card" |}), w')
    /\ stock <$> products (db w') !! "pA" = Some 5.
Proof.
  destruct (cancel_processing_order (shop_services true) alice "o1"
              {| db := with_orders (db shop_shipped)
                         {[ "o1" := {| order_userId := "u1"; totalAmount := 20%float;
                                       status := PROCESSING;
                                       shippingAddress := "1 Main Street";
                                       paymentMethod := "card" |} ]};
                 logs := [] |}
              {| order_userId := "u1"; totalAmount := 20%float; status := PROCESSING;
                 shippingAddress := "1 Main Street"; paymentMethod := "card" |})
    as (w' & Hrun & _ & Hps & _); [reflexivity | reflexivity | reflexivity | |].
  - repeat constructor. vm_compute. eauto.
  - exists w'. split; [exact Hrun|]. rewrite Hps. reflexivity.
Defined.



Lemma place_order_succeeds_iff_witness :
  succeeded (createOrder (shop_services true) alice tt shop).1 = true.
Proof.
  apply (proj2 (place_order_succeeds_iff (shop_services true) alice tt shop)).
  exists {| od_shippingAddress := "1 Main Street"; od_paymentMethod := "card" |},
         {| cart_id := "c1"; cart_userId := "u1" |}.
  split; [reflexivity|]. split; [reflexivity|]. split; [discriminate|].
  repeat constructor; eexists; (split; [vm_compute; reflexivity | simpl; lia]).
Defined.

(** ** The admin status update *)

(** X14. updateOrderStatus accepts the five status names and nothing else,
    reports an unknown order as not found, and otherwise sets the status of
    that order, whatever its current status (no transition is refused). It
    writes nothing but that status: in particular an order set to CANCELLED
    this way gets no stock back. *)
Theorem admin_status_update_only_sets_status (id : ObjectId) (st : string) (w : World) :
  (parseStatus st = None ->
   updateOrderStatus id st w = (Err (NotFoundError "Invalid status"), w))
  /\ (forall s, parseStatus st = Some s -> orders (db w) !! id = None ->
                updateOrderStatus id st w = (Err (NotFoundError "Order not found"), w))
  /\ (forall s o, parseStatus st = Some s -> orders (db w) !! id = Some o ->
                  updateOrderStatus id st w
                  = (Ok (json 200 (set_status o s)),
                     {| db := with_orders (db w) (<[id := set_status o s]> (orders (db w)));
                        logs := logs w |}))
  /\ products (db (updateOrderStatus id st w).2) = products (db w)
  /\ orderItems (db (updateOrderStatus id st w).2) = orderItems (db w)
  /\ cartItems (db (updateOrderStatus id st w).2) = cartItems (db w).
Proof.
  split; [|split; [|split]].
  - intros Hs. unfold updateOrderStatus. now rewrite Hs.
  - intros s Hs Ho. unfold updateOrderStatus. rewrite Hs.
    erewrite bind_Ok; [|apply order_findUnique_spec]. unfold order_view. now rewrite Ho.
  - intros s o Hs Ho. unfold updateOrderStatus. rewrite Hs.
    erewrite bind_Ok; [|apply order_findUnique_spec]. rewrite (order_view_Some _ _ _ Ho).
    erewrite bind_Ok; [|apply order_update_status_Some, Ho]. reflexivity.
  - destruct (updateOrderStatus_db id st w) as [E|(o & s & _ & E)]; rewrite E; auto.
Qed.

Lemma admin_status_update_only_sets_status_witness :
  updateOrderStatus "o1" "cancelled" shop_shipped
  = (Err (NotFoundError "Invalid status"), shop_shipped)
  /\ updateOrderStatus "o9" "CANCELLED" shop_shipped
     = (Err (NotFoundError "Order not found"), shop_shipped)
  /\ (updateOrderStatus "o1" "PENDING" shop_shipped).1
     = Ok (json 200 {| order_userId := "u1"; totalAmount := 20%float; status := PENDING;
                       shippingAddress := "1 Main Street"; paymentMethod := "card" |}).
Proof.
  split; [|split].
  - apply (proj1 (admin_status_update_only_sets_status "o1" "cancelled" shop_shipped)).
    reflexivity.
  - apply (proj1 (proj2 (admin_status_update_only_sets_status "o9" "CANCELLED" shop_shipped))
             CANCELLED); reflexivity.
  - rewrite (proj1 (proj2 (proj2 (admin_status_update_only_sets_status "o1" "PENDING"
                                    shop_shipped)))
               PENDING
               {| order_userId := "u1"; totalAmount := 20%float; status := SHIPPED;
                  shippingAddress := "1 Main Street"; paymentMethod := "card" |}
               eq_refl eq_refl).
    reflexivity.
Defined.

(** X15. Stock is credited once per cancellation, not once per order: when
    a cancelled order is set back to PENDING by the admin status update and
    cancelled again by its owner, every product of the order has been
    credited twice with the quantity of its lines. *)
Theorem reopened_order_is_credited_twice {Body} (sv : Services Body) (user : User)
    (id : ObjectId) (w : World) o :
  orders (db w) !! id = Some o ->
  order_userId o = user_id user ->
  status o = PENDING ->
  Forall (fun i => is_Some (products (db w) !! oi_productId i)) (itemsOfOrder (db w) id) ->
  exists r1 w1 r2 w2 r3 w3,
    cancelOrder sv user id w = (Ok r1, w1)
    /\ updateOrderStatus id "PENDING" w1 = (Ok r2, w2)
    /\ cancelOrder sv user id w2 = (Ok r3, w3)
    /\ status <$> orders (db w3) !! id = Some CANCELLED
    /\ forall pid,
         products (db w3) !! pid
         = add_stock (2 * released (itemsOfOrder (db w) id) pid) <$> products (db w) !! pid.
Proof.
  intros Ho Hu Hst Hprods.
  destruct (cancelOrder_ok sv user id w o Ho Hu (or_introl Hst) Hprods)
    as (w1 & Hrun1 & Hords1 & Hps1 & Hois1 & _).
  set (o1 := set_status o CANCELLED) in *.
  assert (Ho1 : orders (db w1) !! id = Some o1) by (rewrite Hords1; apply lookup_insert_eq).
  set (w2 := {| db := with_orders (db w1) (<[id := set_status o1 PENDING]> (orders (db w1)));
                logs := logs w1 |}).
  assert (Hrun2 : updateOrderStatus id "PENDING" w1 = (Ok (json 200 (set_status o1 PENDING)), w2)).
  { unfold updateOrderStatus. change (parseStatus "PENDING") with (Some PENDING).
    cbv beta iota.
    erewrite bind_Ok; [|apply order_findUnique_spec]. rewrite (order_view_Some _ _ _ Ho1).
    erewrite bind_Ok; [|apply order_update_status_Some, Ho1]. reflexivity. }
  assert (Hitems : itemsOfOrder (db w2) id = itemsOfOrder (db w) id)
    by (unfold itemsOfOrder; simpl; now rewrite Hois1).
  destruct (cancelOrder_ok sv user id w2 (set_status o1 PENDING))
    as (w3 & Hrun3 & Hords3 & Hps3 & _).
  { simpl. apply lookup_insert_eq. }
  { exact Hu. }
  { now left. }
  { rewrite Hitems. eapply Forall_impl; [exact Hprods|]. intros i [p Hp]. simpl.
    rewrite Hps1, Hp. simpl. eauto. }
  eexists _, w1, _, w2, _, w3. split; [exact Hrun1|]. split; [exact Hrun2|].
  split; [exact Hrun3|]. split.
  - rewrite Hords3, lookup_insert_eq. reflexivity.
  - intros pid. rewrite Hps3, Hitems. simpl. rewrite Hps1.
    destruct (products (db w) !! pid) as [p|]; simpl; [|reflexivity].
    rewrite add_stock_add. f_equal. f_equal. lia.
Qed.

Lemma reopened_order_is_credited_twice_witness :
  exists r1 w1 r2 w2 r3 w3,
    cancelOrder (shop_services true) alice "o1" shop_pending = (Ok r1, w1)
    /\ updateOrderStatus "o1" "PENDING" w1 = (Ok r2, w2)
    /\ cancelOrder (shop_services true) alice "o1" w2 = (Ok r3, w3)
    /\ stock <$> products (db w3) !! "pA" = Some 7.
Proof.
  destruct (reopened_order_is_credited_twice (shop_services true) alice "o1" shop_pending
              {| order_userId := "u1"; totalAmount := 20%float; status := PENDING;
                 shippingAddress := "1 Main Street"; paymentMethod := "card" |})
    as (r1 & w1 & r2 & w2 & r3 & w3 & H1 & H2 & H3 & _ & Hps);
    [reflexivity | reflexivity | reflexivity | |].
  - repeat constructor. vm_compute. eauto.
  - exists r1, w1, r2, w2, r3, w3. repeat split; auto. rewrite Hps. reflexivity.
Defined.

(** ** Reading an order back, and the confirmation mail *)






(** X18. The cart controller keeps carts well formed: starting from a store
    where every cart line has a positive quantity and no cart holds two
    lines for the same product, this is still so after any sequence of
    requests. addToCart merges into the line of the product instead of
    adding a second one, and no handler writes a quantity below 1. *)
Theorem cart_lines_stay_well_formed {Body} (sv : Services Body) (rs : list Request)
    (w : World) :
  db_ok (db w) ->
  Forall (fun i => 0 < ci_quantity i) (cartItems (db (run sv rs w)))
  /\ forall cid, NoDup (map ci_productId (itemsOfCart (db (run sv rs w)) cid)).
Proof.
  intros Hok. destruct (run_db_ok sv rs w Hok) as (_ & Hq & Hnd & _). auto.
Qed.

Lemma cart_lines_stay_well_formed_witness :
  Forall (fun i => 0 < ci_quantity i)
         (cartItems (db (run (shop_services true)
                           [AddToCart alice {| body_productId := "pA"; body_quantity := 1 |};
                            AddToCart alice {| body_productId := "pA"; body_quantity := 1 |};
                            UpdateCartItem alice "i2" (Some 3)] shop)))
  /\ forall cid,
       NoDup (map ci_productId
                (itemsOfCart (db (run (shop_services true)
                                    [AddToCart alice {| body_productId := "pA"; body_quantity := 1 |};
                                     AddToCart alice {| body_productId := "pA"; body_quantity := 1 |};
                                     UpdateCartItem alice "i2" (Some 3)] shop)) cid)).
Proof. apply cart_lines_stay_well_formed. exact shop_db_ok. Defined.
